(** * Student Management System (st10.py): a shallow embedding

    The development follows the layout of [st10.py]:

    - Python strings and floats, as far as the program uses them;
    - the [Student] model class;
    - the normalized SQLite store created by [_init_db]: three tables,
      foreign keys with [ON DELETE CASCADE], one connection with its
      commit and rollback;
    - the methods of [StudentManagementApp] that read or write the student
      list and the store, written in a small state-and-exception monad
      over the application object;
    - the commands of the form, of the two Delete buttons and of the
      filter controls, and what runs at exit;
    - the properties of section 8 of the specification and of the
      persistence contract of section 4.1, and further properties of the
      methods: what a write leaves alone, the constraints of the schema,
      what the store gives back, and the behaviour under database errors;
    - for the average, the rounding of binary64 division on exact
      values, from the definitions of [SpecFloat].

    Widgets, the table view with its sorting, charts, and the PDF and CSV
    writers are left out. *)

From Stdlib Require Import List String Ascii Bool ZArith NArith Lia.
From Stdlib Require Import DecimalString Permutation.
From Stdlib Require Import QArith Qpower Qabs Lqa.
From Stdlib Require Import Floats.SpecFloat.
Import ListNotations.

Close Scope Q_scope.

Local Open Scope string_scope.
Local Open Scope list_scope.

(* ================================================================= *)
(** ** Python strings *)

(** A Python [str] is a sequence of code points; the model keeps the code
    points below 256, one [ascii] each. *)

(** [str.isspace] on one code point below 256. *)
Definition is_space (c : ascii) : bool :=
  let n := N_of_ascii c in
  ((9 <=? n) && (n <=? 13) || (28 <=? n) && (n <=? 32) || (n =? 133) || (n =? 160))%N.

(** [str.lower] on one code point below 256. *)
Definition lower_char (c : ascii) : ascii :=
  let n := N_of_ascii c in
  if ((65 <=? n) && (n <=? 90) ||
      (192 <=? n) && (n <=? 222) && negb (n =? 215))%N
  then ascii_of_N (n + 32) else c.

Fixpoint lower (s : string) : string :=
  match s with
  | EmptyString => EmptyString
  | String c s' => String (lower_char c) (lower s')
  end.

Fixpoint lstrip (s : string) : string :=
  match s with
  | EmptyString => EmptyString
  | String c s' => if is_space c then lstrip s' else s
  end.

Fixpoint rstrip (s : string) : string :=
  match s with
  | EmptyString => EmptyString
  | String c s' =>
      match rstrip s' with
      | EmptyString => if is_space c then EmptyString else String c EmptyString
      | r => String c r
      end
  end.

(** [s.strip()] *)
Definition strip (s : string) : string := rstrip (lstrip s).

(** Truth value of a string: [if s:] *)
Definition truthy (s : string) : bool :=
  match s with EmptyString => false | _ => true end.

(** [s.split(sep)] for a one-character separator. *)
Fixpoint split (sep : ascii) (s : string) : list string :=
  match s with
  | EmptyString => [EmptyString]
  | String c s' =>
      if Ascii.eqb c sep then EmptyString :: split sep s'
      else match split sep s' with
           | h :: t => String c h :: t
           | [] => [String c EmptyString]
           end
  end.

(** [sep.join(items)] *)
Definition join (sep : string) (items : list string) : string :=
  String.concat sep items.

(** [q in s] on strings: [q] occurs in [s] as a contiguous run. *)
Fixpoint str_in (q s : string) : bool :=
  String.prefix q s ||
  match s with
  | EmptyString => false
  | String _ s' => str_in q s'
  end.

(** [[x.strip() for x in text.split(",") if x.strip()]] *)
Definition comma_items (text : string) : list string :=
  filter truthy (map strip (split "," text)).

(* ================================================================= *)
(** ** Python floats *)

(** A Python [float] is an IEEE 754 binary64 datum. *)
Definition float := spec_float.

Definition prec : Z := 53.
Definition emax : Z := 1024.

(** The float of an integer (exact below 2^53). *)
Definition float_of_Z (z : Z) : float := binary_normalize prec emax z 0 false.

(** [a >= n] and [a < n] for a float [a] and an integer literal [n]:
    the IEEE comparison with the float of [n]. *)
Definition float_ge (a : float) (n : Z) : bool := SFleb (float_of_Z n) a.
Definition float_lt (a : float) (n : Z) : bool := SFltb a (float_of_Z n).

(** [x / n] for a float [x] and an integer [n]. *)
Definition float_div_int (x : float) (n : Z) : float :=
  SFdiv prec emax x (float_of_Z n).

(** What the program takes from the Python runtime and the file system.
    The conversions between text and floats, [sum] and [round] are
    CPython's; the program only calls them. *)
Class Runtime := {
  (** [float(x)] on a string; [None] stands for [ValueError]. *)
  py_float : string -> option float;
  (** [str(x)] on a float. *)
  py_str : float -> string;
  (** [sum(vals)] on a list of floats. *)
  py_sum : list float -> float;
  (** [round(x, ndigits)] *)
  py_round : float -> Z -> float;
  (** The photo block of the form: the chosen file is kept when it already
      lies under the images directory and copied there otherwise; the
      result is the relative path, or the text of the error raised. *)
  place_image : string -> string -> string + string
}.

(* ================================================================= *)
(** ** Model *)

Record Student := mkStudent {
  uid : string;
  name : string;
  student_class : string;
  section : string;
  subjects : list string;
  marks : list string;
  image_filename : string
}.

(** Rows of the three tables of [_init_db]. *)
Record student_row := mkStudentRow {
  row_uid : string;
  row_name : string;
  row_student_class : string;
  row_section : string;
  row_image_filename : string
}.

Record subject_row := mkSubjectRow {
  subj_id : Z;
  subj_name : string
}.

Record link_row := mkLinkRow {
  link_id : Z;
  student_uid : string;
  subject_id : Z;
  mark : option float
}.

(* ================================================================= *)
(** ** Database (normalized) *)

(** The store as [_init_db] creates it. A table is the list of its rows in
    rowid order, which is the order a full scan returns them in. The two
    [AUTOINCREMENT] tables carry their [sqlite_sequence] counter. *)
Record database := mkDatabase {
  students_table : list student_row;
  subjects_table : list subject_row;
  subjects_seq : Z;
  student_subjects_table : list link_row;
  student_subjects_seq : Z
}.

Definition empty_database : database := mkDatabase [] [] 0 [] 0.

(** Exceptions the methods raise or catch. *)
Inductive exn :=
| OperationalError (text : string)
| IntegrityError (text : string)
| ValueError (text : string)
| UnboundLocalError (text : string).

Definition exn_text (e : exn) : string :=
  match e with
  | OperationalError t | IntegrityError t | ValueError t
  | UnboundLocalError t => t
  end.

Definition has_uid (u : string) (r : student_row) : bool := row_uid r =? u.
Definition of_student (u : string) (l : link_row) : bool := student_uid l =? u.
Definition mem_string (u : string) (us : list string) : bool :=
  existsb (String.eqb u) us.

(** An [AUTOINCREMENT] rowid: one more than the largest ever used. *)
Definition next_rowid (seq : Z) (ids : list Z) : Z :=
  1 + fold_right Z.max seq ids.

(** [DELETE FROM students WHERE p]; with [PRAGMA foreign_keys = ON] the
    rows of [student_subjects] that reference a deleted student go with
    it ([ON DELETE CASCADE]). *)
Definition delete_students_where (p : student_row -> bool) (d : database)
  : database :=
  let gone := map row_uid (filter p (students_table d)) in
  mkDatabase
    (filter (fun r => negb (p r)) (students_table d))
    (subjects_table d) (subjects_seq d)
    (filter (fun l => negb (mem_string (student_uid l) gone))
            (student_subjects_table d))
    (student_subjects_seq d).

(** [INSERT OR REPLACE INTO students (...) VALUES (...)]: a row with the
    same primary key is deleted first (with its cascade), the new row gets
    a fresh rowid and so comes last in scan order. *)
Definition insert_or_replace_student (r : student_row) (d : database)
  : database :=
  let d' := delete_students_where (has_uid (row_uid r)) d in
  mkDatabase (students_table d' ++ [r]) (subjects_table d') (subjects_seq d')
             (student_subjects_table d') (student_subjects_seq d').

(** [DELETE FROM student_subjects WHERE student_uid = ?] *)
Definition delete_student_subjects (u : string) (d : database) : database :=
  mkDatabase (students_table d) (subjects_table d) (subjects_seq d)
             (filter (fun l => negb (of_student u l)) (student_subjects_table d))
             (student_subjects_seq d).

(** [INSERT OR IGNORE INTO subjects (name) VALUES (?)]: no row is added
    when the name is there already ([name] is [UNIQUE]); the rowid drawn
    for it is used up all the same. *)
Definition insert_or_ignore_subject (n : string) (d : database) : database :=
  let i := next_rowid (subjects_seq d) (map subj_id (subjects_table d)) in
  mkDatabase (students_table d)
             (if mem_string n (map subj_name (subjects_table d))
              then subjects_table d
              else subjects_table d ++ [mkSubjectRow i n])
             i (student_subjects_table d) (student_subjects_seq d).

(** [SELECT id FROM subjects WHERE name = ?], then [fetchone()]. *)
Definition select_subject_id (n : string) (d : database) : option Z :=
  option_map subj_id (find (fun r => subj_name r =? n) (subjects_table d)).

(** What the [REAL] column [mark] gives back for a value bound to it.
    A NaN is bound as NULL. A float with an integer value is kept as that
    integer and turned into a float again when read, which gives the same
    float but for the negative zero: it is read back as [0.0]. *)
Definition bind_real (v : option float) : option float :=
  match v with
  | Some S754_nan => None
  | Some (S754_zero _) => Some (S754_zero false)
  | _ => v
  end.

(** [INSERT INTO student_subjects (student_uid, subject_id, mark)
    VALUES (?, ?, ?)]: both foreign keys are checked. *)
Definition insert_student_subject (u : string) (sid : Z) (v : option float)
  (d : database) : exn + database :=
  if mem_string u (map row_uid (students_table d))
     && existsb (Z.eqb sid) (map subj_id (subjects_table d))
  then
    let i := next_rowid (student_subjects_seq d)
                        (map link_id (student_subjects_table d)) in
    inr (mkDatabase (students_table d) (subjects_table d) (subjects_seq d)
                    (student_subjects_table d ++ [mkLinkRow i u sid (bind_real v)])
                    i)
  else inl (IntegrityError "FOREIGN KEY constraint failed").

(** [DELETE FROM students WHERE uid = ?] *)
Definition delete_student (u : string) (d : database) : database :=
  delete_students_where (has_uid u) d.

(** [DELETE FROM students WHERE uid NOT IN (?, ..., ?)] *)
Definition delete_students_not_in (us : list string) (d : database)
  : database :=
  delete_students_where (fun r => negb (mem_string (row_uid r) us)) d.

(** [DELETE FROM students] *)
Definition delete_all_students (d : database) : database :=
  delete_students_where (fun _ => true) d.

(** [SELECT uid, name, student_class, section, image_filename FROM students] *)
Definition select_students (d : database) : list student_row :=
  students_table d.

(** [ORDER BY sub.name]: an insertion sort on the byte order of the names,
    which keeps rows of equal name in scan order. *)
Fixpoint insert_by_name (r : string * option float)
  (rows : list (string * option float)) : list (string * option float) :=
  match rows with
  | [] => [r]
  | r' :: rest =>
      if String.leb (fst r) (fst r') then r :: rows
      else r' :: insert_by_name r rest
  end.

Definition order_by_name (rows : list (string * option float))
  : list (string * option float) :=
  fold_right insert_by_name [] rows.

(** [SELECT sub.name AS subject, ss.mark AS mark
     FROM student_subjects ss JOIN subjects sub ON ss.subject_id = sub.id
     WHERE ss.student_uid = ? ORDER BY sub.name] *)
Definition select_subject_marks (u : string) (d : database)
  : list (string * option float) :=
  order_by_name
    (flat_map
       (fun ss =>
          map (fun sub => (subj_name sub, mark ss))
              (filter (fun sub => subject_id ss =? subj_id sub)%Z
                      (subjects_table d)))
       (filter (of_student u) (student_subjects_table d))).

(* ================================================================= *)
(** ** The application object and its monad *)

(** [self.conn]: what is committed to the file, what the open transaction
    sees, and the database errors still to come; each statement takes the
    head of [faults], and [true] means that statement fails. *)
Record connection := mkConnection {
  committed : database;
  current : database;
  faults : list bool
}.

(** A message box shown to the user. *)
Inductive dialog :=
| showerror (title text : string)
| showwarning (title text : string)
| showinfo (title text : string).

(** [self]: the in-memory list, the connection, and the message boxes
    shown so far. *)
Record StudentManagementApp := mkApp {
  students : list Student;
  conn : connection;
  dialogs : list dialog
}.

Inductive outcome (A : Type) :=
| Return (a : A)
| Raise (e : exn).
Arguments Return {A} a.
Arguments Raise {A} e.

Definition Py (A : Type) : Type :=
  StudentManagementApp -> outcome A * StudentManagementApp.

Definition ret {A} (a : A) : Py A := fun st => (Return a, st).

Definition raise {A} (e : exn) : Py A := fun st => (Raise e, st).

Definition bind {A B} (m : Py A) (k : A -> Py B) : Py B :=
  fun st =>
    match m st with
    | (Return a, st') => k a st'
    | (Raise e, st') => (Raise e, st')
    end.

Declare Scope py_scope.
Delimit Scope py_scope with py.
Notation "x <- m ;; k" := (bind m (fun x => k))
  (at level 100, m at next level, right associativity) : py_scope.
Notation "m ;; k" := (bind m (fun _ => k))
  (at level 100, right associativity) : py_scope.
Local Open Scope py_scope.

(** [try: body except Exception as e: handler] *)
Definition try_except {A} (body : Py A) (handler : exn -> Py A) : Py A :=
  fun st =>
    match body st with
    | (Return a, st') => (Return a, st')
    | (Raise e, st') => handler e st'
    end.

(** [for x in items: body] *)
Fixpoint for_each {A} (items : list A) (body : A -> Py unit) : Py unit :=
  match items with
  | [] => ret tt
  | x :: rest => body x ;; for_each rest body
  end.

Definition get_students : Py (list Student) :=
  fun st => (Return (students st), st).

Definition set_students (l : list Student) : Py unit :=
  fun st => (Return tt, mkApp l (conn st) (dialogs st)).

Definition set_conn (c : connection) (st : StudentManagementApp)
  : StudentManagementApp :=
  mkApp (students st) c (dialogs st).

Definition messagebox (m : dialog) : Py unit :=
  fun st => (Return tt, mkApp (students st) (conn st) (dialogs st ++ [m])).

(** [self.cur.execute(sql, params)]: the statement runs on the open
    transaction, or fails and leaves it as it was. *)
Definition execute {A} (stmt : database -> exn + (A * database)) : Py A :=
  fun st =>
    let c := conn st in
    match faults c with
    | true :: later =>
        (Raise (OperationalError "disk I/O error"),
         set_conn (mkConnection (committed c) (current c) later) st)
    | _ =>
        match stmt (current c) with
        | inr (a, d') =>
            (Return a, set_conn (mkConnection (committed c) d' (tl (faults c))) st)
        | inl e =>
            (Raise e,
             set_conn (mkConnection (committed c) (current c) (tl (faults c))) st)
        end
    end.

(** A statement that writes and cannot violate a constraint. *)
Definition write (f : database -> database) : database -> exn + (unit * database) :=
  fun d => inr (tt, f d).

(** A statement that writes and may violate a constraint. *)
Definition checked (f : database -> exn + database)
  : database -> exn + (unit * database) :=
  fun d => match f d with inr d' => inr (tt, d') | inl e => inl e end.

(** A [SELECT] with its [fetchone()] or [fetchall()]. *)
Definition fetch {A} (f : database -> A) : database -> exn + (A * database) :=
  fun d => inr (f d, d).

Definition commit (st : StudentManagementApp) : StudentManagementApp :=
  let c := conn st in
  set_conn (mkConnection (current c) (current c) (faults c)) st.

Definition rollback (st : StudentManagementApp) : StudentManagementApp :=
  let c := conn st in
  set_conn (mkConnection (committed c) (committed c) (faults c)) st.

(** [with self.conn: body]: entering does nothing; leaving commits the open
    transaction when the body ended normally (a [return] included) and
    rolls it back when it raised. Blocks do not nest: an inner block's
    commit is a commit of everything so far. *)
Definition with_conn {A} (body : Py A) : Py A :=
  fun st =>
    match body st with
    | (Return a, st') => (Return a, commit st')
    | (Raise e, st') => (Raise e, rollback st')
    end.

(* ================================================================= *)
(** ** Database methods of [StudentManagementApp] *)

(** [_get_subject_id]: the subject id for a subject name, inserting the
    subject if needed; [None] for a blank name or after a database error. *)
Definition _get_subject_id (subject_name : string) : Py (option Z) :=
  if negb (truthy subject_name) then ret None
  else
    let name := strip subject_name in
    if negb (truthy name) then ret None
    else
      try_except
        (with_conn
           (execute (write (insert_or_ignore_subject name)) ;;
            row <- execute (fetch (select_subject_id name)) ;;
            ret row))
        (fun e =>
           messagebox
             (showerror "Database Error"
                ("Failed to get subject id for '" ++ subject_name ++ "': "
                 ++ exn_text e)) ;;
           ret None).

(** [zip(xs, ys)] *)
Definition zip {A B} (xs : list A) (ys : list B) : list (A * B) := combine xs ys.

(** The row [db_upsert_student_normalized] writes for a student
    ([student.image_filename or ""] is the file name itself on strings). *)
Definition row_of_student (s : Student) : student_row :=
  mkStudentRow (uid s) (name s) (student_class s) (section s) (image_filename s).

(** [db_upsert_student_normalized]: insert or update a student and its
    subjects and marks. *)
Definition db_upsert_student_normalized `{Runtime} (student : Student)
  : Py unit :=
  try_except
    (with_conn
       (execute (write (insert_or_replace_student (row_of_student student))) ;;
        execute (write (delete_student_subjects (uid student))) ;;
        for_each (zip (subjects student) (marks student))
          (fun '(subj, mk) =>
             sid <- _get_subject_id subj ;;
             match sid with
             | None => ret tt
             | Some sid =>
                 let mark_val := py_float mk in
                 execute (checked
                            (insert_student_subject (uid student) sid mark_val))
             end)))
    (fun e =>
       messagebox
         (showerror "Database Error"
            ("Failed to save student " ++ uid student ++ ": " ++ exn_text e))).

(** [db_delete_student_normalized] *)
Definition db_delete_student_normalized (u : string) : Py unit :=
  try_except
    (with_conn (execute (write (delete_student u))))
    (fun e =>
       messagebox
         (showerror "Database Error"
            ("Failed to delete student " ++ u ++ ": " ++ exn_text e))).

(** The two lists [load_data] fills side by side from the rows of one
    student; a NULL mark is read as the empty string. *)
Fixpoint unpack_rows `{Runtime} (sm_rows : list (string * option float))
  : list string * list string :=
  match sm_rows with
  | [] => ([], [])
  | r :: rest =>
      let (subjects, marks) := unpack_rows rest in
      (fst r :: subjects,
       match snd r with Some v => py_str v | None => "" end :: marks)
  end.

(** [load_data]: load the students and their subjects and marks into
    memory. *)
Definition load_data `{Runtime} : Py unit :=
  set_students [] ;;
  try_except
    (students_rows <- execute (fetch select_students) ;;
     for_each students_rows
       (fun srow =>
          sm_rows <- execute (fetch (select_subject_marks (row_uid srow))) ;;
          let (subjects, marks) := unpack_rows sm_rows in
          loaded <- get_students ;;
          set_students
            (loaded ++ [mkStudent (row_uid srow) (row_name srow)
                          (row_student_class srow) (row_section srow)
                          subjects marks (row_image_filename srow)])))
    (fun e =>
       messagebox
         (showerror "Database Error"
            ("Failed to load students from database: " ++ exn_text e))).

(** [save_data]: reconcile the in-memory students into the store. *)
Definition save_data `{Runtime} : Py unit :=
  try_except
    (in_memory <- get_students ;;
     let in_memory_uids := map uid in_memory in
     for_each in_memory db_upsert_student_normalized ;;
     with_conn
       (match in_memory_uids with
        | _ :: _ => execute (write (delete_students_not_in in_memory_uids))
        | [] => execute (write delete_all_students)
        end))
    (fun e =>
       messagebox
         (showerror "Database Error"
            ("Failed to sync database: " ++ exn_text e))).

(* ================================================================= *)
(** ** Helpers: averages and grade *)

(** [[float(x) for x in marks if x != ""]]; [None] when a [float(x)]
    raises. *)
Fixpoint float_all `{Runtime} (items : list string) : option (list float) :=
  match items with
  | [] => Some []
  | x :: rest =>
      match py_float x with
      | None => None
      | Some v =>
          match float_all rest with
          | None => None
          | Some vs => Some (v :: vs)
          end
      end
  end.

Definition _avg_of `{Runtime} (student : Student) : option float :=
  match marks student with
  | [] => None
  | _ =>
      match float_all (filter truthy (marks student)) with
      | None => None
      | Some [] => None
      | Some vals =>
          Some (py_round (float_div_int (py_sum vals) (Z.of_nat (List.length vals))) 2)
      end
  end.

Definition _grade_of (avg : option float) : string :=
  match avg with
  | None => "N/A"
  | Some avg =>
      if float_ge avg 90 then "A"
      else if float_ge avg 75 then "B"
      else "C"
  end.

(* ================================================================= *)
(** ** Table operations *)

(** The searchable fields of a student, combined into one lowercase
    string. *)
Definition combined_of (s : Student) : string :=
  lower (join " " [uid s; name s; student_class s; section s;
                   join " " (subjects s); join " " (marks s)]).

(** The [for] loop of [search_students]: its body only rebinds [s] and
    [combined], so what is left after the loop is the binding made for the
    last student, and none for an empty list. *)
Fixpoint search_loop (items : list Student) (bound : option (Student * string))
  : option (Student * string) :=
  match items with
  | [] => bound
  | s :: rest => search_loop rest (Some (s, combined_of s))
  end.

(** [search_students]: the result is the list handed to [refresh_table]
    (which sorts it for display): the whole list for a blank query, and
    [results] otherwise. [search_var] is the text of the search box. *)
Definition search_students (search_var : string) : Py (list Student) :=
  let q := lower (strip search_var) in
  if negb (truthy q) then get_students
  else
    all <- get_students ;;
    let results := [] in
    match search_loop all None with
    | None =>
        raise (UnboundLocalError
                 "cannot access local variable 'combined' where it is not associated with a value")
    | Some (s, combined) =>
        let results := if str_in q combined then results ++ [s] else results in
        ret results
    end.

(* ================================================================= *)
(** ** Add / Update form *)

Inductive form_mode := add | update.

(** The entries of the form when Save is pressed; [img_path_var] is the
    chosen photo, empty when none was chosen. *)
Record form := mkForm {
  entry_UID : string;
  entry_Name : string;
  entry_Class : string;
  entry_Section : string;
  entry_Subjects : string;
  entry_Marks : string;
  img_path_var : string
}.

(** The marks loop of [save]: [str(float(m))] for each entry, [None] at
    the first [ValueError]. *)
Fixpoint marks_of `{Runtime} (marks_input : list string)
  : option (list string) :=
  match marks_input with
  | [] => Some []
  | m :: rest =>
      match py_float m with
      | None => None
      | Some v =>
          match marks_of rest with
          | None => None
          | Some ms => Some (py_str v :: ms)
          end
      end
  end.

(** [s.uid == uid] *)
Definition same_uid (u : string) (s : Student) : bool := uid s =? u.

(** The update loop of [save]: the first student with the uid is assigned
    the new fields in place; the result is that student as it is after the
    assignment, and the list. *)
Fixpoint assign_first (u : string) (f : Student -> Student)
  (items : list Student) : option (Student * list Student) :=
  match items with
  | [] => None
  | s :: rest =>
      if same_uid u s then Some (f s, f s :: rest)
      else match assign_first u f rest with
           | Some (s', rest') => Some (s', s :: rest')
           | None => None
           end
  end.

(** The assignments of the update branch of [save]: every field but the
    uid, and the photo only when a new one was placed. *)
Definition assign_fields (name student_class section : string)
  (subjects marks : list string) (image_target_rel : string) (s : Student)
  : Student :=
  mkStudent (uid s) name student_class section subjects marks
            (if truthy image_target_rel then image_target_rel
             else image_filename s).

(** The last statements of [save]: reload from the store (then the table
    is redrawn and the form closed). *)
Definition reload `{Runtime} : Py unit := load_data.

(** [save], the command of the form's Save button, with [finish] for its
    last statements. Every [return] of the Python function ends the action
    where it stands. *)
Definition save_with `{Runtime} (finish : Py unit) (mode : form_mode)
  (entries : form) : Py unit :=
  let uid := strip (entry_UID entries) in
  let name := strip (entry_Name entries) in
  let student_class := strip (entry_Class entries) in
  let section := strip (entry_Section entries) in
  let subjects := comma_items (entry_Subjects entries) in
  let marks_input := comma_items (entry_Marks entries) in
  if negb (truthy uid && truthy name && truthy student_class) then
    messagebox (showerror "Error" "UID, Name and Class are required.")
  else if match subjects with [] => false | _ => true end
          && negb (List.length subjects =? List.length marks_input)%nat then
    messagebox (showerror "Error" "Number of subjects and marks must match.")
  else
    match marks_of marks_input with
    | None => messagebox (showerror "Error" "Marks must be numeric.")
    | Some marks =>
        image_target_rel <-
          (let chosen := img_path_var entries in
           if truthy chosen then
             match place_image uid chosen with
             | inl rel => ret rel
             | inr e =>
                 messagebox (showwarning "Warning" ("Failed to copy image: " ++ e)) ;;
                 ret ""
             end
           else ret "") ;;
        match mode with
        | add =>
            all <- get_students ;;
            if existsb (same_uid uid) all then
              messagebox (showerror "Error" "UID already exists.")
            else
              let new := mkStudent uid name student_class section
                                   subjects marks image_target_rel in
              set_students (all ++ [new]) ;;
              db_upsert_student_normalized new ;;
              messagebox (showinfo "Success" "Student added.") ;;
              finish
        | update =>
            all <- get_students ;;
            (match assign_first uid
                     (assign_fields name student_class section
                                    subjects marks image_target_rel)
                     all with
             | Some (s, all') =>
                 set_students all' ;;
                 db_upsert_student_normalized s ;;
                 messagebox (showinfo "Success" "Student updated.")
             | None =>
                 messagebox (showerror "Error" "Student not found in memory.")
             end) ;;
            finish
        end
    end.

(** [save] as the button runs it. *)
Definition save `{Runtime} (mode : form_mode) (entries : form) : Py unit :=
  save_with reload mode entries.

(** [_student_form]: the entries as the form opens, empty for a new
    student and filled from [student] for an update (an entry gives back
    the text inserted into it). *)
Definition _student_form (student : option Student) : form :=
  match student with
  | Some student =>
      mkForm (uid student) (name student) (student_class student)
             (section student)
             (join ", " (subjects student)) (join ", " (marks student))
             (if truthy (image_filename student) then image_filename student
              else "")
  | None => mkForm "" "" "" "" "" "" ""
  end.

(** [update_student_form], the command of the Update button: the form the
    user gets, if any. [selected] is the uid read from the selected row of
    the table, if a row is selected. *)
Definition update_student_form (selected : option string)
  : Py (option form) :=
  match selected with
  | None =>
      messagebox (showwarning "Warning" "Select a student to update.") ;;
      ret None
  | Some u =>
      all <- get_students ;;
      match find (same_uid u) all with
      | Some student => ret (Some (_student_form (Some student)))
      | None => ret None
      end
  end.

(* ================================================================= *)
(** ** Delete *)

(** The commands of the two Delete buttons. Both end by redrawing the
    class box and the table, which changes neither the list nor the
    store. *)

Module Toolbar.

(** [delete_student], the command of the Delete button of the toolbar.
    [selected] is the uid read from the selected row of the table, if a
    row is selected, and [confirm] the answer to the question asked. *)
Definition delete_student `{Runtime} (selected : option string)
  (confirm : bool) : Py unit :=
  match selected with
  | None => messagebox (showwarning "Warning" "Select a student to delete.")
  | Some u =>
      if negb confirm then ret tt
      else
        all <- get_students ;;
        set_students (filter (fun s => negb (same_uid u s)) all) ;;
        db_delete_student_normalized u ;;
        load_data ;;
        messagebox (showinfo "Deleted" "Student removed.")
  end.

End Toolbar.

(** [_confirm_delete_and_refresh], the command of the Delete button of
    the profile window; [confirm] is the answer to the question it asks. *)
Definition _confirm_delete_and_refresh (u : string) (confirm : bool)
  : Py unit :=
  if confirm then
    all <- get_students ;;
    set_students (filter (fun s => negb (same_uid u s)) all) ;;
    db_delete_student_normalized u ;;
    messagebox (showinfo "Deleted" "Student removed.")
  else ret tt.

(* ================================================================= *)
(** ** Filtering *)

(** The variables of the search, filter and sort controls, and the values
    offered by the class box ([class_combo['values']]). *)
Record controls := mkControls {
  search_var : string;
  filter_class : string;
  filter_grade : string;
  min_avg_var : string;
  max_avg_var : string;
  sort_by : string;
  sort_asc : bool;
  class_combo : list string
}.

(** [sorted(classes)] for a set of strings: its elements once each, in
    ascending order of code points. *)
Fixpoint insert_class (c : string) (classes : list string) : list string :=
  match classes with
  | [] => [c]
  | c' :: rest =>
      match String.compare c c' with
      | Lt => c :: classes
      | Eq => classes
      | Gt => c' :: insert_class c rest
      end
  end.

Definition sorted_set (classes : list string) : list string :=
  fold_right insert_class [] classes.

(** [_update_filter_options]: the class box offers "All" and the classes
    of the students; a selection it no longer offers falls back to
    "All". *)
Definition _update_filter_options (v : controls) : Py controls :=
  all <- get_students ;;
  let classes := sorted_set (filter truthy (map student_class all)) in
  let vals := "All" :: classes in
  ret (mkControls (search_var v)
         (if negb (mem_string (filter_class v) vals) then "All"
          else filter_class v)
         (filter_grade v) (min_avg_var v) (max_avg_var v)
         (sort_by v) (sort_asc v) vals).

(** A bound of [apply_filters]: none for a blank entry, else
    [float(text.strip())]; the outer [None] stands for [ValueError]. *)
Definition bound_of `{Runtime} (text : string) : option (option float) :=
  if negb (strip text =? "") then option_map Some (py_float (strip text))
  else Some None.

(** The body of the loop of [apply_filters]: [false] where it reaches a
    [continue]. *)
Definition passes `{Runtime} (selected_class selected_grade : string)
  (min_avg max_avg : option float) (s : Student) : bool :=
  let avg := _avg_of s in
  let grade := _grade_of avg in
  if truthy selected_class && negb (selected_class =? "All")
     && negb (student_class s =? selected_class) then false
  else if truthy selected_grade && negb (selected_grade =? "All")
          && negb (grade =? selected_grade) then false
  else if match min_avg with
          | Some m => match avg with None => true | Some a => SFltb a m end
          | None => false
          end then false
  else if match max_avg with
          | Some m => match avg with None => true | Some a => SFltb m a end
          | None => false
          end then false
  else true.

(** [apply_filters]: the list handed to [refresh_table], none when the
    method returns before. *)
Definition apply_filters `{Runtime} (v : controls)
  : Py (option (list Student)) :=
  let selected_class := filter_class v in
  let selected_grade := filter_grade v in
  match bound_of (min_avg_var v) with
  | Some min_avg =>
      match bound_of (max_avg_var v) with
      | Some max_avg =>
          all <- get_students ;;
          ret (Some (filter (passes selected_class selected_grade
                                    min_avg max_avg) all))
      | None =>
          messagebox (showerror "Error" "Min/Max averages must be numeric.") ;;
          ret None
      end
  | None =>
      messagebox (showerror "Error" "Min/Max averages must be numeric.") ;;
      ret None
  end.

(** [reset_filters_and_refresh]: every control back to its default (then
    the table is redrawn). *)
Definition reset_filters_and_refresh (v : controls) : Py controls :=
  _update_filter_options
    (mkControls "" "All" "All" "" "" "UID" true (class_combo v)).

(* ================================================================= *)
(** ** Exit *)

(** [_on_exit]: the students are saved (then the connection is closed and
    the window destroyed). *)
Definition _on_exit `{Runtime} : Py unit := save_data.

(* ================================================================= *)
(** ** A reference runtime *)

(** One implementation of [Runtime], used to run the methods on examples.
    Text to float and back are correctly rounded on the exact value, as in
    CPython; [sum] adds from left to right, as CPython did before 3.12
    (later versions compensate the rounding error of the additions). *)
Module CPython.

Local Open Scope Z_scope.

Definition digit_of (c : ascii) : option Z :=
  let n := Z.of_N (N_of_ascii c) in
  if (48 <=? n) && (n <=? 57) then Some (n - 48) else None.

Definition is_digit (s : string) : bool :=
  match s with
  | String c _ => match digit_of c with Some _ => true | None => false end
  | EmptyString => false
  end.

(** A run of digits, underscores allowed between two digits: the number
    read on top of [acc], how many digits, and the rest of the text. *)
Fixpoint read_digits (s : string) (acc count : Z) : Z * Z * string :=
  match s with
  | String c s' =>
      match digit_of c with
      | Some d => read_digits s' (10 * acc + d) (count + 1)
      | None =>
          if Ascii.eqb c "_" && (0 <? count) && is_digit s'
          then read_digits s' acc count
          else (acc, count, s)
      end
  | EmptyString => (acc, count, s)
  end.

Definition read_sign (s : string) : bool * string :=
  match s with
  | String "-" s' => (true, s')
  | String "+" s' => (false, s')
  | _ => (false, s)
  end.

(** The float nearest to [m * 10^e], for [m >= 0]. *)
Definition decimal_to_float (sign : bool) (m e : Z) : float :=
  match m with
  | Zpos p =>
      if 0 <=? e
      then binary_normalize prec emax
             ((if sign then - m else m) * 10 ^ e) 0 false
      else SFdiv prec emax (S754_finite sign p 0)
                 (S754_finite false (Z.to_pos (10 ^ (- e))) 0)
  | _ => S754_zero sign
  end.

(** The white space [float] skips around a number: the ASCII white space
    and the two other spaces below 256. The separators 28 to 31, which
    [str.strip] takes away, are left where they are, and the text is then
    no number. *)
Definition is_float_space (c : ascii) : bool :=
  let n := N_of_ascii c in
  ((9 <=? n) && (n <=? 13) || (n =? 32) || (n =? 133) || (n =? 160))%N.

Fixpoint skip_spaces (s : string) : string :=
  match s with
  | EmptyString => EmptyString
  | String c s' => if is_float_space c then skip_spaces s' else s
  end.

Fixpoint drop_trailing_spaces (s : string) : string :=
  match s with
  | EmptyString => EmptyString
  | String c s' =>
      match drop_trailing_spaces s' with
      | EmptyString =>
          if is_float_space c then EmptyString else String c EmptyString
      | r => String c r
      end
  end.

(** [float(text)] *)
Definition float_of_string (text : string) : option float :=
  let (sign, body) :=
    read_sign (lower (drop_trailing_spaces (skip_spaces text))) in
  if (body =? "inf")%string || (body =? "infinity")%string
  then Some (S754_infinity sign)
  else if (body =? "nan")%string then Some S754_nan
  else
    let '(int_part, n_int, rest) := read_digits body 0 0 in
    let '(mant, n_frac, rest) :=
      match rest with
      | String "." rest' => read_digits rest' int_part 0
      | _ => (int_part, 0, rest)
      end in
    if n_int + n_frac =? 0 then None
    else
      match rest with
      | EmptyString => Some (decimal_to_float sign mant (- n_frac))
      | String "e" rest' =>
          let (esign, rest'') := read_sign rest' in
          let '(ex, n_ex, rest''') := read_digits rest'' 0 0 in
          if n_ex =? 0 then None
          else
            match rest''' with
            | EmptyString =>
                Some (decimal_to_float sign mant
                        ((if esign then - ex else ex) - n_frac))
            | _ => None
            end
      | _ => None
      end.

Definition round_half_even (num den : Z) : Z :=
  let q := num / den in
  match 2 * (num mod den) ?= den with
  | Lt => q
  | Gt => q + 1
  | Eq => if Z.even q then q else q + 1
  end.

Fixpoint count_digits (fuel : nat) (n : Z) : Z :=
  match fuel with
  | O => 1
  | S fuel' => if n <? 10 then 1 else 1 + count_digits fuel' (n / 10)
  end.

(** Number of decimal digits of [n > 0]. *)
Definition ndigits (n : Z) : Z := count_digits (Z.to_nat (Z.log2 n)) n.

(** [num / den] scaled by [10^(-k)], as a fraction. *)
Definition scale10 (num den k : Z) : Z * Z :=
  if 0 <=? k then (num, den * 10 ^ k) else (num * 10 ^ (- k), den).

(** The [k] with [10^k <= num/den < 10^(k+1)]. *)
Definition floor_log10 (num den : Z) : Z :=
  let k := ndigits num - ndigits den in
  let (p, q) := scale10 num den k in
  if q <=? p then k else k - 1.

Definition float_eqb (x y : float) : bool :=
  match x, y with
  | S754_finite s m e, S754_finite s' m' e' =>
      Bool.eqb s s' && (m =? m')%positive && (e =? e')
  | _, _ => false
  end.

(** The shortest digits that read back as [x], tried at 1, 2, ... digits:
    the result is the digits as a number and the power of ten they are
    scaled by. *)
Fixpoint shortest_digits (fuel : nat) (n : Z) (x : float) (num den k : Z)
  : Z * Z :=
  let e := k - n + 1 in
  let (p, q) := scale10 num den e in
  let near := round_half_even p q in
  let lo := p / q in
  let reads d :=
    float_eqb (decimal_to_float false d e) x in
  match fuel with
  | O => (near, e)
  | S fuel' =>
      if reads near then (near, e)
      else if reads lo then (lo, e)
      else if reads (lo + 1) then (lo + 1, e)
      else shortest_digits fuel' (n + 1) x num den k
  end.

Fixpoint strip_zeros (fuel : nat) (d e : Z) : Z * Z :=
  match fuel with
  | O => (d, e)
  | S fuel' =>
      if (d mod 10 =? 0) && (10 <=? d) then strip_zeros fuel' (d / 10) (e + 1)
      else (d, e)
  end.

Definition decimal_string (n : Z) : string :=
  DecimalString.NilZero.string_of_uint (N.to_uint (Z.to_N n)).

Fixpoint zeros (n : nat) : string :=
  match n with
  | O => EmptyString
  | S n' => String "0" (zeros n')
  end.

(** The digits [ds] with the decimal point after the first [decpt] of
    them, the way [repr] lays a float out. *)
Definition layout (ds : string) (decpt : Z) : string :=
  let n := Z.of_nat (String.length ds) in
  if (decpt <=? -4) || (16 <? decpt) then
    let ex := decpt - 1 in
    let mant :=
      match ds with
      | String c EmptyString => ds
      | String c rest => String c (String "." rest)
      | EmptyString => ds
      end in
    let ex_digits := decimal_string (Z.abs ex) in
    (mant ++ "e" ++ (if (ex <? 0)%Z then "-" else "+")
          ++ (if (Z.abs ex <? 10)%Z then "0" else "") ++ ex_digits)%string
  else if decpt <=? 0 then
    ("0." ++ zeros (Z.to_nat (- decpt)) ++ ds)%string
  else if n <=? decpt then
    (ds ++ zeros (Z.to_nat (decpt - n)) ++ ".0")%string
  else
    (String.substring 0 (Z.to_nat decpt) ds ++ "."
     ++ String.substring (Z.to_nat decpt) (Z.to_nat (n - decpt)) ds)%string.

(** [str(x)] *)
Definition string_of_float (x : float) : string :=
  match x with
  | S754_zero s => if s then "-0.0" else "0.0"
  | S754_infinity s => if s then "-inf" else "inf"
  | S754_nan => "nan"
  | S754_finite s m e =>
      let (num, den) :=
        if 0 <=? e then (Zpos m * 2 ^ e, 1) else (Zpos m, 2 ^ (- e)) in
      let k := floor_log10 num den in
      let (d, e10) :=
        shortest_digits 17 1 (S754_finite false m e) num den k in
      let (d, e10) := strip_zeros 20 d e10 in
      let ds := decimal_string d in
      ((if s then "-" else "")
       ++ layout ds (Z.of_nat (String.length ds) + e10))%string
  end.

(** [sum(vals)], starting from the integer 0. *)
Definition sum (vals : list float) : float :=
  fold_left (SFadd prec emax) vals (S754_zero false).

(** [round(x, ndigits)]: the exact value rounded to [ndigits] decimals,
    ties to even, and read back as a float. *)
Definition round (x : float) (nd : Z) : float :=
  match x with
  | S754_finite s m e =>
      let (num, den) :=
        if 0 <=? e then (Zpos m * 2 ^ e, 1) else (Zpos m, 2 ^ (- e)) in
      let (p, q) := scale10 num den (- nd) in
      decimal_to_float s (round_half_even p q) (- nd)
  | _ => x
  end.

(** The extension of a path, dot included: what follows the last dot of
    the last component, when something other than dots precedes it. *)
Fixpoint extension (s : string) (seen : bool) : string :=
  match s with
  | EmptyString => EmptyString
  | String c s' =>
      if Ascii.eqb c "/" then extension s' false
      else
        let later := extension s' (seen || negb (Ascii.eqb c ".")) in
        if truthy later then later
        else if Ascii.eqb c "." && seen
                && negb (str_in "/" s') then s
        else EmptyString
  end.

(** POSIX paths, with this working directory ([os.getcwd()]). *)
Definition cwd : string := "/srv/app".

(** The loop of [os.path.normpath] over the components of a path: empty
    components and "." are skipped, ".." takes the component before it
    away, is dropped at the root and stays at the start of a relative
    path. [new_comps] is kept in reverse. *)
Fixpoint normpath_loop (absolute : bool) (comps new_comps : list string)
  : list string :=
  match comps with
  | [] => rev new_comps
  | comp :: rest =>
      if ((comp =? "") || (comp =? "."))%string
      then normpath_loop absolute rest new_comps
      else if negb (comp =? "..")%string
              || (negb absolute && match new_comps with [] => true | _ => false end)
              || match new_comps with
                 | last :: _ => (last =? "..")%string
                 | [] => false
                 end
      then normpath_loop absolute rest (comp :: new_comps)
      else normpath_loop absolute rest (tl new_comps)
  end.

(** [os.path.join(a, b)] *)
Definition path_join (a b : string) : string :=
  if String.prefix "/" b then b
  else if negb (truthy a) || Ascii.eqb (last (list_ascii_of_string a) "/"%char) "/"
  then (a ++ b)%string
  else (a ++ "/" ++ b)%string.

(** The components of [os.path.abspath(path)]. *)
Definition abspath (path : string) : list string :=
  normpath_loop true
    (split "/" (if String.prefix "/" path then path else path_join cwd path))
    [].

(** The components [xs] are the first components of [ys]. *)
Fixpoint starts_with (xs ys : list string) : bool :=
  match xs, ys with
  | [], _ => true
  | x :: xs', y :: ys' => (x =? y)%string && starts_with xs' ys'
  | _ :: _, [] => false
  end.

(** What is left of two lists after their common prefix. *)
Fixpoint after_common (xs ys : list string) : list string * list string :=
  match xs, ys with
  | x :: xs', y :: ys' =>
      if (x =? y)%string then after_common xs' ys' else (xs, ys)
  | _, _ => (xs, ys)
  end.

(** [os.path.relpath(path)]: up from the working directory, then down to
    the path. *)
Definition relpath (path : string) : string :=
  let (up, down) := after_common (abspath cwd) (abspath path) in
  match (map (fun _ => "..") up ++ down)%list with
  | [] => "."
  | rel_list => join "/" rel_list
  end.

(** [repr(s)] of a string of Latin-1 characters: between double quotes
    when the string holds a single quote and no double quote, between
    single quotes otherwise; the backslash, the quote and the characters
    that do not print are escaped. *)
Definition hex_digit (n : N) : ascii :=
  ascii_of_N (if (n <? 10)%N then 48 + n else 87 + n).

Definition repr_char (quote c : ascii) : string :=
  let n := N_of_ascii c in
  if Ascii.eqb c "\" then "\\"
  else if Ascii.eqb c quote then String "\" (String c "")
  else if (n =? 9)%N then "\t"
  else if (n =? 10)%N then "\n"
  else if (n =? 13)%N then "\r"
  else if ((n <? 32) || (127 <=? n) && (n <=? 160) || (n =? 173))%N
  then String "\" (String "x" (String (hex_digit (n / 16))
                                      (String (hex_digit (n mod 16)) "")))
  else String c "".

Definition repr (s : string) : string :=
  let chars := list_ascii_of_string s in
  let quote :=
    if existsb (Ascii.eqb "'") chars && negb (existsb (Ascii.eqb "034") chars)
    then "034"%char else "'"%char in
  (String quote (concat "" (map (repr_char quote) chars))
   ++ String quote "")%string.

(** The photo block on a file system without links, on which every file
    chosen and every directory named exists. With two absolute paths,
    [os.path.commonpath] gives back [abs_images] when the components of
    [abs_images] are the first components of [abs_chosen]: the file is then
    kept where it is. Another file is copied to [<uid><ext>] under the
    images directory; [shutil.copyfile] refuses a name that holds the null
    character and a target that is the file itself. *)
Definition image (uid chosen : string) : string + string :=
  if starts_with (abspath "images") (abspath chosen)
  then inl (relpath chosen)
  else
    let ext := extension chosen false in
    let ext := if truthy ext then ext else ".jpg" in
    let tgt := path_join "images" (uid ++ ext) in
    if existsb (Ascii.eqb "000") (list_ascii_of_string (chosen ++ tgt)%string)
    then inr "embedded null byte"
    else if starts_with (abspath chosen) (abspath tgt)
            && starts_with (abspath tgt) (abspath chosen)
    then inr (repr chosen ++ " and " ++ repr tgt ++ " are the same file")%string
    else inl (relpath tgt).

Definition runtime : Runtime :=
  {| py_float := float_of_string;
     py_str := string_of_float;
     py_sum := sum;
     py_round := round;
     place_image := image |}.

End CPython.

(* ================================================================= *)
(** ** Vocabulary of the properties *)

(** The data-model invariant: as many marks as subjects. *)
Definition balanced (s : Student) : Prop :=
  List.length (subjects s) = List.length (marks s).

(** No database error is to come. *)
Definition no_errors (st : StudentManagementApp) : Prop := faults (conn st) = [].

(** A subject name [_get_subject_id] gives an id to. *)
Definition nonblank (x : string) : bool := truthy x && truthy (strip x).

(** What one turn of the loop of [db_upsert_student_normalized] does to
    the open transaction when no statement fails. *)
Definition link_pair `{Runtime} (u : string) (d : database)
  (p : string * string) : database :=
  if nonblank (fst p) then
    let d1 := insert_or_ignore_subject (strip (fst p)) d in
    match select_subject_id (strip (fst p)) d1 with
    | Some sid =>
        match insert_student_subject u sid (py_float (snd p)) d1 with
        | inr d2 => d2
        | inl _ => d1
        end
    | None => d1
    end
  else d.

(** The store after a [db_upsert_student_normalized] without database
    error. *)
Definition upserted `{Runtime} (s : Student) (d : database) : database :=
  fold_left (link_pair (uid s)) (zip (subjects s) (marks s))
    (delete_student_subjects (uid s)
       (insert_or_replace_student (row_of_student s) d)).

(** The student [load_data] builds from one row of [students]. *)
Definition student_of_row `{Runtime} (d : database) (r : student_row)
  : Student :=
  let (subjects, marks) := unpack_rows (select_subject_marks (row_uid r) d) in
  mkStudent (row_uid r) (row_name r) (row_student_class r) (row_section r)
            subjects marks (row_image_filename r).

(** The list [load_data] builds when no statement fails. *)
Definition loaded `{Runtime} (d : database) : list Student :=
  map (student_of_row d) (select_students d).

(** What the store holds for one student: its row of [students] and its
    subjects with their marks. *)
Definition stored (u : string) (d : database)
  : list student_row * list (string * option float) :=
  (filter (has_uid u) (students_table d), select_subject_marks u d).

(** Names in ascending byte order, equal neighbours allowed. *)
Fixpoint ascending (names : list string) : bool :=
  match names with
  | [] => true
  | x :: rest =>
      match rest with
      | [] => true
      | y :: _ => String.leb x y && ascending rest
      end
  end.

(** A mark that reads back as written: the text [str] gives for the
    float the mark is stored as, or the empty string for no mark. The texts
    of NaN and of the negative zero are not such marks: the column keeps
    neither. *)
Definition mark_stable `{Runtime} (m : string) : Prop :=
  match bind_real (py_float m) with
  | Some v => py_str v = m
  | None => m = ""
  end.

(** A student as the store keeps it: subject names stripped, not blank
    and in ascending order, marks that read back as written, one mark per
    subject. *)
Definition normal_form `{Runtime} (s : Student) : Prop :=
  Forall (fun x => nonblank x = true /\ strip x = x) (subjects s)
  /\ ascending (subjects s) = true
  /\ Forall mark_stable (marks s)
  /\ balanced s.

(** A computation that leaves the in-memory list alone. *)
Definition keeps_students {A} (m : Py A) : Prop :=
  forall st, students (snd (m st)) = students st.

(** A computation that ends normally. *)
Definition returns {A} (m : Py A) : Prop :=
  forall st, exists a, fst (m st) = Return a.

(** A student whose searchable fields contain the query. *)
Definition matches (q : string) (s : Student) : bool :=
  str_in q (combined_of s).

(** Search as the specification words it: the students whose combined
    fields contain the query. *)
Definition search_spec (q : string) (items : list Student) : list Student :=
  filter (matches q) items.

(** The entered marks of a form. *)
Definition marks_input (entries : form) : list string :=
  comma_items (entry_Marks entries).

(** The subjects table keeps the primary key of [subjects] unique. *)
Definition subject_ids_unique (d : database) : Prop :=
  NoDup (map subj_id (subjects_table d)).

(** The foreign key of [student_subjects] on [students]. *)
Definition foreign_keys_hold (d : database) : Prop :=
  forall l, In l (student_subjects_table d) ->
            In (student_uid l) (map row_uid (students_table d)).

(** The rows the join of [select_subject_marks] yields for one link. *)
Definition joined (d : database) (ss : link_row)
  : list (string * option float) :=
  map (fun sub => (subj_name sub, mark ss))
      (filter (fun sub => subject_id ss =? subj_id sub)%Z (subjects_table d)).

(** The rows the loop of [db_upsert_student_normalized] stores for the
    pairs of a student: one per pair whose subject is not blank. *)
Definition rows_of_pairs `{Runtime} (pairs : list (string * string))
  : list (string * option float) :=
  flat_map
    (fun p =>
       if nonblank (fst p)
       then [(strip (fst p), bind_real (py_float (snd p)))]
       else [])
    pairs.

(** A computation after which the in-memory list still satisfies [P], and
    one after which it satisfies [P] whatever it was. *)
Definition preserves (P : list Student -> Prop) {A} (m : Py A) : Prop :=
  forall st, P (students st) -> P (students (snd (m st))).

Definition establishes (P : list Student -> Prop) {A} (m : Py A) : Prop :=
  forall st, P (students (snd (m st))).

(** The save action stopped at a validation message: one error box, and
    neither the in-memory list nor the connection touched. *)
Definition blocked_with (text : string) (st st' : StudentManagementApp)
  : Prop :=
  students st' = students st
  /\ conn st' = conn st
  /\ dialogs st' = dialogs st ++ [showerror "Error" text].

(** The student as the store gives it back: the pairs with a subject that
    is not blank, names stripped, in name order, marks as the text of the
    float stored. *)
Definition normalized `{Runtime} (s : Student) : Student :=
  let (subjects, marks) :=
    unpack_rows (order_by_name (rows_of_pairs (zip (subjects s) (marks s)))) in
  mkStudent (uid s) (name s) (student_class s) (section s)
            subjects marks (image_filename s).

(** All-or-nothing for one save: what is committed for the student
    afterwards is what was committed before, or what a save without
    database error commits. *)
Definition all_or_nothing `{Runtime} (s : Student)
  (st : StudentManagementApp) : Prop :=
  let before := committed (conn st) in
  let after := committed (conn (snd (db_upsert_student_normalized s st))) in
  stored (uid s) after = stored (uid s) before
  \/ stored (uid s) after = stored (uid s) (upserted s before).

(** The mantissa of a finite float with its sign. *)
Definition signed (s : bool) (m : positive) : Z :=
  if s then Zneg m else Zpos m.

(** [n <= a] and [a < n] on the exact value of the float [a], which is
    [signed s m * 2^e] for a finite one; NaN compares with nothing. *)
Definition at_least (a : float) (n : Z) : Prop :=
  match a with
  | S754_zero _ => (n <= 0)%Z
  | S754_infinity s => s = false
  | S754_nan => False
  | S754_finite s m e =>
      if (0 <=? e)%Z then (n <= signed s m * 2 ^ e)%Z
      else (n * 2 ^ (- e) <= signed s m)%Z
  end.

Definition below (a : float) (n : Z) : Prop :=
  match a with
  | S754_zero _ => (0 < n)%Z
  | S754_infinity s => s = true
  | S754_nan => False
  | S754_finite s m e =>
      if (0 <=? e)%Z then (signed s m * 2 ^ e < n)%Z
      else (signed s m < n * 2 ^ (- e))%Z
  end.









(** The primary key of [students]. *)
Definition uids_unique (d : database) : Prop :=
  NoDup (map row_uid (students_table d)).

(** [name TEXT NOT NULL UNIQUE] of [subjects]. *)
Definition subject_names_unique (d : database) : Prop :=
  NoDup (map subj_name (subjects_table d)).

(** The primary key of [student_subjects]. *)
Definition link_ids_unique (d : database) : Prop :=
  NoDup (map link_id (student_subjects_table d)).

(** The links among [Q] reference a stored subject. *)
Definition subjects_resolve (Q : link_row -> Prop) (d : database) : Prop :=
  forall l, In l (student_subjects_table d) -> Q l ->
            In (subject_id l) (map subj_id (subjects_table d)).

(** The foreign key of [student_subjects] on [subjects]. *)
Definition subject_keys_hold (d : database) : Prop :=
  subjects_resolve (fun _ => True) d.

(** The constraints of the schema of [_init_db]: the three primary keys,
    the unique subject names and the two foreign keys. *)
Definition consistent (d : database) : Prop :=
  uids_unique d /\ subject_ids_unique d /\ subject_names_unique d
  /\ link_ids_unique d /\ foreign_keys_hold d /\ subject_keys_hold d.

(** A computation that keeps [P] on the store: on what is committed and
    on what the open transaction sees. *)
Definition keeps_store (P : database -> Prop) {A} (m : Py A) : Prop :=
  forall st,
    P (committed (conn st)) -> P (current (conn st)) ->
    P (committed (conn (snd (m st)))) /\ P (current (conn (snd (m st)))).

(** The store after the upserts of [save_data] without database error,
    one student after the other. *)
Definition upserted_all `{Runtime} (items : list Student) (d : database)
  : database :=
  fold_left (fun d s => upserted s d) items d.

(** The store after a [save_data] without database error. *)
Definition reconciled `{Runtime} (items : list Student) (d : database)
  : database :=
  match items with
  | _ :: _ => delete_students_not_in (map uid items) (upserted_all items d)
  | [] => delete_all_students d
  end.

(** The application keeps one record per uid: the store, committed or
    not, is within the constraints of the schema, and no two students in
    memory share a uid. *)
Definition one_record_per_uid (st : StudentManagementApp) : Prop :=
  consistent (committed (conn st))
  /\ consistent (current (conn st))
  /\ NoDup (map uid (students st)).

(** A computation that keeps a property of the application. *)
Definition maintains (I : StudentManagementApp -> Prop) {A} (m : Py A)
  : Prop :=
  forall st, I st -> I (snd (m st)).

(** A string with nothing for [lstrip] to take. *)
Definition starts_clean (s : string) : bool :=
  match s with
  | EmptyString => true
  | String c _ => negb (is_space c)
  end.

(** A field that passes through a comma-separated entry unchanged: no
    comma in it, nothing to strip, not empty. *)
Definition plain (x : string) : Prop :=
  str_in "," x = false /\ strip x = x /\ truthy x = true.

(** The entries pass the checks of [save]: the required fields are
    there, subjects and marks are as many unless no subject is given, and
    the marks read as the numbers whose texts are [ms]. *)
Definition accepted `{Runtime} (entries : form) (ms : list string) : Prop :=
  truthy (strip (entry_UID entries)) && truthy (strip (entry_Name entries))
    && truthy (strip (entry_Class entries)) = true
  /\ (comma_items (entry_Subjects entries) = []
      \/ List.length (comma_items (entry_Subjects entries))
         = List.length (comma_items (entry_Marks entries)))
  /\ marks_of (comma_items (entry_Marks entries)) = Some ms.

(** The student [save] makes of the entries when no photo is chosen. *)
Definition entered (entries : form) (ms : list string) : Student :=
  mkStudent (strip (entry_UID entries)) (strip (entry_Name entries))
            (strip (entry_Class entries)) (strip (entry_Section entries))
            (comma_items (entry_Subjects entries)) ms "".

(** A student the update form shows and reads back as it is: plain uid,
    name, class, subjects and marks, a stripped section, marks that are
    the texts of the numbers they read as, and a photo, if any, that lies
    under the images directory at the path recorded. *)
Definition presentable `{Runtime} (s : Student) : Prop :=
  plain (uid s) /\ plain (name s) /\ plain (student_class s)
  /\ strip (section s) = section s
  /\ Forall plain (subjects s)
  /\ Forall (fun m => plain m /\ exists v, py_float m = Some v /\ py_str v = m)
            (marks s)
  /\ (truthy (image_filename s) = true ->
      place_image (uid s) (image_filename s) = inl (image_filename s)).

(** Names in strictly ascending order. *)
Fixpoint strictly_ascending (names : list string) : bool :=
  match names with
  | [] => true
  | x :: rest =>
      match rest with
      | [] => true
      | y :: _ => String.ltb x y && strictly_ascending rest
      end
  end.

(** A student that meets the filters set in the controls: the class and
    the grade selected, unless none or "All" is, and an average that is
    not below the lower bound nor above the upper one, where given. *)
Definition meets `{Runtime} (v : controls) (min_avg max_avg : option float)
  (s : Student) : Prop :=
  (filter_class v = "" \/ filter_class v = "All"
   \/ student_class s = filter_class v)
  /\ (filter_grade v = "" \/ filter_grade v = "All"
      \/ _grade_of (_avg_of s) = filter_grade v)
  /\ (forall m, min_avg = Some m ->
        exists a, _avg_of s = Some a /\ SFltb a m = false)
  /\ (forall m, max_avg = Some m ->
        exists a, _avg_of s = Some a /\ SFltb m a = false).

(** The application with other database errors to come. *)
Definition with_faults (fs : list bool) (st : StudentManagementApp)
  : StudentManagementApp :=
  set_conn (mkConnection (committed (conn st)) (current (conn st)) fs) st.

(** A run that went as it goes without database error: the same result,
    and the same state but for the errors still to come. *)
Definition undisturbed {A} (m : Py A) (st : StudentManagementApp) : Prop :=
  exists a fs,
    fst (m (with_faults [] st)) = Return a
    /\ m st = (Return a, with_faults fs (snd (m (with_faults [] st)))).

(** A computation that hides no database error: message boxes are only
    added, and a run that adds none either raises or is undisturbed; run
    without database error, it leaves none to come. *)
Definition hides_no_error {A} (m : Py A) : Prop :=
  forall st,
    (exists more, dialogs (snd (m st)) = dialogs st ++ more
                  /\ (more = [] ->
                      (exists e, fst (m st) = Raise e) \/ undisturbed m st))
    /\ (faults (conn st) = [] -> faults (conn (snd (m st))) = []).

(** The rows of [subjects] in [base] are still there in [d], as they were
    and where they were. *)
Definition keeps_subjects (base d : database) : Prop :=
  exists more, subjects_table d = subjects_table base ++ more.

(* ================================================================= *)
(** ** Example data *)

(** The application right after [_init_db] on a new file. *)
Definition fresh_app : StudentManagementApp :=
  mkApp [] (mkConnection empty_database empty_database []) [].

Definition ann : Student := mkStudent "7" "Ann" "X" "A" ["Math"] ["50.0"] "".

Definition bob : Student := mkStudent "8" "Bob" "X" "B" ["Art"] ["61.5"] "".

Definition ann_revised : Student :=
  mkStudent "7" "Ann Lee" "XI" "B" ["Phy"; "Chem"] ["1.0"; "2.0"] "".

Definition ann_reloaded : Student :=
  mkStudent "7" "Ann Lee" "XI" "B" ["Chem"; "Phy"] ["2.0"; "1.0"] "".

(** The store after [ann] was saved to a new file. *)
Definition store_with_ann : database :=
  mkDatabase [mkStudentRow "7" "Ann" "X" "A" ""]
             [mkSubjectRow 1 "Math"] 1
             [mkLinkRow 1 "7" 1 (CPython.float_of_string "50.0")] 1.

(** An application over the store [d] whose statement number [n + 1]
    fails. *)
Definition failing_at (n : nat) (d : database) : StudentManagementApp :=
  mkApp [] (mkConnection d d (repeat false n ++ [true])) [].

(** Two students in memory. *)
Definition roster : StudentManagementApp :=
  mkApp [ann; bob] (mkConnection empty_database empty_database []) [].

(** [bob] alone in memory, over the store that holds [ann]. *)
Definition bob_over_ann : StudentManagementApp :=
  mkApp [bob] (mkConnection store_with_ann store_with_ann []) [].

Definition form_bad_mark : form :=
  mkForm "9" "Cy" "X" "A" "Math, Art" "90, abc" "".

Definition form_ann_again : form :=
  mkForm " 7 " "Ann B" "XII" "C" "Art" "70" "".




(** Marks entered with no subject. *)
Definition form_marks_only : form := mkForm "7" "Ann" "X" "A" "" "90" "".

(** The float 87.75. *)
Definition avg_87_75 : float := S754_finite false 6174857301590016 (-46).

(** The store after [ann] and [bob] were saved to a new file, and both in
    memory as loaded from it. *)
Definition store_with_both : database :=
  mkDatabase [mkStudentRow "7" "Ann" "X" "A" ""; mkStudentRow "8" "Bob" "X" "B" ""]
             [mkSubjectRow 1 "Math"; mkSubjectRow 2 "Art"] 2
             [mkLinkRow 1 "7" 1 (CPython.float_of_string "50.0");
              mkLinkRow 2 "8" 2 (CPython.float_of_string "61.5")] 2.

Definition roster_stored : StudentManagementApp :=
  mkApp [ann; bob] (mkConnection store_with_both store_with_both []) [].

Definition form_cy : form :=
  mkForm " 9 " "Cy" "X" "A" "Math, Art" "90, 80.5" "".

Definition cy : Student :=
  mkStudent "9" "Cy" "X" "A" ["Math"; "Art"] ["90.0"; "80.5"] "".

(** Class X and an average of 60 at least. *)
Definition class_x_from_60 : controls :=
  mkControls "" "X" "All" " 60 " "" "UID" true ["All"; "X"].

(** A lower bound that is not a number. *)
Definition bound_abc : controls :=
  mkControls "" "All" "All" "abc" "" "UID" true ["All"].

(** The update form on [ann], edited to what [ann_revised] holds. *)
Definition form_ann_edit : form :=
  mkForm "7" "Ann Lee" "XI" "B" "Phy , Chem" "1, 2" "".

(* ================================================================= *)
(** ** The monad: what a computation leaves untouched *)

Lemma keeps_ret {A} (a : A) : keeps_students (ret a).
Proof. intro st. reflexivity. Qed.

Lemma keeps_bind {A B} (m : Py A) (k : A -> Py B) :
  keeps_students m -> (forall a, keeps_students (k a)) ->
  keeps_students (bind m k).
Proof.
  intros Hm Hk st. unfold bind.
  specialize (Hm st). destruct (m st) as [[a | e] st1]; simpl in *.
  - rewrite Hk. exact Hm.
  - exact Hm.
Qed.

Lemma keeps_try_except {A} (body : Py A) (handler : exn -> Py A) :
  keeps_students body -> (forall e, keeps_students (handler e)) ->
  keeps_students (try_except body handler).
Proof.
  intros Hb Hh st. unfold try_except.
  specialize (Hb st). destruct (body st) as [[a | e] st1]; simpl in *.
  - exact Hb.
  - rewrite Hh. exact Hb.
Qed.

Lemma keeps_with_conn {A} (body : Py A) :
  keeps_students body -> keeps_students (with_conn body).
Proof.
  intros Hb st. unfold with_conn.
  specialize (Hb st). destruct (body st) as [[a | e] st1]; simpl in *; exact Hb.
Qed.

Lemma keeps_for_each {A} (items : list A) (body : A -> Py unit) :
  (forall x, keeps_students (body x)) -> keeps_students (for_each items body).
Proof.
  intros Hb. induction items as [| x rest IH]; simpl.
  - apply keeps_ret.
  - apply keeps_bind; [apply Hb | intros _; exact IH].
Qed.

Lemma keeps_messagebox (m : dialog) : keeps_students (messagebox m).
Proof. intro st. reflexivity. Qed.

Lemma keeps_execute {A} (stmt : database -> exn + (A * database)) :
  keeps_students (execute stmt).
Proof.
  intro st. unfold execute.
  destruct (faults (conn st)) as [| [|] later]; simpl;
    try reflexivity;
    destruct (stmt (current (conn st))) as [e | [a d']]; reflexivity.
Qed.


Lemma keeps_get_subject_id (n : string) : keeps_students (_get_subject_id n).
Proof.
  unfold _get_subject_id.
  destruct (negb (truthy n)); [apply keeps_ret |].
  destruct (negb (truthy (strip n))); [apply keeps_ret |].
  apply keeps_try_except.
  - apply keeps_with_conn.
    apply keeps_bind; [apply keeps_execute | intros _].
    apply keeps_bind; [apply keeps_execute | intros row; apply keeps_ret].
  - intro e. apply keeps_bind; [apply keeps_messagebox | intros _; apply keeps_ret].
Qed.

Lemma keeps_upsert `{Runtime} (s : Student) :
  keeps_students (db_upsert_student_normalized s).
Proof.
  unfold db_upsert_student_normalized.
  apply keeps_try_except; [| intro e; apply keeps_messagebox].
  apply keeps_with_conn.
  apply keeps_bind; [apply keeps_execute | intros _].
  apply keeps_bind; [apply keeps_execute | intros _].
  apply keeps_for_each. intros [subj mk].
  apply keeps_bind; [apply keeps_get_subject_id | intros [sid |]].
  - apply keeps_execute.
  - apply keeps_ret.
Qed.

Lemma keeps_delete (u : string) :
  keeps_students (db_delete_student_normalized u).
Proof.
  unfold db_delete_student_normalized.
  apply keeps_try_except; [| intro e; apply keeps_messagebox].
  apply keeps_with_conn, keeps_execute.
Qed.

(** A [try] whose handler shows a message box always ends normally. *)
Lemma try_messagebox_returns (body : Py unit) (msg : exn -> dialog) :
  forall st, fst (try_except body (fun e => messagebox (msg e)) st) = Return tt.
Proof.
  intro st. unfold try_except.
  destruct (body st) as [[[] | e] st1]; reflexivity.
Qed.

Lemma upsert_returns `{Runtime} (s : Student) (st : StudentManagementApp) :
  fst (db_upsert_student_normalized s st) = Return tt.
Proof. apply try_messagebox_returns. Qed.

(* ================================================================= *)
(** ** Statements *)

Lemma mem_string_In (u : string) (us : list string) :
  mem_string u us = true <-> In u us.
Proof.
  unfold mem_string. rewrite existsb_exists. split.
  - intros [x [Hin Heq]]. apply String.eqb_eq in Heq. now subst.
  - intro Hin. exists u. split; [exact Hin | apply String.eqb_refl].
Qed.

Lemma find_subject_app (n : string) (rows more : list subject_row) :
  find (fun r => subj_name r =? n) (rows ++ more)
  = match find (fun r => subj_name r =? n) rows with
    | Some r => Some r
    | None => find (fun r => subj_name r =? n) more
    end.
Proof.
  induction rows as [| r rows IH]; simpl; [reflexivity |].
  destruct (subj_name r =? n); [reflexivity | exact IH].
Qed.

Lemma find_subject_none (n : string) (rows : list subject_row) :
  mem_string n (map subj_name rows) = false ->
  find (fun r => subj_name r =? n) rows = None.
Proof.
  induction rows as [| r rows IH]; simpl; [reflexivity |].
  rewrite String.eqb_sym. destruct (subj_name r =? n); simpl; [discriminate | exact IH].
Qed.

Lemma find_subject_some (n : string) (rows : list subject_row) :
  mem_string n (map subj_name rows) = true ->
  exists r, find (fun r => subj_name r =? n) rows = Some r /\ In r rows
            /\ subj_name r = n.
Proof.
  induction rows as [| r rows IH]; simpl; [discriminate |].
  rewrite String.eqb_sym. destruct (subj_name r =? n) eqn:E; simpl.
  - intros _. exists r. apply String.eqb_eq in E. auto.
  - intro Hm. destruct (IH Hm) as [r' [Hf [Hin Hn]]]. exists r'. auto.
Qed.

(** After [INSERT OR IGNORE] the [SELECT] finds a row of that name. *)
Lemma select_after_insert (n : string) (d : database) :
  exists r,
    select_subject_id n (insert_or_ignore_subject n d) = Some (subj_id r)
    /\ In r (subjects_table (insert_or_ignore_subject n d))
    /\ subj_name r = n.
Proof.
  unfold select_subject_id, insert_or_ignore_subject. cbn [subjects_table].
  destruct (mem_string n (map subj_name (subjects_table d))) eqn:E.
  - destruct (find_subject_some _ _ E) as [r [Hf [Hin Hn]]].
    exists r. rewrite Hf. auto.
  - rewrite find_subject_app, (find_subject_none _ _ E). cbn [find subj_name].
    rewrite String.eqb_refl. eexists. split; [reflexivity |].
    split; [apply in_or_app; right; left; reflexivity | reflexivity].
Qed.

Lemma existsb_id_In (sid : Z) (rows : list subject_row) :
  (exists r, In r rows /\ subj_id r = sid) ->
  existsb (Z.eqb sid) (map subj_id rows) = true.
Proof.
  intros [r [Hin Hid]]. apply existsb_exists. exists sid. split.
  - rewrite <- Hid. now apply in_map.
  - apply Z.eqb_refl.
Qed.

Lemma students_insert_or_ignore (n : string) (d : database) :
  students_table (insert_or_ignore_subject n d) = students_table d.
Proof. reflexivity. Qed.

(** With the student stored, one turn of the loop stores a link. *)
Lemma link_pair_stores `{Runtime} (u : string) (d : database)
  (subj mk : string) :
  nonblank subj = true ->
  mem_string u (map row_uid (students_table d)) = true ->
  exists r,
    let d1 := insert_or_ignore_subject (strip subj) d in
    In r (subjects_table d1) /\ subj_name r = strip subj
    /\ select_subject_id (strip subj) d1 = Some (subj_id r)
    /\ insert_student_subject u (subj_id r) (py_float mk) d1
       = inr (link_pair u d (subj, mk))
    /\ link_pair u d (subj, mk)
       = mkDatabase (students_table d) (subjects_table d1) (subjects_seq d1)
           (student_subjects_table d
            ++ [mkLinkRow (next_rowid (student_subjects_seq d)
                             (map link_id (student_subjects_table d)))
                          u (subj_id r) (bind_real (py_float mk))])
           (next_rowid (student_subjects_seq d)
                       (map link_id (student_subjects_table d))).
Proof.
  intros Hnb Hu.
  destruct (select_after_insert (strip subj) d) as [r [Hsel [Hin Hn]]].
  exists r. cbv zeta.
  assert (Hfk : insert_student_subject u (subj_id r) (py_float mk)
                  (insert_or_ignore_subject (strip subj) d)
                = inr (mkDatabase (students_table d)
                         (subjects_table (insert_or_ignore_subject (strip subj) d))
                         (subjects_seq (insert_or_ignore_subject (strip subj) d))
                         (student_subjects_table d
                          ++ [mkLinkRow (next_rowid (student_subjects_seq d)
                                 (map link_id (student_subjects_table d)))
                               u (subj_id r) (bind_real (py_float mk))])
                         (next_rowid (student_subjects_seq d)
                            (map link_id (student_subjects_table d))))).
  { unfold insert_student_subject.
    rewrite students_insert_or_ignore, Hu.
    rewrite (existsb_id_In (subj_id r)); [| exists r; auto].
    reflexivity. }
  assert (Hlp : link_pair u d (subj, mk)
                = mkDatabase (students_table d)
                         (subjects_table (insert_or_ignore_subject (strip subj) d))
                         (subjects_seq (insert_or_ignore_subject (strip subj) d))
                         (student_subjects_table d
                          ++ [mkLinkRow (next_rowid (student_subjects_seq d)
                                 (map link_id (student_subjects_table d)))
                               u (subj_id r) (bind_real (py_float mk))])
                         (next_rowid (student_subjects_seq d)
                            (map link_id (student_subjects_table d)))).
  { unfold link_pair. cbn [fst snd]. rewrite Hnb. cbv zeta.
    rewrite Hsel, Hfk. reflexivity. }
  repeat split; try assumption.
  rewrite Hlp. exact Hfk.
Qed.

(* ================================================================= *)
(** ** Runs without database error *)

Ltac simpl_state :=
  unfold set_conn, commit, rollback;
  cbn [conn faults current committed students dialogs tl fst snd].

Lemma run_get_subject_id_blank (n : string) (st : StudentManagementApp) :
  nonblank n = false -> _get_subject_id n st = (Return None, st).
Proof.
  unfold nonblank, _get_subject_id. intro Hb.
  destruct (truthy n); simpl in *; [| reflexivity].
  rewrite Hb. reflexivity.
Qed.

Lemma run_get_subject_id (n : string) l c d g :
  nonblank n = true ->
  _get_subject_id n (mkApp l (mkConnection c d []) g)
  = (Return (select_subject_id (strip n) (insert_or_ignore_subject (strip n) d)),
     mkApp l (mkConnection (insert_or_ignore_subject (strip n) d)
                           (insert_or_ignore_subject (strip n) d) []) g).
Proof.
  unfold nonblank, _get_subject_id. intro Hb.
  apply andb_true_iff in Hb. destruct Hb as [H1 H2].
  rewrite H1, H2. reflexivity.
Qed.

Lemma link_pair_students `{Runtime} (u : string) (d : database) p :
  mem_string u (map row_uid (students_table d)) = true ->
  students_table (link_pair u d p) = students_table d.
Proof.
  intro Hu. destruct p as [subj mk].
  destruct (nonblank subj) eqn:Hnb.
  - destruct (link_pair_stores u d subj mk Hnb Hu) as [r [_ [_ [_ [_ E]]]]].
    rewrite E. reflexivity.
  - unfold link_pair. cbn [fst]. now rewrite Hnb.
Qed.

Lemma run_link_loop `{Runtime} (u : string) pairs :
  forall l c d g,
    mem_string u (map row_uid (students_table d)) = true ->
    exists c',
      for_each pairs
        (fun '(subj, mk) =>
           sid <- _get_subject_id subj ;;
           match sid with
           | None => ret tt
           | Some sid =>
               let mark_val := py_float mk in
               execute (checked (insert_student_subject u sid mark_val))
           end)
        (mkApp l (mkConnection c d []) g)
      = (Return tt,
         mkApp l (mkConnection c' (fold_left (link_pair u) pairs d) []) g).
Proof.
  induction pairs as [| [subj mk] pairs IH]; intros l c d g Hu.
  - exists c. reflexivity.
  - cbn [for_each fold_left]. unfold bind at 1.
    destruct (nonblank subj) eqn:Hnb.
    + destruct (link_pair_stores u d subj mk Hnb Hu) as [r [Hin [Hn [Hsel [Hfk E]]]]].
      unfold bind at 1. rewrite (run_get_subject_id subj l c d g Hnb).
      rewrite Hsel. cbv zeta.
      unfold execute, checked. simpl_state.
      rewrite Hfk.
      apply IH. rewrite link_pair_students; assumption.
    + unfold bind at 1. rewrite (run_get_subject_id_blank subj _ Hnb).
      cbn [ret].
      assert (E : link_pair u d (subj, mk) = d).
      { unfold link_pair. cbn [fst]. now rewrite Hnb. }
      rewrite E. apply IH. exact Hu.
Qed.

Lemma has_uid_refl (u : string) (r : student_row) :
  row_uid r = u -> has_uid u r = true.
Proof. intro E. unfold has_uid. rewrite E. apply String.eqb_refl. Qed.

Lemma replaced_student_stored (r : student_row) (d : database) :
  mem_string (row_uid r)
    (map row_uid
       (students_table
          (delete_student_subjects (row_uid r) (insert_or_replace_student r d))))
  = true.
Proof.
  apply mem_string_In. cbn. rewrite map_app. apply in_or_app. right. now left.
Qed.

(** [db_upsert_student_normalized] without database error: the open
    transaction becomes [upserted] and is committed. *)
Lemma run_upsert `{Runtime} (s : Student) l c d g :
  db_upsert_student_normalized s (mkApp l (mkConnection c d []) g)
  = (Return tt,
     mkApp l (mkConnection (upserted s d) (upserted s d) []) g).
Proof.
  unfold db_upsert_student_normalized, try_except, with_conn.
  unfold bind at 1. unfold execute at 1, write at 1. simpl_state.
  unfold bind at 1. unfold execute at 1, write at 1. simpl_state.
  destruct (run_link_loop (uid s) (zip (subjects s) (marks s)) l c
              (delete_student_subjects (uid s)
                 (insert_or_replace_student (row_of_student s) d)) g
              (replaced_student_stored (row_of_student s) d)) as [c' E].
  cbv zeta in E |- *. rewrite E. reflexivity.
Qed.

(** On an idle connection an upsert without database error commits the
    whole save. *)
Lemma upsert_without_errors_is_whole `{Runtime} (s : Student)
  (st : StudentManagementApp) :
  no_errors st ->
  current (conn st) = committed (conn st) ->
  committed (conn (snd (db_upsert_student_normalized s st)))
  = upserted s (committed (conn st)).
Proof.
  destruct st as [l [c d fs] g]. unfold no_errors.
  cbn [conn faults current committed]. intros Hf Hd. subst fs d.
  now rewrite run_upsert.
Qed.

Lemma run_delete (u : string) l c d g :
  db_delete_student_normalized u (mkApp l (mkConnection c d []) g)
  = (Return tt,
     mkApp l (mkConnection (delete_student u d) (delete_student u d) []) g).
Proof. reflexivity. Qed.

Lemma run_load_loop `{Runtime} rows :
  forall l c d g,
    for_each rows
      (fun srow =>
         sm_rows <- execute (fetch (select_subject_marks (row_uid srow))) ;;
         let (subjects, marks) := unpack_rows sm_rows in
         loaded <- get_students ;;
         set_students
           (loaded ++ [mkStudent (row_uid srow) (row_name srow)
                         (row_student_class srow) (row_section srow)
                         subjects marks (row_image_filename srow)]))
      (mkApp l (mkConnection c d []) g)
    = (Return tt,
       mkApp (l ++ map (student_of_row d) rows) (mkConnection c d []) g).
Proof.
  induction rows as [| r rows IH]; intros l c d g.
  - cbn. now rewrite app_nil_r.
  - cbn [for_each map]. unfold bind at 1. unfold bind at 1.
    unfold execute at 1, fetch at 1. simpl_state.
    unfold student_of_row at 1.
    destruct (unpack_rows (select_subject_marks (row_uid r) d)) as [ss ms].
    unfold bind at 1, get_students at 1, set_students at 1. simpl_state.
    rewrite IH. rewrite <- app_assoc. reflexivity.
Qed.

(** [load_data] without database error: the list is [loaded]. *)
Lemma run_load `{Runtime} l c d g :
  load_data (mkApp l (mkConnection c d []) g)
  = (Return tt, mkApp (loaded d) (mkConnection c d []) g).
Proof.
  unfold load_data. unfold bind at 1, set_students at 1. simpl_state.
  unfold try_except. unfold bind at 1. unfold execute at 1, fetch at 1.
  simpl_state. unfold select_students at 1.
  rewrite run_load_loop. reflexivity.
Qed.

(* ================================================================= *)
(** ** What an upsert stores *)

Lemma next_rowid_above (seq : Z) (ids : list Z) :
  (forall i, In i ids -> i < next_rowid seq ids)%Z.
Proof.
  unfold next_rowid. induction ids as [| j ids IH]; cbn [fold_right In]; [tauto |].
  intros i [E | Hin].
  - subst. lia.
  - specialize (IH i Hin). lia.
Qed.

Lemma insert_or_ignore_subjects (n : string) (d : database) :
  exists more,
    subjects_table (insert_or_ignore_subject n d) = subjects_table d ++ more.
Proof.
  unfold insert_or_ignore_subject. cbn [subjects_table].
  destruct (mem_string n (map subj_name (subjects_table d))).
  - exists []. now rewrite app_nil_r.
  - eexists. reflexivity.
Qed.

Lemma insert_or_ignore_unique (n : string) (d : database) :
  subject_ids_unique d -> subject_ids_unique (insert_or_ignore_subject n d).
Proof.
  unfold subject_ids_unique, insert_or_ignore_subject. intro Hu.
  cbn [subjects_table].
  destruct (mem_string n (map subj_name (subjects_table d))); [exact Hu |].
  rewrite map_app. cbn [map subj_id].
  apply NoDup_app; [exact Hu | repeat constructor; simpl; tauto |].
  intros i Hin [E | []]. subst i.
  pose proof (next_rowid_above (subjects_seq d) _ _ Hin). lia.
Qed.

Lemma filter_absent_id (i : Z) (rows : list subject_row) :
  ~ In i (map subj_id rows) ->
  filter (fun sub => i =? subj_id sub)%Z rows = [].
Proof.
  induction rows as [| r rows IH]; simpl; [reflexivity |].
  intro Hn. destruct (Z.eqb_spec i (subj_id r)) as [E | E].
  - exfalso. apply Hn. left. now symmetry.
  - apply IH. intro Hin. apply Hn. now right.
Qed.

(** With a unique primary key the join finds exactly the subject row. *)
Lemma filter_unique_id (r : subject_row) (rows : list subject_row) :
  NoDup (map subj_id rows) -> In r rows ->
  filter (fun sub => subj_id r =? subj_id sub)%Z rows = [r].
Proof.
  induction rows as [| r0 rows IH]; simpl; [tauto |].
  intros Hnd Hin. inversion Hnd as [| i ids Hnotin Hnd']; subst.
  destruct Hin as [E | Hin].
  - subst r0. rewrite Z.eqb_refl. f_equal. now apply filter_absent_id.
  - destruct (Z.eqb_spec (subj_id r) (subj_id r0)) as [E | E].
    + exfalso. apply Hnotin. rewrite <- E. now apply in_map.
    + now apply IH.
Qed.

Lemma joined_unique (d : database) (l : link_row) (r : subject_row) :
  subject_ids_unique d -> In r (subjects_table d) -> subject_id l = subj_id r ->
  joined d l = [(subj_name r, mark l)].
Proof.
  intros Hu Hin E. unfold joined. rewrite E.
  rewrite (filter_unique_id r _ Hu Hin). reflexivity.
Qed.

(** The loop of an upsert, turn after turn: the students table stays, the
    subjects table grows at its end and keeps its ids unique, and the links
    appended are those of the student, one per row of [rows_of_pairs]. *)
Lemma fold_link_pair `{Runtime} (u : string) pairs :
  forall d,
    mem_string u (map row_uid (students_table d)) = true ->
    subject_ids_unique d ->
    let D := fold_left (link_pair u) pairs d in
    students_table D = students_table d
    /\ subject_ids_unique D
    /\ (exists more, subjects_table D = subjects_table d ++ more)
    /\ exists new,
         student_subjects_table D = student_subjects_table d ++ new
         /\ Forall (fun l => student_uid l = u) new
         /\ flat_map (joined D) new = rows_of_pairs pairs.
Proof.
  induction pairs as [| [subj mk] pairs IH]; intros d Hu Hnd; cbn [fold_left].
  - cbv zeta. repeat split; try assumption.
    + exists []. now rewrite app_nil_r.
    + exists []. rewrite app_nil_r. repeat split. constructor.
  - destruct (nonblank subj) eqn:Hnb.
    + destruct (link_pair_stores u d subj mk Hnb Hu)
        as [r [Hin [Hn [Hsel [Hfk E]]]]].
      set (d1 := link_pair u d (subj, mk)) in *.
      assert (Hs1 : students_table d1 = students_table d) by (rewrite E; reflexivity).
      assert (Hsub1 : subjects_table d1
                      = subjects_table (insert_or_ignore_subject (strip subj) d))
        by (rewrite E; reflexivity).
      assert (Hnd1 : subject_ids_unique d1).
      { unfold subject_ids_unique. rewrite Hsub1.
        now apply insert_or_ignore_unique. }
      assert (Hu1 : mem_string u (map row_uid (students_table d1)) = true)
        by (rewrite Hs1; exact Hu).
      destruct (IH d1 Hu1 Hnd1) as [HS [HN [[more HM] [new [HL [HF HJ]]]]]].
      cbv zeta. repeat split.
      * now rewrite HS.
      * exact HN.
      * destruct (insert_or_ignore_subjects (strip subj) d) as [more0 HM0].
        exists (more0 ++ more). rewrite HM, Hsub1, HM0. now rewrite app_assoc.
      * eexists (_ :: new). split; [| split].
        -- rewrite HL. rewrite E at 1. cbn [student_subjects_table].
           rewrite <- app_assoc. reflexivity.
        -- constructor; [reflexivity | exact HF].
        -- cbn [flat_map rows_of_pairs fst snd]. rewrite Hnb.
           unfold rows_of_pairs in HJ. rewrite HJ.
           rewrite (joined_unique _ _ r HN).
           ++ cbn [mark]. rewrite Hn. reflexivity.
           ++ rewrite HM, Hsub1. apply in_or_app. now left.
           ++ reflexivity.
    + assert (E : link_pair u d (subj, mk) = d).
      { unfold link_pair. cbn [fst]. now rewrite Hnb. }
      rewrite E. destruct (IH d Hu Hnd) as [HS [HN [HM [new [HL [HF HJ]]]]]].
      cbv zeta. repeat split; try assumption.
      exists new. repeat split; try assumption.
      cbn [rows_of_pairs flat_map fst]. rewrite Hnb. exact HJ.
Qed.

Lemma filter_none {A} (p : A -> bool) (l : list A) :
  (forall x, In x l -> p x = false) -> filter p l = [].
Proof.
  induction l as [| x l IH]; simpl; intro Hp; [reflexivity |].
  rewrite (Hp x (or_introl eq_refl)). apply IH. intros y Hy. apply Hp. now right.
Qed.

Lemma filter_all {A} (p : A -> bool) (l : list A) :
  Forall (fun x => p x = true) l -> filter p l = l.
Proof.
  induction 1 as [| x l Hx _ IH]; simpl; [reflexivity |].
  now rewrite Hx, IH.
Qed.

(** After an upsert the store holds, for the student, the rows of its
    pairs in name order. *)
Lemma upserted_subject_marks `{Runtime} (s : Student) (d : database) :
  subject_ids_unique d ->
  select_subject_marks (uid s) (upserted s d)
  = order_by_name (rows_of_pairs (zip (subjects s) (marks s))).
Proof.
  intro Hnd. unfold upserted.
  set (d0 := delete_student_subjects (uid s)
               (insert_or_replace_student (row_of_student s) d)).
  destruct (fold_link_pair (uid s) (zip (subjects s) (marks s)) d0
              (replaced_student_stored (row_of_student s) d) Hnd)
    as [HS [HN [HM [new [HL [HF HJ]]]]]].
  unfold select_subject_marks. fold (joined (fold_left (link_pair (uid s))
    (zip (subjects s) (marks s)) d0)).
  rewrite HL, filter_app.
  rewrite (filter_none (of_student (uid s)) (student_subjects_table d0)).
  - rewrite filter_all.
    + cbn [app]. now rewrite HJ.
    + eapply Forall_impl; [| exact HF]. intros l E. unfold of_student.
      rewrite E. apply String.eqb_refl.
  - intros l Hin. unfold d0 in Hin. cbn in Hin.
    apply filter_In in Hin. destruct Hin as [_ Hin].
    now apply negb_true_iff in Hin.
Qed.

Lemma upserted_students `{Runtime} (s : Student) (d : database) :
  students_table (upserted s d)
  = filter (fun r => negb (has_uid (uid s) r)) (students_table d)
    ++ [row_of_student s].
Proof.
  unfold upserted.
  set (d0 := delete_student_subjects (uid s)
               (insert_or_replace_student (row_of_student s) d)).
  assert (Hs : forall pairs d',
             mem_string (uid s) (map row_uid (students_table d')) = true ->
             students_table (fold_left (link_pair (uid s)) pairs d')
             = students_table d').
  { induction pairs as [| p pairs IH]; intros d' Hu; cbn [fold_left]; [reflexivity |].
    rewrite IH; rewrite link_pair_students; auto. }
  rewrite Hs by apply (replaced_student_stored (row_of_student s) d).
  reflexivity.
Qed.

(* ================================================================= *)
(** ** Loading what was stored *)

Lemma unpack_rows_maps `{Runtime} (rows : list (string * option float)) :
  unpack_rows rows
  = (map fst rows,
     map (fun r => match snd r with Some v => py_str v | None => "" end) rows).
Proof.
  induction rows as [| r rows IH]; cbn [unpack_rows map]; [reflexivity |].
  now rewrite IH.
Qed.

Lemma unpack_rows_balanced `{Runtime} (rows : list (string * option float)) :
  List.length (fst (unpack_rows rows)) = List.length (snd (unpack_rows rows)).
Proof. rewrite unpack_rows_maps. cbn [fst snd]. now rewrite !length_map. Qed.

(** [ORDER BY] leaves rows alone that are in name order already. *)
Lemma order_by_name_ascending (rows : list (string * option float)) :
  ascending (map fst rows) = true -> order_by_name rows = rows.
Proof.
  induction rows as [| r rows IH]; [reflexivity |].
  cbn [map ascending order_by_name fold_right].
  destruct rows as [| r' rows].
  - intros _. reflexivity.
  - cbn [map]. intro Ha. apply andb_true_iff in Ha. destruct Ha as [Hle Ha].
    fold (order_by_name (r' :: rows)). rewrite (IH Ha).
    cbn [insert_by_name]. now rewrite Hle.
Qed.

(** [ORDER BY] rearranges the rows and leaves them in name order. *)
Lemma insert_by_name_permutation (r : string * option float) rows :
  Permutation (insert_by_name r rows) (r :: rows).
Proof.
  induction rows as [| r' rows IH]; cbn [insert_by_name]; [reflexivity |].
  destruct (String.leb (fst r) (fst r')); [reflexivity |].
  rewrite IH. apply perm_swap.
Qed.

Lemma order_by_name_permutation (rows : list (string * option float)) :
  Permutation (order_by_name rows) rows.
Proof.
  induction rows as [| r rows IH]; cbn [order_by_name fold_right]; [reflexivity |].
  fold (order_by_name rows). rewrite insert_by_name_permutation.
  now constructor.
Qed.

Lemma insert_by_name_ascending (r : string * option float) rows :
  ascending (map fst rows) = true ->
  ascending (map fst (insert_by_name r rows)) = true.
Proof.
  induction rows as [| r' rows IH]; cbn [insert_by_name]; [reflexivity |].
  intro Ha. destruct (String.leb (fst r) (fst r')) eqn:E.
  - cbn [map ascending] in *. now rewrite E.
  - assert (L : String.leb (fst r') (fst r) = true)
      by (destruct (String.leb_total (fst r) (fst r')); congruence).
    assert (Ha' : ascending (map fst rows) = true).
    { cbn [map ascending] in Ha. destruct (map fst rows); [reflexivity |].
      now apply andb_true_iff in Ha. }
    specialize (IH Ha').
    destruct rows as [| r'' rows]; cbn [insert_by_name map ascending] in *.
    + now rewrite L.
    + destruct (String.leb (fst r) (fst r'')) eqn:E'; cbn [map ascending] in *.
      * rewrite L, E'. cbn [andb]. now apply andb_true_iff in Ha.
      * apply andb_true_iff in Ha. destruct Ha as [H1 _]. rewrite H1. exact IH.
Qed.

Lemma order_by_name_sorted (rows : list (string * option float)) :
  ascending (map fst (order_by_name rows)) = true.
Proof.
  induction rows as [| r rows IH]; cbn [order_by_name fold_right]; [reflexivity |].
  now apply insert_by_name_ascending.
Qed.

Lemma stored_rows_fst `{Runtime} (xs ys : list string) :
  List.length xs = List.length ys ->
  map fst (map (fun p => (fst p, bind_real (py_float (snd p)))) (zip xs ys))
  = xs.
Proof.
  revert ys. induction xs as [| x xs IH]; intros [| y ys] E; simpl in *;
    try discriminate; [reflexivity |].
  f_equal. apply IH. now injection E.
Qed.

Lemma stored_rows_snd `{Runtime} (xs ys : list string) :
  List.length xs = List.length ys ->
  map (fun r => match snd r with Some v => py_str v | None => "" end)
      (map (fun p => (fst p, bind_real (py_float (snd p)))) (zip xs ys))
  = map (fun m => match bind_real (py_float m) with
                  | Some v => py_str v
                  | None => ""
                  end) ys.
Proof.
  revert ys. induction xs as [| x xs IH]; intros [| y ys] E; simpl in *;
    try discriminate; [reflexivity |].
  f_equal. apply IH. now injection E.
Qed.

Lemma rows_of_pairs_nonblank `{Runtime} (xs ys : list string) :
  Forall (fun x => nonblank x = true /\ strip x = x) xs ->
  rows_of_pairs (zip xs ys)
  = map (fun p => (fst p, bind_real (py_float (snd p)))) (zip xs ys).
Proof.
  intro Hx. revert ys. induction Hx as [| x xs [Hnb Hs] _ IH]; intros ys.
  - reflexivity.
  - destruct ys as [| y ys]; [reflexivity |].
    cbn [zip combine rows_of_pairs flat_map map fst snd].
    rewrite Hnb, Hs. cbn [app]. f_equal. apply IH.
Qed.

(** The student read back from the row an upsert wrote. *)
Lemma student_of_upserted_row `{Runtime} (s : Student) (d : database) :
  subject_ids_unique d ->
  student_of_row (upserted s d) (row_of_student s) = normalized s.
Proof.
  intro Hnd. unfold student_of_row, normalized. cbn [row_of_student row_uid].
  rewrite (upserted_subject_marks s d Hnd). reflexivity.
Qed.

(** A student in normal form is given back as it is. *)
Lemma normalized_normal_form `{Runtime} (s : Student) :
  normal_form s -> normalized s = s.
Proof.
  intros [Hsub [Hasc [Hmk Hbal]]]. unfold balanced in Hbal.
  unfold normalized.
  rewrite (rows_of_pairs_nonblank _ _ Hsub).
  rewrite order_by_name_ascending
    by (rewrite (stored_rows_fst _ _ Hbal); exact Hasc).
  rewrite unpack_rows_maps.
  rewrite (stored_rows_fst _ _ Hbal), (stored_rows_snd _ _ Hbal).
  assert (E : map (fun m => match bind_real (py_float m) with
                            | Some v => py_str v
                            | None => ""
                            end) (marks s) = marks s).
  { clear - Hmk. induction Hmk as [| m ms Hm _ IH]; [reflexivity |].
    cbn [map]. rewrite IH. f_equal.
    unfold mark_stable in Hm.
    destruct (bind_real (py_float m)); now symmetry + idtac. }
  rewrite E. destruct s. reflexivity.
Qed.

Lemma student_of_row_uid `{Runtime} (d : database) (r : student_row) :
  uid (student_of_row d r) = row_uid r.
Proof.
  unfold student_of_row.
  now destruct (unpack_rows (select_subject_marks (row_uid r) d)).
Qed.

(** After an upsert without database error, [load_data] has exactly one
    student of that uid. *)
Lemma loaded_upserted `{Runtime} (s : Student) (d : database) :
  filter (same_uid (uid s)) (loaded (upserted s d))
  = [student_of_row (upserted s d) (row_of_student s)].
Proof.
  unfold loaded, select_students. rewrite upserted_students.
  rewrite map_app, filter_app. cbn [map filter].
  unfold same_uid at 2. rewrite student_of_row_uid. cbn [row_of_student row_uid].
  rewrite String.eqb_refl.
  rewrite filter_none; [reflexivity |].
  intros x Hin. apply in_map_iff in Hin. destruct Hin as [r [E Hin]]. subst x.
  apply filter_In in Hin. destruct Hin as [_ Hin].
  unfold same_uid. rewrite student_of_row_uid.
  now apply negb_true_iff in Hin.
Qed.

Lemma run_upsert_then_load `{Runtime} (s : Student) l c d g :
  (db_upsert_student_normalized s ;; load_data) (mkApp l (mkConnection c d []) g)
  = (Return tt,
     mkApp (loaded (upserted s d))
           (mkConnection (upserted s d) (upserted s d) []) g).
Proof. unfold bind. rewrite run_upsert, run_load. reflexivity. Qed.

(** Saving any student and loading, without database error, yields one
    record of that uid: the student normalized. *)
Lemma save_then_load_normalizes `{Runtime} (s : Student)
  (st : StudentManagementApp) :
  no_errors st ->
  subject_ids_unique (current (conn st)) ->
  filter (same_uid (uid s))
         (students (snd ((db_upsert_student_normalized s ;; load_data) st)))
  = [normalized s].
Proof.
  destruct st as [l [c d fs] g]. unfold no_errors. cbn [conn faults current].
  intros Hf Hnd. subst fs.
  rewrite run_upsert_then_load. cbn [snd students].
  rewrite loaded_upserted. f_equal. now apply student_of_upserted_row.
Qed.

(** C2 (amended): for a student in the form the store keeps it in
    (subject names stripped, not blank and in ascending order; each mark
    empty or the text of the float it is stored as, which the texts of NaN
    and of the negative zero are not; one mark per subject), saving
    it with [db_upsert_student_normalized] and then running [load_data],
    with no database error, yields exactly one record of that uid, and it
    is the student saved, field for field. *)
Theorem save_then_load_round_trip `{Runtime} (s : Student)
  (st : StudentManagementApp) :
  no_errors st ->
  subject_ids_unique (current (conn st)) ->
  normal_form s ->
  filter (same_uid (uid s))
         (students (snd ((db_upsert_student_normalized s ;; load_data) st)))
  = [s].
Proof.
  destruct st as [l [c d fs] g]. unfold no_errors. cbn [conn faults current].
  intros Hf Hnd Hs. subst fs.
  rewrite run_upsert_then_load. cbn [snd students].
  rewrite loaded_upserted. f_equal.
  rewrite (student_of_upserted_row s d Hnd). now apply normalized_normal_form.
Qed.

(* ================================================================= *)
(** ** The equal-length invariant *)

Lemma keeps_preserves (P : list Student -> Prop) {A} (m : Py A) :
  keeps_students m -> preserves P m.
Proof. intros Hk st HP. now rewrite Hk. Qed.

Lemma establishes_preserves (P : list Student -> Prop) {A} (m : Py A) :
  establishes P m -> preserves P m.
Proof. intros He st _. apply He. Qed.

Lemma preserves_bind (P : list Student -> Prop) {A B} (m : Py A)
  (k : A -> Py B) :
  preserves P m -> (forall a, preserves P (k a)) -> preserves P (bind m k).
Proof.
  intros Hm Hk st HP. unfold bind.
  specialize (Hm st HP). destruct (m st) as [[a | e] st1]; cbn [snd] in *.
  - now apply Hk.
  - exact Hm.
Qed.

Lemma preserves_try_except (P : list Student -> Prop) {A} (body : Py A)
  (handler : exn -> Py A) :
  preserves P body -> (forall e, preserves P (handler e)) ->
  preserves P (try_except body handler).
Proof.
  intros Hb Hh st HP. unfold try_except.
  specialize (Hb st HP). destruct (body st) as [[a | e] st1]; cbn [snd] in *.
  - exact Hb.
  - now apply Hh.
Qed.

Lemma preserves_for_each (P : list Student -> Prop) {A} (items : list A)
  (body : A -> Py unit) :
  (forall x, preserves P (body x)) -> preserves P (for_each items body).
Proof.
  intro Hb. induction items as [| x rest IH]; cbn [for_each].
  - intros st HP. exact HP.
  - apply preserves_bind; [apply Hb | intros _; exact IH].
Qed.

(** After a computation that ends normally, what follows decides. *)
Lemma establishes_bind (P : list Student -> Prop) {A B} (m : Py A)
  (k : A -> Py B) :
  returns m -> (forall a, establishes P (k a)) -> establishes P (bind m k).
Proof.
  intros Hm Hk st. unfold bind.
  destruct (Hm st) as [a Ha]. destruct (m st) as [[a' | e] st1]; cbn [fst] in Ha.
  - apply Hk.
  - discriminate.
Qed.

Lemma returns_ret {A} (a : A) : returns (ret a).
Proof. intro st. now exists a. Qed.

Lemma returns_messagebox (m : dialog) : returns (messagebox m).
Proof. intro st. now exists tt. Qed.

Lemma returns_set_students (l : list Student) : returns (set_students l).
Proof. intro st. now exists tt. Qed.

Lemma returns_get_students : returns get_students.
Proof. intro st. now eexists. Qed.

Lemma returns_upsert `{Runtime} (s : Student) :
  returns (db_upsert_student_normalized s).
Proof. intro st. exists tt. apply upsert_returns. Qed.

Lemma returns_bind {A B} (m : Py A) (k : A -> Py B) :
  returns m -> (forall a, returns (k a)) -> returns (bind m k).
Proof.
  intros Hm Hk st. unfold bind.
  destruct (Hm st) as [a Ha]. destruct (m st) as [[a' | e] st1]; cbn [fst] in Ha.
  - apply Hk.
  - discriminate.
Qed.

(** Each turn of the loop of [load_data] appends a student with as many
    marks as subjects. *)
Lemma load_turn_balanced `{Runtime} (srow : student_row) :
  preserves (Forall balanced)
    (sm_rows <- execute (fetch (select_subject_marks (row_uid srow))) ;;
     let (subjects, marks) := unpack_rows sm_rows in
     loaded <- get_students ;;
     set_students
       (loaded ++ [mkStudent (row_uid srow) (row_name srow)
                     (row_student_class srow) (row_section srow)
                     subjects marks (row_image_filename srow)])).
Proof.
  apply preserves_bind; [apply keeps_preserves, keeps_execute |].
  intros sm_rows st HP.
  pose proof (unpack_rows_balanced sm_rows) as Hb.
  destruct (unpack_rows sm_rows) as [ss ms]. cbn [fst snd] in Hb.
  cbn. apply Forall_app. split; [exact HP |].
  repeat constructor. exact Hb.
Qed.

(** [load_data] leaves a list of balanced students, database errors or
    not. *)
Lemma load_data_balanced `{Runtime} : establishes (Forall balanced) load_data.
Proof.
  intro st. unfold load_data. unfold bind at 1, set_students at 1.
  apply preserves_try_except; [| | constructor].
  - apply preserves_bind; [apply keeps_preserves, keeps_execute |].
    intro rows. apply preserves_for_each. intro srow.
    apply load_turn_balanced.
  - intro e. apply keeps_preserves, keeps_messagebox.
Qed.

Lemma save_balanced `{Runtime} (mode : form_mode) (entries : form) :
  preserves (Forall balanced) (save mode entries).
Proof.
  unfold save, save_with.
  destruct (negb _); [apply keeps_preserves, keeps_messagebox |].
  destruct (_ && _); [apply keeps_preserves, keeps_messagebox |].
  destruct (marks_of _) as [ms |]; [| apply keeps_preserves, keeps_messagebox].
  apply preserves_bind.
  - apply keeps_preserves.
    destruct (truthy _); [| apply keeps_ret].
    destruct (place_image _ _); [apply keeps_ret |].
    apply keeps_bind; [apply keeps_messagebox | intros _; apply keeps_ret].
  - intro image_target_rel. destruct mode.
    + apply preserves_bind; [apply keeps_preserves; intro; reflexivity |].
      intro all. destruct (existsb _ _); [apply keeps_preserves, keeps_messagebox |].
      apply establishes_preserves.
      apply establishes_bind; [apply returns_set_students | intros _].
      apply establishes_bind; [apply returns_upsert | intros _].
      apply establishes_bind; [apply returns_messagebox | intros _].
      apply load_data_balanced.
    + apply establishes_preserves.
      apply establishes_bind; [apply returns_get_students | intro all].
      apply establishes_bind; [| intros _; apply load_data_balanced].
      destruct (assign_first _ _ _) as [[s all'] |]; [| apply returns_messagebox].
      apply returns_bind; [apply returns_set_students | intros _].
      apply returns_bind; [apply returns_upsert | intros _].
      apply returns_messagebox.
Qed.

(** The marks loop of [save] keeps one mark per entry. *)
Lemma marks_of_length `{Runtime} (items ms : list string) :
  marks_of items = Some ms -> List.length ms = List.length items.
Proof.
  revert ms. induction items as [| x items IH]; intros ms; cbn [marks_of].
  - intro E. injection E as <-. reflexivity.
  - destruct (py_float x); [| discriminate].
    destruct (marks_of items) as [ms' |]; [| discriminate].
    intro E. injection E as <-. cbn [List.length]. f_equal. now apply IH.
Qed.

Lemma assign_first_balanced (u : string) (f : Student -> Student)
  (items items' : list Student) (s : Student) :
  (forall x, balanced (f x)) -> Forall balanced items ->
  assign_first u f items = Some (s, items') -> Forall balanced items'.
Proof.
  intros Hf. revert s items'.
  induction items as [| x items IH]; intros s items' Hb; cbn [assign_first];
    [discriminate |].
  inversion Hb as [| ? ? Hx Hrest]; subst.
  destruct (same_uid u x).
  - intro E. injection E as _ <-. constructor; [apply Hf | exact Hrest].
  - destruct (assign_first u f items) as [[s' rest'] |]; [| discriminate].
    intro E. injection E as _ <-. constructor; [exact Hx |].
    now apply (IH s').
Qed.

(** When a subject is entered, the record [save] appends or assigns has
    passed the length check: the list is one of balanced students also
    before the reload. *)
Lemma save_with_balanced `{Runtime} (mode : form_mode) (entries : form) :
  comma_items (entry_Subjects entries) <> [] ->
  preserves (Forall balanced) (save_with (ret tt) mode entries).
Proof.
  intro Hsub. unfold save_with. cbv zeta.
  destruct (negb _); [apply keeps_preserves, keeps_messagebox |].
  assert (Hm : match comma_items (entry_Subjects entries) with
               | [] => false
               | _ => true
               end = true)
    by (destruct (comma_items (entry_Subjects entries));
        [now destruct Hsub | reflexivity]).
  rewrite Hm. cbn [andb].
  destruct (negb (_ =? _)%nat) eqn:El;
    [apply keeps_preserves, keeps_messagebox |].
  apply negb_false_iff, Nat.eqb_eq in El.
  destruct (marks_of _) as [ms |] eqn:Em;
    [| apply keeps_preserves, keeps_messagebox].
  apply marks_of_length in Em.
  apply preserves_bind.
  - apply keeps_preserves.
    destruct (truthy _); [| apply keeps_ret].
    destruct (place_image _ _); [apply keeps_ret |].
    apply keeps_bind; [apply keeps_messagebox | intros _; apply keeps_ret].
  - intro image_target_rel. destruct mode.
    + intros st HP. unfold bind at 1, get_students at 1. cbn [students].
      destruct (existsb _ _); [now rewrite keeps_messagebox |].
      unfold bind at 1, set_students at 1.
      rewrite (keeps_bind _ _ (keeps_upsert _)
                 (fun _ => keeps_bind _ _ (keeps_messagebox _)
                             (fun _ => keeps_ret tt))).
      cbn [students]. apply Forall_app. split; [exact HP |].
      repeat constructor. unfold balanced. cbn [subjects marks]. congruence.
    + intros st HP. unfold bind at 1, get_students at 1.
      assert (Hf : forall x,
                 balanced (assign_fields (strip (entry_Name entries))
                             (strip (entry_Class entries))
                             (strip (entry_Section entries))
                             (comma_items (entry_Subjects entries)) ms
                             image_target_rel x)).
      { intro x. unfold balanced, assign_fields. cbn [subjects marks].
        congruence. }
      apply preserves_bind; [| intros _; apply keeps_preserves, keeps_ret
                             | exact HP].
      destruct (assign_first _ _ _) as [[s all'] |] eqn:Ea;
        [| apply keeps_preserves, keeps_messagebox].
      intros st2 _. unfold bind at 1, set_students at 1.
      rewrite (keeps_bind _ _ (keeps_upsert _)
                 (fun _ => keeps_messagebox _)).
      cbn [students].
      exact (assign_first_balanced _ _ _ _ _ Hf HP Ea).
Qed.

(** C4 (amended): in a list of students with as many marks as subjects
    each, the record the form's save action creates (add) or mutates
    (update) from entries that name a subject has as many marks as
    subjects: the list is such a list before [save] reloads it. Whatever
    the entries, the list is such a list after the save action, after
    [db_upsert_student_normalized] and after [load_data], whatever
    database errors occur. *)
Theorem equal_length_invariant `{Runtime} (st : StudentManagementApp) :
  Forall balanced (students st) ->
  (forall mode entries,
      (comma_items (entry_Subjects entries) <> [] ->
       Forall balanced (students (snd (save_with (ret tt) mode entries st))))
      /\ Forall balanced (students (snd (save mode entries st))))
  /\ (forall s,
         Forall balanced (students (snd (db_upsert_student_normalized s st))))
  /\ Forall balanced (students (snd (load_data st))).
Proof.
  intro Hb. split; [| split].
  - intros mode entries. split.
    + intro Hsub. now apply save_with_balanced.
    + now apply save_balanced.
  - intro s. now rewrite keeps_upsert.
  - apply load_data_balanced.
Qed.

(* ================================================================= *)
(** ** Validation in the form *)

Lemma marks_of_unparsed `{Runtime} (items : list string) (m : string) :
  In m items -> py_float m = None -> marks_of items = None.
Proof.
  induction items as [| x items IH]; cbn [In marks_of]; [tauto |].
  intros [E | Hin] Hm.
  - subst x. now rewrite Hm.
  - destruct (py_float x); [| reflexivity].
    now rewrite (IH Hin Hm).
Qed.

Lemma messagebox_blocks (text : string) (st : StudentManagementApp) :
  blocked_with text st (snd (messagebox (showerror "Error" text) st)).
Proof. repeat split. Qed.

(** C9: when some entered mark does not parse as a number, the save action
    ends at a validation message (a required field is missing, the counts
    of subjects and marks differ, or the marks are not numeric), with the
    in-memory list and the connection, hence the database, as they were. *)
Theorem save_blocked_on_unparsed_mark `{Runtime} (mode : form_mode)
  (entries : form) (st : StudentManagementApp) (m : string) :
  In m (marks_input entries) ->
  py_float m = None ->
  let st' := snd (save mode entries st) in
  blocked_with "UID, Name and Class are required." st st'
  \/ blocked_with "Number of subjects and marks must match." st st'
  \/ blocked_with "Marks must be numeric." st st'.
Proof.
  intros Hin Hm. cbv zeta. unfold save, save_with.
  destruct (negb _); [left; apply messagebox_blocks |].
  destruct (_ && _); [right; left; apply messagebox_blocks |].
  fold (marks_input entries). rewrite (marks_of_unparsed _ m Hin Hm).
  right; right; apply messagebox_blocks.
Qed.

(** C10: in add mode, when the UID entered (stripped, as [save] reads it)
    is the uid of a student in the in-memory list, the save action ends at
    an error box, after at most a warning about the photo, and leaves the
    in-memory list and the connection, hence the database, as they
    were. *)
Theorem add_rejects_existing_uid `{Runtime} (entries : form)
  (st : StudentManagementApp) :
  existsb (same_uid (strip (entry_UID entries))) (students st) = true ->
  let st' := snd (save add entries st) in
  students st' = students st
  /\ conn st' = conn st
  /\ exists warnings text,
       dialogs st' = dialogs st ++ warnings ++ [showerror "Error" text]
       /\ (warnings = []
           \/ exists e, warnings = [showwarning "Warning" e]).
Proof.
  intro Hdup. cbv zeta. unfold save, save_with.
  destruct (negb _).
  { split; [reflexivity | split; [reflexivity |]].
    exists nil, "UID, Name and Class are required.". auto. }
  destruct (_ && _).
  { split; [reflexivity | split; [reflexivity |]].
    exists nil, "Number of subjects and marks must match.". auto. }
  destruct (marks_of _) as [ms |].
  2:{ split; [reflexivity | split; [reflexivity |]].
      exists nil, "Marks must be numeric.". auto. }
  destruct (truthy (img_path_var entries)); [destruct (place_image _ _) |];
    cbv [bind ret get_students messagebox];
    cbn [students conn dialogs snd fst]; rewrite Hdup;
    cbn [students conn dialogs snd fst];
    (split; [reflexivity | split; [reflexivity |]]).
  - exists nil, "UID already exists.". auto.
  - eexists (_ :: nil), "UID already exists.".
    rewrite <- app_assoc. split; [reflexivity |]. right. eexists. reflexivity.
  - exists nil, "UID already exists.". auto.
Qed.

(* ================================================================= *)
(** ** Deleting and reconciling *)

Lemma delete_where_links (p : student_row -> bool) (d : database)
  (l : link_row) :
  In l (student_subjects_table (delete_students_where p d)) ->
  forall r, In r (students_table d) -> p r = true ->
            student_uid l <> row_uid r.
Proof.
  unfold delete_students_where. cbn [student_subjects_table].
  intros Hin r Hr Hp E. apply filter_In in Hin. destruct Hin as [_ Hin].
  apply negb_true_iff in Hin.
  assert (Hm : mem_string (student_uid l)
                 (map row_uid (filter p (students_table d))) = true).
  { apply mem_string_In. rewrite E. apply in_map. apply filter_In. auto. }
  congruence.
Qed.

Lemma delete_where_students (p : student_row -> bool) (d : database)
  (r : student_row) :
  In r (students_table (delete_students_where p d)) ->
  In r (students_table d) /\ p r = false.
Proof.
  unfold delete_students_where. cbn [students_table].
  intro Hin. apply filter_In in Hin. destruct Hin as [Hin Hp].
  now apply negb_true_iff in Hp.
Qed.

(** C7: after [db_delete_student_normalized] on the uid of a stored
    student, with no database error, no row of [student_subjects] in the
    store references that uid. *)
Theorem delete_leaves_no_links (u : string) (st : StudentManagementApp) :
  no_errors st ->
  In u (map row_uid (students_table (current (conn st)))) ->
  let st' := snd (db_delete_student_normalized u st) in
  committed (conn st') = current (conn st')
  /\ forall l, In l (student_subjects_table (committed (conn st'))) ->
               student_uid l <> u.
Proof.
  destruct st as [l0 [c d fs] g]. unfold no_errors. cbn [conn faults current].
  intros Hf Hu. subst fs. rewrite run_delete. cbn [snd conn committed current].
  split; [reflexivity |]. intros l Hin.
  apply in_map_iff in Hu. destruct Hu as [r [Er Hr]].
  rewrite <- Er. apply (delete_where_links _ _ _ Hin r Hr).
  now apply has_uid_refl.
Qed.

Lemma run_upsert_loop `{Runtime} items :
  forall l c d g,
  exists c' d',
    for_each items db_upsert_student_normalized
      (mkApp l (mkConnection c d []) g)
    = (Return tt, mkApp l (mkConnection c' d' []) g).
Proof.
  induction items as [| s items IH]; intros l c d g.
  - exists c, d. reflexivity.
  - cbn [for_each]. unfold bind. rewrite run_upsert. apply IH.
Qed.

(** C6: after [save_data] with no database error, every row of [students]
    in the store has the uid of a student of the in-memory list, and an
    empty in-memory list leaves the table empty. *)
Theorem save_data_reconciles `{Runtime} (st : StudentManagementApp) :
  no_errors st ->
  let st' := snd (save_data st) in
  (forall r, In r (students_table (committed (conn st'))) ->
             In (row_uid r) (map uid (students st)))
  /\ (students st = [] -> students_table (committed (conn st')) = []).
Proof.
  destruct st as [l [c d fs] g]. unfold no_errors. cbn [conn faults current].
  intro Hf. subst fs. cbv zeta. cbn [students].
  unfold save_data, try_except. unfold bind at 1, get_students at 1.
  cbn [students]. unfold bind at 1.
  destruct (run_upsert_loop l l c d g) as [c' [d' E]]. rewrite E.
  unfold with_conn. destruct l as [| s l]; cbn [map].
  - cbn. split.
    + intros r Hin. apply filter_In in Hin. now destruct Hin.
    + intros _. now apply filter_none.
  - cbn [execute write conn faults current committed set_conn students
         dialogs tl snd commit].
    split; [| discriminate].
    intros r Hin. apply delete_where_students in Hin. destruct Hin as [_ Hp].
    apply negb_false_iff in Hp. now apply mem_string_In in Hp.
Qed.

(* ================================================================= *)
(** ** Averages and grades *)

Lemma float_all_unparsed `{Runtime} (items : list string) (m : string) :
  In m items -> py_float m = None -> float_all items = None.
Proof.
  induction items as [| x items IH]; cbn [In float_all]; [tauto |].
  intros [E | Hin] Hm.
  - subst x. now rewrite Hm.
  - destruct (py_float x); [| reflexivity].
    now rewrite (IH Hin Hm).
Qed.

(** A mark that is neither empty nor a number leaves the student without
    average: the [except] of [_avg_of]. *)
Lemma avg_of_unparsed `{Runtime} (s : Student) (m : string) :
  In m (marks s) -> m <> "" -> py_float m = None -> _avg_of s = None.
Proof.
  intros Hin Hne Hm. unfold _avg_of.
  destruct (marks s) as [| m0 ms] eqn:Em; [reflexivity |].
  rewrite (float_all_unparsed _ m); [reflexivity | | exact Hm].
  apply filter_In. split; [exact Hin |].
  destruct m; [congruence | reflexivity].
Qed.

Lemma pos_compare_cont_swap (p q : positive) :
  PosDef.Pos.compare_cont Eq q p = CompOpp (PosDef.Pos.compare_cont Eq p q).
Proof. apply Pos.compare_antisym. Qed.

(** IEEE comparison: [x < y] excludes [y <= x]. *)
Lemma SFltb_not_SFleb (x y : float) : SFltb x y = true -> SFleb y x = false.
Proof.
  unfold SFltb, SFleb.
  destruct x as [sx | sx | | sx mx ex], y as [sy | sy | | sy my ey];
    cbn [SFcompare]; try discriminate;
    try (destruct sx; try destruct sy; cbn; congruence).
  destruct sx, sy; try (cbn; congruence).
  - rewrite (Z.compare_antisym ex ey), (pos_compare_cont_swap mx my).
    destruct (ex ?= ey)%Z; cbn; try congruence.
    destruct (PosDef.Pos.compare_cont Eq mx my); cbn; congruence.
  - rewrite (Z.compare_antisym ex ey), (pos_compare_cont_swap mx my).
    destruct (ex ?= ey)%Z; cbn; try congruence.
    destruct (PosDef.Pos.compare_cont Eq mx my); cbn; congruence.
Qed.

Lemma float_lt_not_ge (a : float) (n : Z) :
  float_lt a n = true -> float_ge a n = false.
Proof. apply SFltb_not_SFleb. Qed.

Lemma float_of_75 : float_of_Z 75 = S754_finite false 5277655813324800 (-46).
Proof. vm_compute. reflexivity. Qed.

Lemma float_of_90 : float_of_Z 90 = S754_finite false 6333186975989760 (-46).
Proof. vm_compute. reflexivity. Qed.

(** Below a positive float is below a larger one of the same exponent. *)
Lemma SFltb_finite_mono (a : float) (m1 m2 : positive) (e : Z) :
  (m1 < m2)%positive ->
  SFltb a (S754_finite false m1 e) = true ->
  SFltb a (S754_finite false m2 e) = true.
Proof.
  intro Hm. unfold SFltb.
  destruct a as [sa | sa | | sa ma ea]; cbn [SFcompare]; try discriminate.
  - intros _. reflexivity.
  - destruct sa; [reflexivity | discriminate].
  - destruct sa; [reflexivity |].
    destruct (ea ?= e)%Z; try discriminate; [| reflexivity].
    change (PosDef.Pos.compare_cont Eq) with Pos.compare.
    destruct (ma ?= m1)%positive eqn:E; try discriminate.
    intros _. apply Pos.compare_lt_iff in E.
    assert (L : (ma < m2)%positive) by (eapply Pos.lt_trans; eassumption).
    apply Pos.compare_lt_iff in L. now rewrite L.
Qed.

(** Below 75 is below 90. *)
Lemma float_lt_75_90 (a : float) : float_lt a 75 = true -> float_lt a 90 = true.
Proof.
  unfold float_lt. rewrite float_of_75, float_of_90.
  apply SFltb_finite_mono. vm_compute. reflexivity.
Qed.

(** Every float but NaN is at or above a threshold or below it. *)
Lemma SFleb_or_SFltb (x y : float) :
  x <> S754_nan -> y <> S754_nan -> SFleb y x = true \/ SFltb x y = true.
Proof.
  unfold SFltb, SFleb. intros Hx Hy.
  destruct x as [sx | sx | | sx mx ex], y as [sy | sy | | sy my ey];
    try congruence; cbn [SFcompare];
    try (destruct sx; try destruct sy; cbn; auto; fail).
  destruct sx, sy; try (cbn; auto; fail).
  - rewrite (Z.compare_antisym ex ey), (pos_compare_cont_swap mx my).
    destruct (ex ?= ey)%Z; cbn; auto.
    destruct (PosDef.Pos.compare_cont Eq mx my); cbn; auto.
  - rewrite (Z.compare_antisym ex ey), (pos_compare_cont_swap mx my).
    destruct (ex ?= ey)%Z; cbn; auto.
    destruct (PosDef.Pos.compare_cont Eq mx my); cbn; auto.
Qed.

(** [_grade_of] by the comparisons it makes: the IEEE comparisons of the
    average with the floats of 90 and 75. *)
Lemma grade_by_comparisons (a : float) :
  (float_ge a 90 = true -> _grade_of (Some a) = "A")
  /\ (float_ge a 75 = true -> float_lt a 90 = true ->
      _grade_of (Some a) = "B")
  /\ (float_lt a 75 = true -> _grade_of (Some a) = "C").
Proof.
  unfold _grade_of. repeat split.
  - intros ->. reflexivity.
  - intros H75 H90. now rewrite (float_lt_not_ge _ _ H90), H75.
  - intro H75.
    rewrite (float_lt_not_ge _ _ (float_lt_75_90 _ H75)).
    now rewrite (float_lt_not_ge _ _ H75).
Qed.

(* ================================================================= *)
(** ** Comparisons on exact values *)

Section Exact.

Local Open Scope Z_scope.


Lemma digits2_size (m : positive) : digits2_pos m = Pos.size m.
Proof. induction m; cbn; congruence. Qed.

Lemma digits2_bounds (m : positive) :
  2 ^ (Zpos (digits2_pos m) - 1) <= Zpos m < 2 ^ Zpos (digits2_pos m).
Proof.
  rewrite digits2_size. split.
  - pose proof (Pos.size_le m) as H.
    assert (E : Zpos (2 ^ Pos.size m) = 2 ^ Zpos (Pos.size m))
      by (rewrite Pos2Z.inj_pow; reflexivity).
    assert (L : 2 ^ Zpos (Pos.size m) <= 2 * Zpos m).
    { rewrite <- E. change (2 * Zpos m) with (Zpos m~0). exact H. }
    replace (Zpos (Pos.size m)) with (Z.succ (Zpos (Pos.size m) - 1)) in L by lia.
    rewrite Z.pow_succ_r in L by lia. lia.
  - pose proof (Pos.size_gt m) as H.
    assert (E : Zpos (2 ^ Pos.size m) = 2 ^ Zpos (Pos.size m))
      by (rewrite Pos2Z.inj_pow; reflexivity).
    rewrite <- E. exact H.
Qed.

(** A binary64 mantissa has at most 53 bits, and exactly 53 above the
    smallest exponent. *)
Lemma bounded_mantissa (m : positive) (e : Z) :
  bounded prec emax m e = true ->
  -1074 <= e /\ Zpos m < 2 ^ 53 /\ (-1074 < e -> 2 ^ 52 <= Zpos m).
Proof.
  unfold bounded, canonical_mantissa, fexp, SpecFloat.emin, prec, emax.
  intro H. apply andb_true_iff in H. destruct H as [H _].
  apply Z.eqb_eq in H.
  pose proof (digits2_bounds m) as [Hlo Hhi].
  set (d := Zpos (digits2_pos m)) in *.
  assert (Hd : d <= 53) by lia.
  repeat split.
  - lia.
  - eapply Z.lt_le_trans; [exact Hhi |]. apply Z.pow_le_mono_r; lia.
  - intro He. assert (Ed : d = 53) by lia. rewrite Ed in Hlo. exact Hlo.
Qed.

Lemma pow2_52 : 2 ^ 52 = 4503599627370496.
Proof. reflexivity. Qed.

Lemma pow2_53 : 2 ^ 53 = 9007199254740992.
Proof. reflexivity. Qed.

(** How a positive binary64 number with mantissa [m] and exponent [e]
    stands to an integer [n] of seven bits, whose float has exponent -46
    and mantissa [n * 2^46]. *)
Lemma threshold_position (n : Z) (m : positive) (e : Z) :
  64 <= n < 128 ->
  bounded prec emax m e = true ->
  (e < -46 -> Zpos m < n * 2 ^ (- e))
  /\ (-46 < e -> if 0 <=? e then n <= Zpos m * 2 ^ e
                 else n * 2 ^ (- e) <= Zpos m).
Proof.
  intros Hn Hb. destruct (bounded_mantissa m e Hb) as [Hmin [Hhi Hlo]].
  rewrite pow2_53 in Hhi. rewrite pow2_52 in Hlo. split.
  - intro He.
    assert (P : 2 ^ 47 <= 2 ^ (- e)) by (apply Z.pow_le_mono_r; lia).
    change (2 ^ 47) with 140737488355328 in P. nia.
  - intro He. specialize (Hlo ltac:(lia)).
    destruct (Z.leb_spec 0 e) as [H0 | H0].
    + assert (P : 1 <= 2 ^ e) by (apply (Z.pow_le_mono_r 2 0 e); lia). nia.
    + assert (P : 2 ^ (- e) <= 2 ^ 45) by (apply Z.pow_le_mono_r; lia).
      assert (Q : 0 < 2 ^ (- e)) by (apply Z.pow_pos_nonneg; lia).
      change (2 ^ 45) with 35184372088832 in P. nia.
Qed.

(** On binary64 numbers the IEEE comparison with the float of [n] is the
    comparison of the exact value with [n]. *)
Lemma SFleb_exact (n : Z) (mc : positive) (a : float) :
  64 <= n < 128 -> Zpos mc = n * 2 ^ 46 ->
  valid_binary prec emax a = true ->
  SFleb (S754_finite false mc (-46)) a = true <-> at_least a n.
Proof.
  intros Hn Hmc Hv. unfold SFleb.
  destruct a as [s | s | | s m e]; cbn [SFcompare at_least].
  - split; [discriminate | intro; exfalso; lia].
  - destruct s; split; congruence.
  - split; [discriminate | tauto].
  - cbn [valid_binary] in Hv.
    destruct (threshold_position n m e Hn Hv) as [Hlow Hhigh].
    destruct s; cbn [signed].
    + split; [discriminate |]. intro H. exfalso.
      destruct (0 <=? e).
      * assert (P : 0 <= 2 ^ e) by (apply Z.pow_nonneg; lia). nia.
      * assert (P : 0 <= 2 ^ (- e)) by (apply Z.pow_nonneg; lia). nia.
    + rewrite (Z.compare_antisym e (-46)).
      destruct (Z.compare_spec e (-46)) as [E | E | E]; cbn [CompOpp].
      * subst e. change (0 <=? -46) with false. cbv iota.
        change (- -46) with 46. rewrite <- Hmc.
        change (PosDef.Pos.compare_cont Eq) with Pos.compare.
        destruct (Pos.compare_spec mc m) as [F | F | F]; split; intro H;
          try reflexivity; try discriminate; try lia; exfalso; lia.
      * specialize (Hlow E).
        destruct (Z.leb_spec 0 e); [lia |].
        split; [discriminate | intro; exfalso; lia].
      * specialize (Hhigh E). split; [intros _; exact Hhigh | reflexivity].
Qed.

Lemma SFltb_exact (n : Z) (mc : positive) (a : float) :
  64 <= n < 128 -> Zpos mc = n * 2 ^ 46 ->
  valid_binary prec emax a = true ->
  SFltb a (S754_finite false mc (-46)) = true <-> below a n.
Proof.
  intros Hn Hmc Hv. unfold SFltb.
  destruct a as [s | s | | s m e]; cbn [SFcompare below].
  - split; [lia | reflexivity].
  - destruct s; split; congruence.
  - split; [discriminate | tauto].
  - cbn [valid_binary] in Hv.
    destruct (threshold_position n m e Hn Hv) as [Hlow Hhigh].
    destruct s; cbn [signed].
    + split; [| reflexivity]. intros _.
      destruct (0 <=? e).
      * assert (P : 0 <= 2 ^ e) by (apply Z.pow_nonneg; lia). nia.
      * assert (P : 0 <= 2 ^ (- e)) by (apply Z.pow_nonneg; lia). nia.
    + destruct (Z.compare_spec e (-46)) as [E | E | E].
      * subst e. change (0 <=? -46) with false. cbv iota.
        change (- -46) with 46. rewrite <- Hmc.
        change (PosDef.Pos.compare_cont Eq) with Pos.compare.
        destruct (Pos.compare_spec m mc) as [F | F | F]; split; intro H;
          try reflexivity; try discriminate; try lia; exfalso; lia.
      * specialize (Hlow E).
        destruct (Z.leb_spec 0 e); [lia |]. split; [intros _; exact Hlow | reflexivity].
      * specialize (Hhigh E). split; [discriminate |].
        intro; exfalso. destruct (0 <=? e); lia.
Qed.

Lemma float_ge_exact_90 (a : float) :
  valid_binary prec emax a = true -> float_ge a 90 = true <-> at_least a 90.
Proof.
  unfold float_ge. rewrite float_of_90.
  apply SFleb_exact; [lia | vm_compute; reflexivity].
Qed.

Lemma float_ge_exact_75 (a : float) :
  valid_binary prec emax a = true -> float_ge a 75 = true <-> at_least a 75.
Proof.
  unfold float_ge. rewrite float_of_75.
  apply SFleb_exact; [lia | vm_compute; reflexivity].
Qed.

Lemma float_lt_exact_90 (a : float) :
  valid_binary prec emax a = true -> float_lt a 90 = true <-> below a 90.
Proof.
  unfold float_lt. rewrite float_of_90.
  apply SFltb_exact; [lia | vm_compute; reflexivity].
Qed.

Lemma float_lt_exact_75 (a : float) :
  valid_binary prec emax a = true -> float_lt a 75 = true <-> below a 75.
Proof.
  unfold float_lt. rewrite float_of_75.
  apply SFltb_exact; [lia | vm_compute; reflexivity].
Qed.

End Exact.

(** C8: for an average [a], a binary64 float, [_grade_of] gives "A" when
    [a >= 90], "B" when [75 <= a < 90] and "C" when [a < 75], the
    comparisons being those of the exact value of [a] with the integer
    thresholds. *)
Theorem grade_thresholds (a : float) :
  valid_binary prec emax a = true ->
  (at_least a 90 -> _grade_of (Some a) = "A")
  /\ (at_least a 75 -> below a 90 -> _grade_of (Some a) = "B")
  /\ (below a 75 -> _grade_of (Some a) = "C").
Proof.
  intro Hv. destruct (grade_by_comparisons a) as [HA [HB HC]].
  repeat split.
  - intro H. now apply HA, float_ge_exact_90.
  - intros H75 H90.
    apply HB; [now apply float_ge_exact_75 | now apply float_lt_exact_90].
  - intro H. now apply HC, float_lt_exact_75.
Qed.

(** The three cases of [grade_thresholds] leave out no float but NaN, for
    which [_grade_of] gives "C". *)
Lemma thresholds_cover (a : float) :
  valid_binary prec emax a = true -> a <> S754_nan ->
  at_least a 90 \/ (at_least a 75 /\ below a 90) \/ below a 75.
Proof.
  intros Hv Hn.
  assert (N90 : float_of_Z 90 <> S754_nan) by (rewrite float_of_90; discriminate).
  assert (N75 : float_of_Z 75 <> S754_nan) by (rewrite float_of_75; discriminate).
  destruct (SFleb_or_SFltb a (float_of_Z 90) Hn N90) as [H | H].
  - left. now apply float_ge_exact_90.
  - right. destruct (SFleb_or_SFltb a (float_of_Z 75) Hn N75) as [H' | H'].
    + left. split; [now apply float_ge_exact_75 | now apply float_lt_exact_90].
    + right. now apply float_lt_exact_75.
Qed.

Lemma grade_of_nan : _grade_of (Some S754_nan) = "C".
Proof. reflexivity. Qed.

(* ================================================================= *)
(** ** Rounding to binary64 *)

(** [binary_round_aux], which ends every operation of [SpecFloat], works
    on a number [(m + a / b) * 2 ^ e] given by its integer part and by the
    position of its fraction; it shifts out the digits that do not fit and
    rounds to nearest. *)

Section Rounding.

Local Open Scope Z_scope.










(** *** The number of binary digits *)










(** *** Division *)




(** *** The float of a count *)




End Rounding.

(* ================================================================= *)
(** ** The quotient on exact values *)

Section Quotient.

Local Open Scope Q_scope.










End Quotient.

(* ================================================================= *)
(** ** The average *)






(* ================================================================= *)
(** ** Search *)

Lemma prefix_append (q s : string) :
  String.prefix q s = true <-> exists post, s = (q ++ post)%string.
Proof.
  revert s. induction q as [| c q IH]; intro s; cbn [String.prefix].
  - split; [intros _; now exists s | intros _; now destruct s].
  - destruct s as [| c' s]; cbn [String.prefix append].
    + split; [discriminate | intros [post E]; discriminate].
    + destruct (ascii_dec c c') as [<- | Hne].
      * rewrite IH. split; intros [post E]; exists post.
        -- now rewrite E.
        -- now injection E.
      * split; [discriminate | intros [post E]]. injection E as E1 E2. congruence.
Qed.

(** [str_in q s] holds exactly when [q] is a substring of [s]. *)
Lemma str_in_substring (q s : string) :
  str_in q s = true <-> exists pre post, s = (pre ++ q ++ post)%string.
Proof.
  induction s as [| c s IH]; cbn [str_in]; rewrite orb_true_iff, prefix_append.
  - split.
    + intros [[post E] | F]; [| discriminate]. exists "", post. exact E.
    + intros [pre [post E]]. left.
      destruct pre; [now exists post | discriminate].
  - rewrite IH. split.
    + intros [[post E] | [pre [post E]]].
      * exists "", post. exact E.
      * exists (String c pre), post. cbn [append]. now rewrite E.
    + intros [[| c' pre] [post E]]; cbn [append] in E.
      * left. now exists post.
      * right. injection E as _ E. now exists pre, post.
Qed.

Lemma search_loop_last (items : list Student) (s : Student) :
  forall bound, search_loop (items ++ [s]) bound = Some (s, combined_of s).
Proof.
  induction items as [| x items IH]; intro bound; cbn [search_loop app].
  - reflexivity.
  - apply IH.
Qed.

(** What [search_students] does for a query that is not blank: only the
    last student of the list is tested. *)
Lemma search_students_last_only (search_var : string) (items : list Student)
  (s : Student) (st : StudentManagementApp) :
  truthy (lower (strip search_var)) = true ->
  students st = items ++ [s] ->
  search_students search_var st
  = (Return (if matches (lower (strip search_var)) s then [s] else []), st).
Proof.
  intros Hq Hl. unfold search_students. rewrite Hq. cbn [negb].
  unfold bind, get_students. rewrite Hl, search_loop_last.
  unfold matches. now destruct (str_in _ _).
Qed.

(* ================================================================= *)
(** ** The constraints of the schema are kept *)

Lemma empty_database_unique : subject_ids_unique empty_database.
Proof. constructor. Qed.

Lemma upserted_unique `{Runtime} (s : Student) (d : database) :
  subject_ids_unique d -> subject_ids_unique (upserted s d).
Proof.
  intro Hnd. unfold upserted.
  now destruct (fold_link_pair (uid s) (zip (subjects s) (marks s)) _
                  (replaced_student_stored (row_of_student s) d) Hnd)
    as [_ [HN _]].
Qed.

Lemma empty_database_foreign_keys : foreign_keys_hold empty_database.
Proof. intros l []. Qed.

(** The cascade keeps the foreign key through a delete. *)
Lemma delete_where_foreign_keys (p : student_row -> bool) (d : database) :
  foreign_keys_hold d -> foreign_keys_hold (delete_students_where p d).
Proof.
  intros Hfk l Hin. unfold delete_students_where in *.
  cbn [student_subjects_table students_table] in *.
  apply filter_In in Hin. destruct Hin as [Hin Hgone].
  apply negb_true_iff in Hgone.
  specialize (Hfk l Hin). apply in_map_iff in Hfk. destruct Hfk as [r [Er Hr]].
  apply in_map_iff. exists r. split; [exact Er |].
  apply filter_In. split; [exact Hr |].
  destruct (p r) eqn:Ep; [| reflexivity].
  exfalso. apply not_true_iff_false in Hgone. apply Hgone.
  apply mem_string_In. rewrite <- Er. apply in_map. apply filter_In. auto.
Qed.

Lemma link_pair_foreign_keys `{Runtime} (u : string) (d : database) p :
  foreign_keys_hold d -> foreign_keys_hold (link_pair u d p).
Proof.
  intro Hfk. unfold link_pair.
  destruct (nonblank (fst p)); [| exact Hfk].
  cbv zeta.
  assert (Hfk1 : foreign_keys_hold (insert_or_ignore_subject (strip (fst p)) d))
    by exact Hfk.
  destruct (select_subject_id _ _) as [sid |]; [| exact Hfk1].
  unfold insert_student_subject.
  destruct (mem_string u _ && _) eqn:E; [| exact Hfk1].
  apply andb_true_iff in E. destruct E as [Eu _].
  intros l Hin. cbn [student_subjects_table students_table] in *.
  apply in_app_or in Hin. destruct Hin as [Hin | [<- | []]].
  - now apply Hfk.
  - cbn [student_uid]. now apply mem_string_In.
Qed.

(** An upsert keeps the foreign key. *)
Lemma upserted_foreign_keys `{Runtime} (s : Student) (d : database) :
  foreign_keys_hold d -> foreign_keys_hold (upserted s d).
Proof.
  intro Hfk. unfold upserted.
  assert (H0 : foreign_keys_hold
                 (delete_student_subjects (uid s)
                    (insert_or_replace_student (row_of_student s) d))).
  { intros l Hin. cbn [delete_student_subjects student_subjects_table
                       students_table insert_or_replace_student] in *.
    apply filter_In in Hin. destruct Hin as [Hin _].
    rewrite map_app. apply in_or_app. left.
    now apply (delete_where_foreign_keys _ d Hfk). }
  revert H0. generalize (delete_student_subjects (uid s)
                           (insert_or_replace_student (row_of_student s) d)).
  induction (zip (subjects s) (marks s)) as [| p pairs IH]; intros d0 H0;
    cbn [fold_left]; [exact H0 |].
  apply IH. now apply link_pair_foreign_keys.
Qed.

(** C7, for a uid that need not be stored: with the foreign key holding
    before, no link references the uid after the delete either. *)
Lemma delete_leaves_no_links_fk (u : string) (st : StudentManagementApp) :
  no_errors st ->
  foreign_keys_hold (current (conn st)) ->
  forall l,
    In l (student_subjects_table
            (committed (conn (snd (db_delete_student_normalized u st))))) ->
    student_uid l <> u.
Proof.
  destruct st as [l0 [c d fs] g]. unfold no_errors. cbn [conn faults current].
  intros Hf Hfk l Hin. subst fs. rewrite run_delete in Hin.
  cbn [snd conn committed] in Hin. intro E.
  assert (Hl : In l (student_subjects_table d)).
  { unfold delete_student, delete_students_where in Hin.
    cbn [student_subjects_table] in Hin. apply filter_In in Hin. tauto. }
  specialize (Hfk l Hl). apply in_map_iff in Hfk. destruct Hfk as [r [Er Hr]].
  apply (delete_where_links _ _ _ Hin r Hr).
  - apply has_uid_refl. congruence.
  - now symmetry.
Qed.

(* ================================================================= *)
(** ** Reconciliation under database errors *)

Lemma returns_for_each {A} (items : list A) (body : A -> Py unit) :
  (forall x, returns (body x)) -> returns (for_each items body).
Proof.
  intro Hb. induction items as [| x items IH]; cbn [for_each].
  - apply returns_ret.
  - apply returns_bind; [apply Hb | intros _; exact IH].
Qed.

(** Whatever database errors occur, [save_data] either reports that the
    sync failed or leaves in the store only students of the in-memory
    list. *)
Lemma save_data_reconciles_or_reports `{Runtime} (st : StudentManagementApp) :
  let st' := snd (save_data st) in
  (exists shown text,
      dialogs st'
      = shown ++ [showerror "Database Error"
                    ("Failed to sync database: " ++ text)])
  \/ (forall r, In r (students_table (committed (conn st'))) ->
                In (row_uid r) (map uid (students st))).
Proof.
  pose proof (returns_for_each (students st) db_upsert_student_normalized
                returns_upsert st) as [[] Hret].
  cbv zeta. cbv [save_data try_except bind get_students with_conn].
  destruct (for_each (students st) db_upsert_student_normalized st)
    as [[[] | e] st1]; cbn [fst snd] in *; [clear Hret | discriminate].
  destruct (students st) as [| s l] eqn:El; cbn [map];
    unfold execute, write;
    (destruct (faults (conn st1)) as [| [|] later];
     [right | left; eexists _, _; reflexivity | right]);
    intros r Hin;
    unfold commit, set_conn, delete_students_not_in, delete_all_students,
      delete_students_where in Hin;
    cbn [snd fst conn committed current students_table] in Hin;
    apply filter_In in Hin; destruct Hin as [_ Hp];
    try discriminate;
    apply negb_true_iff, negb_false_iff in Hp; now apply mem_string_In in Hp.
Qed.

(* ================================================================= *)
(** ** What an upsert leaves alone *)

Lemma filter_implied {A} (p q : A -> bool) (l : list A) :
  (forall x, In x l -> p x = true -> q x = true) ->
  filter p (filter q l) = filter p l.
Proof.
  induction l as [| x l IH]; intro Hpq; cbn [filter]; [reflexivity |].
  assert (IH' : filter p (filter q l) = filter p l).
  { apply IH. intros y Hy. apply Hpq. now right. }
  destruct (q x) eqn:Eq; cbn [filter].
  - now rewrite IH'.
  - destruct (p x) eqn:Ep; [| exact IH'].
    rewrite (Hpq x (or_introl eq_refl) Ep) in Eq. discriminate.
Qed.

Lemma NoDup_app_disjoint {A} (xs ys : list A) (a : A) :
  NoDup (xs ++ ys) -> In a xs -> ~ In a ys.
Proof.
  induction xs as [| x xs IH]; cbn [app In]; [tauto |].
  intros Hnd [E | Hin] Hy; inversion Hnd as [| ? ? Hnotin Hnd']; subst.
  - apply Hnotin. apply in_or_app. now right.
  - now apply (IH Hnd' Hin).
Qed.

(** A link whose subject is stored joins the same rows after the subjects
    table grew, its ids staying unique. *)
Lemma joined_grown (d D : database) (more : list subject_row) (l : link_row) :
  subjects_table D = subjects_table d ++ more ->
  subject_ids_unique D ->
  In (subject_id l) (map subj_id (subjects_table d)) ->
  joined D l = joined d l.
Proof.
  intros HM HN Hin. unfold joined. rewrite HM, filter_app, map_app.
  rewrite (filter_absent_id (subject_id l) more), app_nil_r; [reflexivity |].
  unfold subject_ids_unique in HN. rewrite HM, map_app in HN.
  now apply (NoDup_app_disjoint _ _ _ HN).
Qed.

Lemma flat_map_joined_grown (d D : database) (more : list subject_row)
  (links : list link_row) :
  subjects_table D = subjects_table d ++ more ->
  subject_ids_unique D ->
  (forall l, In l links -> In (subject_id l) (map subj_id (subjects_table d))) ->
  flat_map (joined D) links = flat_map (joined d) links.
Proof.
  intros HM HN. induction links as [| l links IH]; intro Hr; cbn [flat_map];
    [reflexivity |].
  rewrite (joined_grown d D more l HM HN) by (apply Hr; now left).
  rewrite IH; [reflexivity |]. intros l' Hl'. apply Hr. now right.
Qed.

Lemma select_subject_marks_joined (u : string) (d : database) :
  select_subject_marks u d
  = order_by_name
      (flat_map (joined d) (filter (of_student u) (student_subjects_table d))).
Proof. reflexivity. Qed.

(** The links of another student left by the first two statements of an
    upsert. *)
Lemma replaced_links_of_other (r : student_row) (u : string) (d : database) :
  u <> row_uid r ->
  filter (of_student u)
    (student_subjects_table
       (delete_student_subjects (row_uid r) (insert_or_replace_student r d)))
  = filter (of_student u) (student_subjects_table d).
Proof.
  intro Hne. cbn [delete_student_subjects insert_or_replace_student
                  delete_students_where student_subjects_table].
  rewrite filter_implied.
  - apply filter_implied. intros l _ Hl. apply negb_true_iff.
    destruct (mem_string _ _) eqn:E; [| reflexivity].
    apply mem_string_In, in_map_iff in E. destruct E as [r' [Er Hr]].
    apply filter_In in Hr. destruct Hr as [_ Hr].
    unfold has_uid in Hr. apply String.eqb_eq in Hr.
    unfold of_student in Hl. apply String.eqb_eq in Hl. congruence.
  - intros l _ Hl. apply negb_true_iff. unfold of_student in *.
    apply String.eqb_eq in Hl. apply String.eqb_neq. congruence.
Qed.

Lemma replaced_links_subset (r : student_row) (d : database) (l : link_row) :
  In l (student_subjects_table
          (delete_student_subjects (row_uid r) (insert_or_replace_student r d))) ->
  In l (student_subjects_table d) /\ student_uid l <> row_uid r.
Proof.
  cbn [delete_student_subjects insert_or_replace_student
       delete_students_where student_subjects_table].
  intro Hin. apply filter_In in Hin. destruct Hin as [Hin Hne].
  apply filter_In in Hin. destruct Hin as [Hin _]. split; [exact Hin |].
  apply negb_true_iff in Hne. unfold of_student in Hne.
  now apply String.eqb_neq in Hne.
Qed.

(** The loop of an upsert keeps resolved what was, and its own links
    reference stored subjects. *)
Lemma link_pair_resolve `{Runtime} (Q : link_row -> Prop) (u : string)
  (d : database) p :
  subjects_resolve Q d -> subjects_resolve Q (link_pair u d p).
Proof.
  intro Hr. unfold link_pair.
  destruct (nonblank (fst p)); [| exact Hr]. cbv zeta.
  assert (Hr1 : subjects_resolve Q (insert_or_ignore_subject (strip (fst p)) d)).
  { intros l Hin HQ. cbn [student_subjects_table insert_or_ignore_subject] in Hin.
    destruct (insert_or_ignore_subjects (strip (fst p)) d) as [more HM].
    rewrite HM, map_app. apply in_or_app. left. now apply Hr. }
  destruct (select_subject_id _ _) as [sid |]; [| exact Hr1].
  unfold insert_student_subject.
  destruct (mem_string u _ && _) eqn:E; [| exact Hr1].
  apply andb_true_iff in E. destruct E as [_ Es].
  intros l Hin HQ. cbn [student_subjects_table subjects_table] in Hin |- *.
  apply in_app_or in Hin. destruct Hin as [Hin | [<- | []]].
  - now apply Hr1.
  - cbn [subject_id]. apply existsb_exists in Es. destruct Es as [i [Hi Ei]].
    apply Z.eqb_eq in Ei. now subst i.
Qed.

Lemma fold_link_pair_resolve `{Runtime} (Q : link_row -> Prop) (u : string)
  pairs :
  forall d, subjects_resolve Q d ->
            subjects_resolve Q (fold_left (link_pair u) pairs d).
Proof.
  induction pairs as [| p pairs IH]; intros d Hr; cbn [fold_left]; [exact Hr |].
  apply IH. now apply link_pair_resolve.
Qed.

Lemma upserted_resolve `{Runtime} (Q : link_row -> Prop) (s : Student)
  (d : database) :
  subjects_resolve (fun l => Q l /\ student_uid l <> uid s) d ->
  subjects_resolve Q (upserted s d).
Proof.
  intro Hr. unfold upserted. apply fold_link_pair_resolve.
  intros l Hin HQ.
  apply (replaced_links_subset (row_of_student s)) in Hin.
  destruct Hin as [Hin Hne]. cbn [row_of_student row_uid] in Hne.
  cbn [delete_student_subjects insert_or_replace_student delete_students_where
       subjects_table].
  apply Hr; auto.
Qed.

(** An upsert leaves what the store holds for another student. *)
Lemma upserted_frame `{Runtime} (s : Student) (u : string) (d : database) :
  subject_ids_unique d ->
  subjects_resolve (fun l => student_uid l = u) d ->
  u <> uid s ->
  stored u (upserted s d) = stored u d.
Proof.
  intros Hnd Hr Hne. unfold stored. f_equal.
  - rewrite upserted_students, filter_app. cbn [filter].
    unfold has_uid at 3. cbn [row_of_student row_uid].
    destruct (String.eqb_spec (uid s) u) as [E | _]; [congruence |].
    rewrite app_nil_r. apply filter_implied.
    intros r _ Hu. apply negb_true_iff. unfold has_uid in *.
    apply String.eqb_eq in Hu. apply String.eqb_neq. congruence.
  - rewrite !select_subject_marks_joined. f_equal.
    unfold upserted.
    set (d0 := delete_student_subjects (uid s)
                 (insert_or_replace_student (row_of_student s) d)).
    destruct (fold_link_pair (uid s) (zip (subjects s) (marks s)) d0
                (replaced_student_stored (row_of_student s) d) Hnd)
      as [HS [HN [[more HM] [new [HL [HF HJ]]]]]].
    rewrite HL, filter_app.
    rewrite (filter_none (of_student u) new), app_nil_r.
    + pose proof (replaced_links_of_other (row_of_student s) u d Hne) as E.
      cbn [row_of_student row_uid] in E. fold d0 in E. rewrite E.
      apply (flat_map_joined_grown d _ more); [exact HM | exact HN |].
      intros l Hl. apply filter_In in Hl. destruct Hl as [Hl Hu].
      apply Hr; [exact Hl |]. unfold of_student in Hu.
      now apply String.eqb_eq in Hu.
    + intros l Hl. rewrite Forall_forall in HF. specialize (HF l Hl).
      unfold of_student. apply String.eqb_neq. congruence.
Qed.

(* ================================================================= *)
(** ** Reconciling the whole list *)

(** A delete leaves what the store holds for the students it keeps. *)
Lemma delete_where_frame (p : student_row -> bool) (u : string) (d : database) :
  (forall r, In r (students_table d) -> row_uid r = u -> p r = false) ->
  stored u (delete_students_where p d) = stored u d.
Proof.
  intro Hp. unfold stored, select_subject_marks, delete_students_where.
  cbn [students_table subjects_table student_subjects_table]. f_equal.
  - apply filter_implied. intros r Hr Hu. unfold has_uid in Hu.
    apply String.eqb_eq in Hu. now rewrite (Hp r Hr Hu).
  - do 2 f_equal. apply filter_implied. intros l _ Hl.
    unfold of_student in Hl. apply String.eqb_eq in Hl.
    apply negb_true_iff. destruct (mem_string _ _) eqn:E; [| reflexivity].
    apply mem_string_In, in_map_iff in E. destruct E as [r [Er Hr]].
    apply filter_In in Hr. destruct Hr as [Hr Hpr].
    rewrite (Hp r Hr) in Hpr; [discriminate | congruence].
Qed.

Lemma delete_where_resolve (Q : link_row -> Prop) (p : student_row -> bool)
  (d : database) :
  subjects_resolve Q d -> subjects_resolve Q (delete_students_where p d).
Proof.
  intros Hr l Hin HQ. unfold delete_students_where in *.
  cbn [student_subjects_table subjects_table] in *.
  apply filter_In in Hin. now apply Hr.
Qed.

Lemma run_upsert_all `{Runtime} items :
  forall l c d g,
  exists c',
    for_each items db_upsert_student_normalized
      (mkApp l (mkConnection c d []) g)
    = (Return tt, mkApp l (mkConnection c' (upserted_all items d) []) g).
Proof.
  induction items as [| s items IH]; intros l c d g.
  - exists c. reflexivity.
  - cbn [for_each]. unfold bind. rewrite run_upsert. apply IH.
Qed.

(** [save_data] without database error: the store becomes [reconciled] and
    is committed. *)
Lemma run_save_data `{Runtime} l c d g :
  save_data (mkApp l (mkConnection c d []) g)
  = (Return tt,
     mkApp l (mkConnection (reconciled l d) (reconciled l d) []) g).
Proof.
  unfold save_data, try_except. unfold bind at 1, get_students at 1.
  cbn [students]. unfold bind at 1.
  destruct (run_upsert_all l l c d g) as [c' E]. rewrite E.
  destruct l as [| s l]; reflexivity.
Qed.

Lemma filter_filter {A} (p q : A -> bool) (l : list A) :
  filter p (filter q l) = filter (fun x => q x && p x) l.
Proof.
  induction l as [| x l IH]; cbn [filter]; [reflexivity |].
  destruct (q x); cbn [filter andb]; now rewrite IH.
Qed.

Lemma upserted_all_unique `{Runtime} items :
  forall d, subject_ids_unique d -> subject_ids_unique (upserted_all items d).
Proof.
  induction items as [| s items IH]; intros d Hnd; [exact Hnd |].
  apply IH. now apply upserted_unique.
Qed.

(** The rows of [students] after the upserts: the rows of the others as
    they were, then one row per student of the list, in list order. *)
Lemma upserted_all_students `{Runtime} items :
  forall d,
    NoDup (map uid items) ->
    students_table (upserted_all items d)
    = filter (fun r => negb (mem_string (row_uid r) (map uid items)))
             (students_table d)
      ++ map row_of_student items.
Proof.
  induction items as [| s items IH]; intros d Hnd.
  - cbn [upserted_all fold_left map]. rewrite app_nil_r. symmetry.
    apply filter_all. apply Forall_forall. reflexivity.
  - cbn [map] in Hnd. inversion Hnd as [| ? ? Hnotin Hnd']; subst.
    change (upserted_all (s :: items) d) with (upserted_all items (upserted s d)).
    rewrite (IH _ Hnd'), upserted_students, filter_app, filter_filter.
    cbn [filter row_of_student row_uid map].
    destruct (mem_string (uid s) (map uid items)) eqn:E.
    { apply mem_string_In in E. contradiction. }
    cbn [negb]. rewrite <- app_assoc. cbn [app]. f_equal.
    apply filter_ext. intro r. unfold has_uid, mem_string. cbn [existsb].
    now rewrite negb_orb.
Qed.

Lemma mem_string_uid (s : Student) (items : list Student) :
  In s items -> mem_string (uid s) (map uid items) = true.
Proof. intro Hin. apply mem_string_In. now apply in_map. Qed.

(** After a [save_data] without database error the table [students] holds
    the rows of the in-memory list, in its order. *)
Lemma reconciled_students `{Runtime} (items : list Student) (d : database) :
  NoDup (map uid items) ->
  students_table (reconciled items d) = map row_of_student items.
Proof.
  intro Hnd. destruct items as [| s items].
  - cbn. apply filter_none. reflexivity.
  - unfold reconciled, delete_students_not_in, delete_students_where.
    cbn [students_table]. rewrite (upserted_all_students _ d Hnd), filter_app.
    rewrite filter_filter, filter_none.
    + cbn [app]. apply filter_all. apply Forall_forall.
      intros r Hr. apply in_map_iff in Hr. destruct Hr as [x [<- Hx]].
      cbn [row_of_student row_uid]. now rewrite (mem_string_uid x _ Hx).
    + intros r _. now destruct (mem_string _ _).
Qed.

(** Through the upserts of [save_data], each student of the list ends
    with the rows of its own pairs, and a student outside the list keeps
    what it had. *)
Lemma upserted_all_marks `{Runtime} items :
  forall d,
    NoDup (map uid items) ->
    subject_ids_unique d ->
    (forall s, In s items ->
       select_subject_marks (uid s) (upserted_all items d)
       = order_by_name (rows_of_pairs (zip (subjects s) (marks s)))
       /\ subjects_resolve (fun l => student_uid l = uid s)
            (upserted_all items d))
    /\ (forall u, ~ In u (map uid items) ->
          subjects_resolve (fun l => student_uid l = u) d ->
          stored u (upserted_all items d) = stored u d
          /\ subjects_resolve (fun l => student_uid l = u)
               (upserted_all items d)).
Proof.
  induction items as [| s items IH]; intros d Hnd Hu.
  - split; [intros s [] | intros u _ Hr; split; [reflexivity | exact Hr]].
  - cbn [map] in Hnd. inversion Hnd as [| ? ? Hnotin Hnd']; subst.
    change (upserted_all (s :: items) d) with (upserted_all items (upserted s d)).
    destruct (IH (upserted s d) Hnd' (upserted_unique s d Hu)) as [IH1 IH2].
    split.
    + intros s' [<- | Hin]; [| now apply IH1].
      assert (Hr : subjects_resolve (fun l => student_uid l = uid s)
                     (upserted s d)).
      { apply upserted_resolve. intros l _ [E Hne]. contradiction. }
      destruct (IH2 (uid s) Hnotin Hr) as [E Hr']. split; [| exact Hr'].
      apply (f_equal snd) in E. cbn [stored snd] in E. rewrite E.
      now apply upserted_subject_marks.
    + intros u Hnin Hr. cbn [map In] in Hnin.
      assert (Hne : u <> uid s) by (intro E; apply Hnin; left; now symmetry).
      assert (Hr1 : subjects_resolve (fun l => student_uid l = u) (upserted s d)).
      { apply upserted_resolve. intros l Hl [E _]. now apply Hr. }
      destruct (IH2 u (fun F => Hnin (or_intror F)) Hr1) as [E Hr'].
      split; [| exact Hr'].
      rewrite E. now apply upserted_frame.
Qed.

(** After a [save_data] without database error, each student of the list
    reads back normalized. *)
Lemma reconciled_student `{Runtime} (items : list Student) (d : database)
  (s : Student) :
  NoDup (map uid items) -> subject_ids_unique d -> In s items ->
  student_of_row (reconciled items d) (row_of_student s) = normalized s.
Proof.
  intros Hnd Hu Hin. unfold student_of_row, normalized.
  cbn [row_of_student row_uid].
  destruct items as [| s0 items]; [destruct Hin |].
  unfold reconciled, delete_students_not_in.
  pose proof (delete_where_frame
                (fun r => negb (mem_string (row_uid r) (map uid (s0 :: items))))
                (uid s) (upserted_all (s0 :: items) d)) as E.
  apply (f_equal snd) in E.
  - cbn [stored snd] in E. rewrite E.
    destruct (upserted_all_marks (s0 :: items) d Hnd Hu) as [H1 _].
    destruct (H1 s Hin) as [E1 _]. rewrite E1. reflexivity.
  - intros r _ Er. rewrite Er, (mem_string_uid s _ Hin). reflexivity.
Qed.

(** What [load_data] reads after a [save_data] without database error. *)
Lemma loaded_reconciled `{Runtime} (items : list Student) (d : database) :
  NoDup (map uid items) -> subject_ids_unique d ->
  loaded (reconciled items d) = map normalized items.
Proof.
  intros Hnd Hu. unfold loaded, select_students.
  rewrite (reconciled_students items d Hnd), map_map.
  apply map_ext_in. intros s Hin. now apply reconciled_student.
Qed.

(** X1: after [save_data] with no database error, for a list whose uids
    are distinct, the table [students] holds exactly one row per student of
    the list, with the student's fields, in the order of the list. *)
Theorem save_data_stores_the_list `{Runtime} (st : StudentManagementApp) :
  no_errors st ->
  NoDup (map uid (students st)) ->
  students_table (committed (conn (snd (save_data st))))
  = map row_of_student (students st).
Proof.
  destruct st as [l [c d fs] g]. unfold no_errors.
  cbn [conn faults students]. intros Hf Hnd. subst fs.
  rewrite run_save_data. cbn [snd conn committed].
  now apply reconciled_students.
Qed.

(** X2: [save_data] followed by [load_data], with no database error and
    distinct uids in memory, gives back the list student by student, each
    as the store normalizes it (pairs with a blank subject dropped, names
    stripped and in name order, marks as the text of the float stored). *)
Theorem save_data_then_load_data `{Runtime} (st : StudentManagementApp) :
  no_errors st ->
  subject_ids_unique (current (conn st)) ->
  NoDup (map uid (students st)) ->
  students (snd ((save_data ;; load_data) st)) = map normalized (students st).
Proof.
  destruct st as [l [c d fs] g]. unfold no_errors.
  cbn [conn faults current students]. intros Hf Hu Hnd. subst fs.
  unfold bind. rewrite run_save_data, run_load. cbn [snd students].
  now apply loaded_reconciled.
Qed.

(** X3: [db_delete_student_normalized] without database error removes
    the row of the uid and leaves what the store holds for every other
    uid, row and subject marks, as it was. *)
Theorem delete_leaves_other_students (u u' : string) (st : StudentManagementApp) :
  no_errors st ->
  u' <> u ->
  let st' := snd (db_delete_student_normalized u st) in
  stored u' (committed (conn st')) = stored u' (current (conn st))
  /\ filter (has_uid u) (students_table (committed (conn st'))) = [].
Proof.
  destruct st as [l [c d fs] g]. unfold no_errors.
  cbn [conn faults current]. intros Hf Hne. subst fs.
  cbv zeta. rewrite run_delete. cbn [snd conn committed]. split.
  - apply delete_where_frame. intros r _ Er. unfold has_uid.
    apply String.eqb_neq. congruence.
  - unfold delete_student, delete_students_where. cbn [students_table].
    apply filter_none. intros r Hr. apply filter_In in Hr.
    destruct Hr as [_ Hr]. now apply negb_true_iff in Hr.
Qed.

(** X4: in a store where subject ids are unique and every link references
    a stored subject, [db_upsert_student_normalized] without database error
    leaves what the store holds for every other uid, row and subject
    marks, as it was. *)
Theorem upsert_leaves_other_students `{Runtime} (s : Student) (u : string)
  (st : StudentManagementApp) :
  no_errors st ->
  subject_ids_unique (current (conn st)) ->
  subject_keys_hold (current (conn st)) ->
  u <> uid s ->
  stored u (committed (conn (snd (db_upsert_student_normalized s st))))
  = stored u (current (conn st)).
Proof.
  destruct st as [l [c d fs] g]. unfold no_errors.
  cbn [conn faults current]. intros Hf Hu Hk Hne. subst fs.
  rewrite run_upsert. cbn [snd conn committed].
  apply upserted_frame; [exact Hu | | exact Hne].
  intros l0 Hl _. now apply Hk.
Qed.

(* ================================================================= *)
(** ** The constraints of the schema under database errors *)

(** A key that is unique in a table is unique among the rows a [DELETE]
    keeps. *)
Lemma NoDup_map_filter {Row Key} (key : Row -> Key) (keep : Row -> bool)
  (rows : list Row) (Hnd : NoDup (map key rows)) :
  NoDup (map key (filter keep rows)).
Proof.
  induction rows as [| r rows IH]; cbn [map filter]; [constructor |].
  inversion Hnd as [| ? ? Hnotin Hnd']; subst.
  destruct (keep r); cbn [map]; [| now apply IH].
  constructor; [| now apply IH].
  intro Hin. apply Hnotin. apply in_map_iff in Hin.
  destruct Hin as [y [Ey Hy]]. apply filter_In in Hy.
  apply in_map_iff. exists y. tauto.
Qed.

Lemma delete_where_consistent (p : student_row -> bool) (d : database) :
  consistent d -> consistent (delete_students_where p d).
Proof.
  intros [H1 [H2 [H3 [H4 [H5 H6]]]]].
  split; [| split; [| split; [| split; [| split]]]].
  - now apply NoDup_map_filter.
  - exact H2.
  - exact H3.
  - now apply NoDup_map_filter.
  - now apply delete_where_foreign_keys.
  - now apply delete_where_resolve.
Qed.

Lemma insert_or_replace_consistent (r : student_row) (d : database) :
  consistent d -> consistent (insert_or_replace_student r d).
Proof.
  intro Hc.
  destruct (delete_where_consistent (has_uid (row_uid r)) d Hc)
    as [H1 [H2 [H3 [H4 [H5 H6]]]]].
  split; [| split; [| split; [| split; [| split]]]];
    try assumption.
  - unfold uids_unique, insert_or_replace_student. cbn [students_table].
    rewrite map_app. apply NoDup_app; [exact H1 | repeat constructor; simpl; tauto |].
    intros u Hin [E | []]. subst u. apply in_map_iff in Hin.
    destruct Hin as [r' [Er Hr]]. apply delete_where_students in Hr.
    destruct Hr as [_ Hr]. unfold has_uid in Hr.
    apply String.eqb_neq in Hr. contradiction.
  - intros l Hin. unfold insert_or_replace_student.
    cbn [students_table student_subjects_table] in *.
    rewrite map_app. apply in_or_app. left. now apply H5.
Qed.

Lemma delete_student_subjects_consistent (u : string) (d : database) :
  consistent d -> consistent (delete_student_subjects u d).
Proof.
  intros [H1 [H2 [H3 [H4 [H5 H6]]]]].
  split; [| split; [| split; [| split; [| split]]]];
    try assumption.
  - now apply NoDup_map_filter.
  - intros l Hin. cbn [delete_student_subjects student_subjects_table
                       students_table] in *.
    apply filter_In in Hin. now apply H5.
  - intros l Hin _. cbn [delete_student_subjects student_subjects_table
                         subjects_table] in *.
    apply filter_In in Hin. now apply H6.
Qed.

Lemma insert_or_ignore_consistent (n : string) (d : database) :
  consistent d -> consistent (insert_or_ignore_subject n d).
Proof.
  intros [H1 [H2 [H3 [H4 [H5 H6]]]]].
  split; [| split; [| split; [| split; [| split]]]];
    try assumption.
  - now apply insert_or_ignore_unique.
  - unfold subject_names_unique, insert_or_ignore_subject.
    cbn [subjects_table].
    destruct (mem_string n (map subj_name (subjects_table d))) eqn:E;
      [exact H3 |].
    rewrite map_app. cbn [map subj_name].
    apply NoDup_app; [exact H3 | repeat constructor; simpl; tauto |].
    intros x Hin [Ex | []]. subst x. apply mem_string_In in Hin. congruence.
  - intros l Hin _. cbn [insert_or_ignore_subject student_subjects_table] in Hin.
    destruct (insert_or_ignore_subjects n d) as [more HM].
    rewrite HM, map_app. apply in_or_app. left. now apply H6.
Qed.

Lemma insert_student_subject_consistent (u : string) (sid : Z)
  (v : option float) (d d' : database) :
  consistent d -> insert_student_subject u sid v d = inr d' -> consistent d'.
Proof.
  intros [H1 [H2 [H3 [H4 [H5 H6]]]]]. unfold insert_student_subject.
  destruct (mem_string u _ && _) eqn:E; [| discriminate].
  apply andb_true_iff in E. destruct E as [Eu Es].
  intro E. injection E as <-.
  split; [| split; [| split; [| split; [| split]]]];
    try assumption.
  - unfold link_ids_unique. cbn [student_subjects_table].
    rewrite map_app. cbn [map link_id].
    apply NoDup_app; [exact H4 | repeat constructor; simpl; tauto |].
    intros i Hin [Ei | []]. subst i.
    pose proof (next_rowid_above (student_subjects_seq d) _ _ Hin). lia.
  - intros l Hin. cbn [student_subjects_table students_table] in *.
    apply in_app_or in Hin. destruct Hin as [Hin | [<- | []]].
    + now apply H5.
    + cbn [student_uid]. now apply mem_string_In.
  - intros l Hin _. cbn [student_subjects_table subjects_table] in *.
    apply in_app_or in Hin. destruct Hin as [Hin | [<- | []]].
    + now apply H6.
    + cbn [subject_id]. apply existsb_exists in Es. destruct Es as [i [Hi Ei]].
      apply Z.eqb_eq in Ei. now subst i.
Qed.

(** The monad keeps on the store what each statement keeps. *)

Section KeepsStore.

Variable P : database -> Prop.

Lemma keeps_store_ret {A} (a : A) : keeps_store P (ret a).
Proof. intros st Hc Hd. now split. Qed.

Lemma keeps_store_bind {A B} (m : Py A) (k : A -> Py B) :
  keeps_store P m -> (forall a, keeps_store P (k a)) ->
  keeps_store P (bind m k).
Proof.
  intros Hm Hk st Hc Hd. unfold bind.
  specialize (Hm st Hc Hd). destruct (m st) as [[a | e] st1]; cbn [snd] in *.
  - now apply Hk.
  - exact Hm.
Qed.

Lemma keeps_store_try_except {A} (body : Py A) (handler : exn -> Py A) :
  keeps_store P body -> (forall e, keeps_store P (handler e)) ->
  keeps_store P (try_except body handler).
Proof.
  intros Hb Hh st Hc Hd. unfold try_except.
  specialize (Hb st Hc Hd). destruct (body st) as [[a | e] st1]; cbn [snd] in *.
  - exact Hb.
  - now apply Hh.
Qed.

Lemma keeps_store_with_conn {A} (body : Py A) :
  keeps_store P body -> keeps_store P (with_conn body).
Proof.
  intros Hb st Hc Hd. unfold with_conn.
  specialize (Hb st Hc Hd). destruct (body st) as [[a | e] st1];
    cbn [snd commit rollback set_conn conn committed current] in *; tauto.
Qed.

Lemma keeps_store_for_each {A} (items : list A) (body : A -> Py unit) :
  (forall x, keeps_store P (body x)) -> keeps_store P (for_each items body).
Proof.
  intro Hb. induction items as [| x items IH]; cbn [for_each].
  - apply keeps_store_ret.
  - apply keeps_store_bind; [apply Hb | intros _; exact IH].
Qed.

Lemma keeps_store_messagebox (m : dialog) : keeps_store P (messagebox m).
Proof. intros st Hc Hd. now split. Qed.

Lemma keeps_store_get_students : keeps_store P get_students.
Proof. intros st Hc Hd. now split. Qed.

Lemma keeps_store_set_students (l : list Student) :
  keeps_store P (set_students l).
Proof. intros st Hc Hd. now split. Qed.

Lemma keeps_store_execute {A} (stmt : database -> exn + (A * database)) :
  (forall d a d', P d -> stmt d = inr (a, d') -> P d') ->
  keeps_store P (execute stmt).
Proof.
  intros Hs st Hc Hd. unfold execute.
  destruct (faults (conn st)) as [| [|] later];
    cbn [snd set_conn conn committed current]; try tauto;
    destruct (stmt (current (conn st))) as [e | [a d']] eqn:E;
    cbn [snd set_conn conn committed current]; try tauto;
    (split; [exact Hc | now apply (Hs _ _ _ Hd E)]).
Qed.

Lemma keeps_store_write (f : database -> database) :
  (forall d, P d -> P (f d)) -> keeps_store P (execute (write f)).
Proof.
  intro Hf. apply keeps_store_execute. unfold write.
  intros d a d' Hd E. injection E as _ <-. now apply Hf.
Qed.

Lemma keeps_store_fetch {A} (f : database -> A) :
  keeps_store P (execute (fetch f)).
Proof.
  apply keeps_store_execute. unfold fetch.
  intros d a d' Hd E. now injection E as _ <-.
Qed.

(** [load_data] writes nothing. *)
Lemma keeps_store_load_data `{Runtime} : keeps_store P load_data.
Proof.
  unfold load_data.
  apply keeps_store_bind; [apply keeps_store_set_students |].
  intros _. apply keeps_store_try_except; [| intro e; apply keeps_store_messagebox].
  apply keeps_store_bind; [apply keeps_store_fetch |].
  intro rows. apply keeps_store_for_each. intro srow.
  apply keeps_store_bind; [apply keeps_store_fetch |].
  intro sm_rows. destruct (unpack_rows sm_rows) as [ss ms].
  apply keeps_store_bind; [apply keeps_store_get_students |].
  intro l. apply keeps_store_set_students.
Qed.

(** The methods keep what each of the statements they run keeps. *)

Hypothesis P_replace : forall r d, P d -> P (insert_or_replace_student r d).
Hypothesis P_unlink : forall u d, P d -> P (delete_student_subjects u d).
Hypothesis P_subject : forall n d, P d -> P (insert_or_ignore_subject n d).
Hypothesis P_link :
  forall u sid v d d',
    P d -> insert_student_subject u sid v d = inr d' -> P d'.
Hypothesis P_delete : forall p d, P d -> P (delete_students_where p d).

Lemma keeps_store_get_subject_id (n : string) :
  keeps_store P (_get_subject_id n).
Proof.
  unfold _get_subject_id.
  destruct (negb (truthy n)); [apply keeps_store_ret |].
  destruct (negb (truthy (strip n))); [apply keeps_store_ret |].
  apply keeps_store_try_except.
  - apply keeps_store_with_conn.
    apply keeps_store_bind.
    + apply keeps_store_write. apply P_subject.
    + intros _. apply keeps_store_bind; [apply keeps_store_fetch |].
      intro row. apply keeps_store_ret.
  - intro e. apply keeps_store_bind; [apply keeps_store_messagebox |].
    intros _. apply keeps_store_ret.
Qed.

Lemma keeps_store_upsert `{Runtime} (s : Student) :
  keeps_store P (db_upsert_student_normalized s).
Proof.
  unfold db_upsert_student_normalized.
  apply keeps_store_try_except; [| intro e; apply keeps_store_messagebox].
  apply keeps_store_with_conn.
  apply keeps_store_bind.
  { apply keeps_store_write. apply P_replace. }
  intros _. apply keeps_store_bind.
  { apply keeps_store_write. apply P_unlink. }
  intros _. apply keeps_store_for_each. intros [subj mk].
  apply keeps_store_bind; [apply keeps_store_get_subject_id |].
  intros [sid |]; [| apply keeps_store_ret].
  apply keeps_store_execute. unfold checked. intros d a d' Hd.
  destruct (insert_student_subject _ _ _ d) as [e | d1] eqn:E; [discriminate |].
  intro E'. injection E' as _ <-.
  now apply (P_link _ _ _ _ _ Hd E).
Qed.

Lemma keeps_store_delete (u : string) :
  keeps_store P (db_delete_student_normalized u).
Proof.
  unfold db_delete_student_normalized.
  apply keeps_store_try_except; [| intro e; apply keeps_store_messagebox].
  apply keeps_store_with_conn, keeps_store_write.
  intro d. apply P_delete.
Qed.

Lemma keeps_store_save_data `{Runtime} : keeps_store P save_data.
Proof.
  unfold save_data.
  apply keeps_store_try_except; [| intro e; apply keeps_store_messagebox].
  apply keeps_store_bind; [apply keeps_store_get_students |].
  intro l. apply keeps_store_bind.
  { apply keeps_store_for_each. intro s. apply keeps_store_upsert. }
  intros _. apply keeps_store_with_conn.
  destruct (map uid l); apply keeps_store_write; intro d; apply P_delete.
Qed.

Lemma keeps_store_save `{Runtime} (mode : form_mode) (entries : form) :
  keeps_store P (save mode entries).
Proof.
  unfold save, save_with.
  destruct (negb _); [apply keeps_store_messagebox |].
  destruct (_ && _); [apply keeps_store_messagebox |].
  destruct (marks_of _) as [ms |]; [| apply keeps_store_messagebox].
  apply keeps_store_bind.
  { destruct (truthy (img_path_var entries)); [| apply keeps_store_ret].
    destruct (place_image _ _); [apply keeps_store_ret |].
    apply keeps_store_bind; [apply keeps_store_messagebox |].
    intros _. apply keeps_store_ret. }
  intro rel. destruct mode.
  - apply keeps_store_bind; [apply keeps_store_get_students |].
    intro l. destruct (existsb _ l); [apply keeps_store_messagebox |].
    apply keeps_store_bind; [apply keeps_store_set_students |].
    intros _. apply keeps_store_bind; [apply keeps_store_upsert |].
    intros _. apply keeps_store_bind; [apply keeps_store_messagebox |].
    intros _. apply keeps_store_load_data.
  - apply keeps_store_bind; [apply keeps_store_get_students |].
    intro l. apply keeps_store_bind; [| intros _; apply keeps_store_load_data].
    destruct (assign_first _ _ l) as [[s l'] |];
      [| apply keeps_store_messagebox].
    apply keeps_store_bind; [apply keeps_store_set_students |].
    intros _. apply keeps_store_bind; [apply keeps_store_upsert |].
    intros _. apply keeps_store_messagebox.
Qed.

Lemma keeps_store_toolbar_delete `{Runtime} (selected : option string)
  (confirm : bool) :
  keeps_store P (Toolbar.delete_student selected confirm).
Proof.
  unfold Toolbar.delete_student.
  destruct selected as [u |]; [| apply keeps_store_messagebox].
  destruct (negb confirm); [apply keeps_store_ret |].
  apply keeps_store_bind; [apply keeps_store_get_students | intro l].
  apply keeps_store_bind; [apply keeps_store_set_students | intros _].
  apply keeps_store_bind; [apply keeps_store_delete | intros _].
  apply keeps_store_bind; [apply keeps_store_load_data | intros _].
  apply keeps_store_messagebox.
Qed.

Lemma keeps_store_confirm_delete (u : string) (confirm : bool) :
  keeps_store P (_confirm_delete_and_refresh u confirm).
Proof.
  unfold _confirm_delete_and_refresh.
  destruct confirm; [| apply keeps_store_ret].
  apply keeps_store_bind; [apply keeps_store_get_students | intro l].
  apply keeps_store_bind; [apply keeps_store_set_students | intros _].
  apply keeps_store_bind; [apply keeps_store_delete | intros _].
  apply keeps_store_messagebox.
Qed.

End KeepsStore.

(** The methods keep the constraints of the schema. *)

Lemma consistent_upsert `{Runtime} (s : Student) :
  keeps_store consistent (db_upsert_student_normalized s).
Proof.
  apply keeps_store_upsert;
    [apply insert_or_replace_consistent
    | apply delete_student_subjects_consistent
    | apply insert_or_ignore_consistent
    | apply insert_student_subject_consistent].
Qed.

Lemma consistent_delete (u : string) :
  keeps_store consistent (db_delete_student_normalized u).
Proof. apply keeps_store_delete, delete_where_consistent. Qed.

Lemma consistent_save_data `{Runtime} : keeps_store consistent save_data.
Proof.
  apply keeps_store_save_data;
    [apply insert_or_replace_consistent
    | apply delete_student_subjects_consistent
    | apply insert_or_ignore_consistent
    | apply insert_student_subject_consistent
    | apply delete_where_consistent].
Qed.

Lemma consistent_save `{Runtime} (mode : form_mode) (entries : form) :
  keeps_store consistent (save mode entries).
Proof.
  apply keeps_store_save;
    [apply insert_or_replace_consistent
    | apply delete_student_subjects_consistent
    | apply insert_or_ignore_consistent
    | apply insert_student_subject_consistent].
Qed.

Lemma empty_database_consistent : consistent empty_database.
Proof.
  repeat split; try constructor; intros l [].
Qed.

(** X5: whatever database errors occur, [db_upsert_student_normalized],
    [db_delete_student_normalized], [save_data] and the form's save action
    leave the committed store within the constraints of the schema (unique
    uids, subject ids, subject names and link ids, both foreign keys),
    when the committed store and the open transaction were within them
    before. *)
Theorem schema_constraints_kept `{Runtime} (st : StudentManagementApp) :
  consistent (committed (conn st)) ->
  consistent (current (conn st)) ->
  (forall s, consistent (committed (conn (snd (db_upsert_student_normalized s st)))))
  /\ (forall u, consistent (committed (conn (snd (db_delete_student_normalized u st)))))
  /\ consistent (committed (conn (snd (save_data st))))
  /\ (forall mode entries,
        consistent (committed (conn (snd (save mode entries st))))).
Proof.
  intros Hc Hd. split; [| split; [| split]].
  - intro s. now apply (consistent_upsert s st).
  - intro u. now apply (consistent_delete u st).
  - now apply (consistent_save_data st).
  - intros mode entries. now apply (consistent_save mode entries st).
Qed.

(* ================================================================= *)
(** ** Loading and deleting under database errors *)

Lemma run_fetch {A} (f : database -> A) l c d fs g :
  execute (fetch f) (mkApp l (mkConnection c d fs) g)
  = match fs with
    | true :: later =>
        (Raise (OperationalError "disk I/O error"),
         mkApp l (mkConnection c d later) g)
    | _ => (Return (f d), mkApp l (mkConnection c d (tl fs)) g)
    end.
Proof. destruct fs as [| [|] later]; reflexivity. Qed.

(** The loop of [load_data] under any database errors: the students of
    the first rows are appended, all of them when it ends normally. *)
Lemma load_loop_prefix `{Runtime} rows :
  forall l c d fs g,
  exists k fs' out,
    for_each rows
      (fun srow =>
         sm_rows <- execute (fetch (select_subject_marks (row_uid srow))) ;;
         let (subjects, marks) := unpack_rows sm_rows in
         loaded <- get_students ;;
         set_students
           (loaded ++ [mkStudent (row_uid srow) (row_name srow)
                         (row_student_class srow) (row_section srow)
                         subjects marks (row_image_filename srow)]))
      (mkApp l (mkConnection c d fs) g)
    = (out, mkApp (l ++ map (student_of_row d) (firstn k rows))
                  (mkConnection c d fs') g)
    /\ (out = Return tt /\ firstn k rows = rows
        \/ out = Raise (OperationalError "disk I/O error")).
Proof.
  induction rows as [| r rows IH]; intros l c d fs g.
  - exists 0%nat, fs, (Return tt). cbn. rewrite app_nil_r. auto.
  - cbn [for_each]. unfold bind at 1. unfold bind at 1.
    rewrite run_fetch.
    destruct fs as [| [|] later].
    2:{ exists 0%nat, later, (Raise (OperationalError "disk I/O error")).
        cbn [firstn map]. rewrite app_nil_r. auto. }
    all: cbn [tl];
      match goal with
      | |- context [mkConnection ?c0 ?d0 ?fs0] =>
          destruct (IH (l ++ [student_of_row d0 r]) c0 d0 fs0 g)
            as [k [fs' [out [E Hout]]]]
      end;
      unfold student_of_row in E at 1;
      destruct (unpack_rows (select_subject_marks (row_uid r) d)) as [ss ms];
      unfold bind at 1, get_students at 1, set_students at 1; simpl_state;
      rewrite E; exists (S k), fs', out; cbn [firstn map];
      rewrite <- app_assoc; (split; [reflexivity |]);
      (destruct Hout as [[Ho Hk] | Ho]; [left | now right]);
      (split; [exact Ho | now rewrite Hk]).
Qed.

(** [load_data] under any database errors. *)
Lemma run_load_any `{Runtime} l c d fs g :
  exists k fs' shown,
    load_data (mkApp l (mkConnection c d fs) g)
    = (Return tt,
       mkApp (firstn k (loaded d)) (mkConnection c d fs') (g ++ shown))
    /\ (firstn k (loaded d) = loaded d /\ shown = []
        \/ shown
           = [showerror "Database Error"
                "Failed to load students from database: disk I/O error"]).
Proof.
  unfold load_data. unfold bind at 1, set_students at 1. simpl_state.
  unfold try_except. unfold bind at 1. rewrite run_fetch.
  unfold select_students at 1.
  assert (L : forall fs0,
             exists k fs' out,
               for_each (students_table d)
                 (fun srow =>
                    sm_rows <- execute (fetch (select_subject_marks (row_uid srow))) ;;
                    let (subjects, marks) := unpack_rows sm_rows in
                    loaded <- get_students ;;
                    set_students
                      (loaded ++ [mkStudent (row_uid srow) (row_name srow)
                                    (row_student_class srow) (row_section srow)
                                    subjects marks (row_image_filename srow)]))
                 (mkApp [] (mkConnection c d fs0) g)
               = (out, mkApp (firstn k (loaded d)) (mkConnection c d fs') g)
               /\ (out = Return tt /\ firstn k (loaded d) = loaded d
                   \/ out = Raise (OperationalError "disk I/O error"))).
  { intro fs0.
    destruct (load_loop_prefix (students_table d) [] c d fs0 g)
      as [k [fs' [out [E Hout]]]].
    exists k, fs', out. unfold loaded, select_students.
    rewrite firstn_map. split; [exact E |].
    destruct Hout as [[Ho Hk] | Ho]; [left | now right].
    split; [exact Ho | now rewrite Hk]. }
  destruct fs as [| [|] later]; cbn [tl];
    change (select_students d) with (students_table d).
  - destruct (L []) as [k [fs' [out [E Hout]]]]. rewrite E.
    exists k, fs'. destruct Hout as [[-> Hk] | ->].
    + exists []. rewrite app_nil_r. auto.
    + eexists. split; [reflexivity | now right].
  - exists 0%nat, later. eexists. split; [reflexivity | now right].
  - destruct (L later) as [k [fs' [out [E Hout]]]]. rewrite E.
    exists k, fs'. destruct Hout as [[-> Hk] | ->].
    + exists []. rewrite app_nil_r. auto.
    + eexists. split; [reflexivity | now right].
Qed.

(** X6: whatever database errors occur, [load_data] leaves the store as
    it is and the in-memory list either complete, with no message, or cut
    short at the query that failed, with the error shown: the list is
    always an initial part of what the store holds. *)
Theorem load_data_loads_prefix `{Runtime} (st : StudentManagementApp) :
  let st' := snd (load_data st) in
  let all := loaded (current (conn st)) in
  committed (conn st') = committed (conn st)
  /\ current (conn st') = current (conn st)
  /\ ((students st' = all /\ dialogs st' = dialogs st)
      \/ exists k,
           students st' = firstn k all
           /\ dialogs st'
              = dialogs st
                ++ [showerror "Database Error"
                      "Failed to load students from database: disk I/O error"]).
Proof.
  destruct st as [l [c d fs] g]. cbv zeta.
  destruct (run_load_any l c d fs g) as [k [fs' [shown [E Hs]]]].
  rewrite E. cbn [snd conn committed current students dialogs].
  split; [reflexivity | split; [reflexivity |]].
  destruct Hs as [[Hk ->] | ->].
  - left. now rewrite app_nil_r.
  - right. now exists k.
Qed.

(** X7: [db_delete_student_normalized] is all or nothing, whatever
    database errors occur: either the delete is committed and nothing is
    shown, or the store is as committed before and the error is shown; the
    in-memory list is not touched and no transaction stays open. *)
Theorem delete_is_all_or_nothing (u : string) (st : StudentManagementApp) :
  let st' := snd (db_delete_student_normalized u st) in
  students st' = students st
  /\ current (conn st') = committed (conn st')
  /\ ((committed (conn st') = delete_student u (current (conn st))
       /\ dialogs st' = dialogs st)
      \/ (committed (conn st') = committed (conn st)
          /\ dialogs st'
             = dialogs st
               ++ [showerror "Database Error"
                     ("Failed to delete student " ++ u ++ ": disk I/O error")])).
Proof.
  destruct st as [l [c d fs] g]. cbv zeta.
  unfold db_delete_student_normalized, try_except, with_conn, execute, write.
  cbn [conn faults].
  destruct fs as [| [|] later]; simpl_state; cbn; auto.
Qed.

(** The store after a delete, read by [load_data]: the list it read
    before without the student. *)
Lemma loaded_delete_student `{Runtime} (u : string) (d : database) :
  loaded (delete_student u d)
  = filter (fun s => negb (same_uid u s)) (loaded d).
Proof.
  unfold loaded, select_students, delete_student.
  assert (E : forall rows,
             incl rows (students_table d) ->
             map (student_of_row (delete_students_where (has_uid u) d))
                 (filter (fun r => negb (has_uid u r)) rows)
             = filter (fun s => negb (same_uid u s))
                      (map (student_of_row d) rows)).
  { induction rows as [| r rows IH]; intro Hi; cbn [filter map]; [reflexivity |].
    unfold same_uid at 1. rewrite student_of_row_uid.
    fold (has_uid u r).
    assert (IH' := IH (fun x Hx => Hi x (or_intror Hx))).
    destruct (has_uid u r) eqn:Eu; cbn [negb map]; [exact IH' |].
    rewrite IH'. f_equal.
    unfold student_of_row.
    pose proof (delete_where_frame (has_uid u) (row_uid r) d) as F.
    apply (f_equal snd) in F.
    - cbn [stored snd] in F. now rewrite F.
    - intros r' _ Er. unfold has_uid in *. congruence. }
  apply (E (students_table d)). apply incl_refl.
Qed.

Lemma run_toolbar_delete `{Runtime} (u : string) l c d g :
  Toolbar.delete_student (Some u) true (mkApp l (mkConnection c d []) g)
  = (Return tt,
     mkApp (loaded (delete_student u d))
           (mkConnection (delete_student u d) (delete_student u d) [])
           (g ++ [showinfo "Deleted" "Student removed."])).
Proof.
  unfold Toolbar.delete_student. cbn [negb].
  unfold bind at 1, get_students at 1. cbn [students].
  unfold bind at 1, set_students at 1. simpl_state.
  unfold bind at 1. rewrite run_delete.
  unfold bind at 1. rewrite run_load. reflexivity.
Qed.

(** X8: a confirmed [delete_student] without database error commits the
    delete, leaves in memory the students of the store other than the one
    deleted, none of them with that uid, and shows "Student removed.". *)
Theorem delete_student_removes `{Runtime} (u : string)
  (st : StudentManagementApp) :
  no_errors st ->
  let st' := snd (Toolbar.delete_student (Some u) true st) in
  committed (conn st') = delete_student u (current (conn st))
  /\ students st'
     = filter (fun s => negb (same_uid u s)) (loaded (current (conn st)))
  /\ ~ In u (map uid (students st'))
  /\ dialogs st' = dialogs st ++ [showinfo "Deleted" "Student removed."].
Proof.
  destruct st as [l [c d fs] g]. unfold no_errors.
  cbn [conn faults current dialogs]. intro Hf. subst fs. cbv zeta.
  rewrite run_toolbar_delete.
  cbn [snd conn committed students dialogs].
  rewrite loaded_delete_student.
  split; [reflexivity | split; [reflexivity | split; [| reflexivity]]].
  intro Hin. apply in_map_iff in Hin. destruct Hin as [s [Es Hs]].
  apply filter_In in Hs. destruct Hs as [_ Hs].
  apply negb_true_iff in Hs. unfold same_uid in Hs.
  apply String.eqb_neq in Hs. contradiction.
Qed.

Lemma run_delete_failed (u : string) l c d fs g :
  db_delete_student_normalized u (mkApp l (mkConnection c d (true :: fs)) g)
  = (Return tt,
     mkApp l (mkConnection c c fs)
       (g ++ [showerror "Database Error"
                ("Failed to delete student " ++ u ++ ": disk I/O error")])).
Proof. reflexivity. Qed.

(** X9: when the DELETE of a confirmed [delete_student] fails, the store
    stays as committed, the list is reloaded from it, so that the student
    is still listed if it was stored, and after the error box "Student
    removed." is shown all the same. *)
Theorem delete_student_failed_delete `{Runtime} (u : string)
  (st : StudentManagementApp) :
  faults (conn st) = [true] ->
  let st' := snd (Toolbar.delete_student (Some u) true st) in
  committed (conn st') = committed (conn st)
  /\ students st' = loaded (committed (conn st))
  /\ dialogs st'
     = dialogs st
       ++ [showerror "Database Error"
             ("Failed to delete student " ++ u ++ ": disk I/O error");
           showinfo "Deleted" "Student removed."].
Proof.
  destruct st as [l [c d fs] g]. cbn [conn faults committed dialogs].
  intro Hf. subst fs. cbv zeta.
  assert (E : Toolbar.delete_student (Some u) true
                (mkApp l (mkConnection c d [true]) g)
              = (Return tt,
                 mkApp (loaded c) (mkConnection c c [])
                   ((g ++ [showerror "Database Error"
                             ("Failed to delete student " ++ u
                              ++ ": disk I/O error")])
                    ++ [showinfo "Deleted" "Student removed."]))).
  { unfold Toolbar.delete_student. cbn [negb].
    unfold bind at 1, get_students at 1. cbn [students].
    unfold bind at 1, set_students at 1. simpl_state.
    unfold bind at 1. rewrite run_delete_failed.
    unfold bind at 1. rewrite run_load. reflexivity. }
  rewrite E. cbn [snd conn committed students dialogs].
  rewrite <- app_assoc. auto.
Qed.

(** X10: [_confirm_delete_and_refresh] does not reload; when the list was
    what the store held, a confirmed delete without database error leaves
    it what the store holds afterwards: the list without the students of
    that uid. *)
Theorem confirm_delete_keeps_in_step `{Runtime} (u : string)
  (st : StudentManagementApp) :
  no_errors st ->
  students st = loaded (current (conn st)) ->
  let st' := snd (_confirm_delete_and_refresh u true st) in
  students st' = loaded (committed (conn st'))
  /\ students st' = filter (fun s => negb (same_uid u s)) (students st).
Proof.
  destruct st as [l [c d fs] g]. unfold no_errors.
  cbn [conn faults current students]. intros Hf Hl. subst fs l. cbv zeta.
  assert (E : _confirm_delete_and_refresh u true
                (mkApp (loaded d) (mkConnection c d []) g)
              = (Return tt,
                 mkApp (filter (fun s => negb (same_uid u s)) (loaded d))
                       (mkConnection (delete_student u d) (delete_student u d) [])
                       (g ++ [showinfo "Deleted" "Student removed."]))).
  { unfold _confirm_delete_and_refresh.
    unfold bind at 1, get_students at 1. cbn [students].
    unfold bind at 1, set_students at 1. simpl_state.
    unfold bind at 1. rewrite run_delete. reflexivity. }
  rewrite E. cbn [snd conn committed students].
  now rewrite loaded_delete_student.
Qed.

(** X11: when the first query of [load_data] fails, the list stays empty;
    [_on_exit] then, without further database error, reconciles the store
    with the empty list: every row of [students] is deleted. *)
Theorem failed_load_then_exit_clears `{Runtime} (st : StudentManagementApp) :
  faults (conn st) = [true] ->
  let st' := snd ((load_data ;; _on_exit) st) in
  students_table (committed (conn st')) = []
  /\ students st' = []
  /\ dialogs st'
     = dialogs st
       ++ [showerror "Database Error"
             "Failed to load students from database: disk I/O error"].
Proof.
  destruct st as [l [c d fs] g]. cbn [conn faults dialogs].
  intro Hf. subst fs. cbv zeta.
  assert (E : (load_data ;; _on_exit) (mkApp l (mkConnection c d [true]) g)
              = (Return tt,
                 mkApp [] (mkConnection (reconciled [] d) (reconciled [] d) [])
                   (g ++ [showerror "Database Error"
                            "Failed to load students from database: disk I/O error"]))).
  { unfold bind at 1.
    unfold load_data. unfold bind at 1, set_students at 1. simpl_state.
    unfold try_except at 1. unfold bind at 1. unfold execute at 1.
    simpl_state. cbn [messagebox students conn dialogs].
    unfold _on_exit. rewrite run_save_data. reflexivity. }
  rewrite E. cbn [snd conn committed students dialogs reconciled].
  split; [| auto]. apply filter_none. reflexivity.
Qed.

(* ================================================================= *)
(** ** The entries of the form *)

Lemma lstrip_starts_clean (s : string) : starts_clean (lstrip s) = true.
Proof.
  induction s as [| c s IH]; cbn [lstrip]; [reflexivity |].
  destruct (is_space c) eqn:E; [exact IH |]. cbn [starts_clean]. now rewrite E.
Qed.

Lemma lstrip_clean (s : string) : starts_clean s = true -> lstrip s = s.
Proof.
  destruct s as [| c s]; cbn [starts_clean lstrip]; [reflexivity |].
  intro E. apply negb_true_iff in E. now rewrite E.
Qed.

Lemma rstrip_starts_clean (s : string) :
  starts_clean s = true -> starts_clean (rstrip s) = true.
Proof.
  destruct s as [| c s]; cbn [starts_clean rstrip]; [reflexivity |].
  intro E. apply negb_true_iff in E.
  destruct (rstrip s); [rewrite E |]; cbn [starts_clean]; now rewrite E.
Qed.

Lemma rstrip_idempotent (s : string) : rstrip (rstrip s) = rstrip s.
Proof.
  induction s as [| c s IH]; cbn [rstrip]; [reflexivity |].
  destruct (rstrip s) as [| c' r] eqn:E.
  - destruct (is_space c) eqn:Ec; cbn [rstrip]; [reflexivity |].
    now rewrite Ec.
  - cbn [rstrip]. cbn [rstrip] in IH. now rewrite IH.
Qed.

(** [strip] has nothing left to strip. *)
Lemma strip_idempotent (s : string) : strip (strip s) = strip s.
Proof.
  unfold strip.
  rewrite (lstrip_clean (rstrip (lstrip s))).
  - apply rstrip_idempotent.
  - apply rstrip_starts_clean, lstrip_starts_clean.
Qed.

Lemma split_not_nil (sep : ascii) (s : string) : split sep s <> [].
Proof.
  induction s as [| c s IH]; cbn [split]; [discriminate |].
  destruct (Ascii.eqb c sep); [discriminate |].
  destruct (split sep s); [contradiction | discriminate].
Qed.

Lemma str_in_comma (c : ascii) (s : string) :
  str_in "," (String c s) = Ascii.eqb c "," || str_in "," s.
Proof.
  cbn [str_in String.prefix].
  destruct (ascii_dec "," c) as [<- | Hne].
  - now destruct s.
  - destruct (Ascii.eqb_spec c ","); [congruence | reflexivity].
Qed.

Lemma split_plain (x : string) :
  str_in "," x = false -> split "," x = [x].
Proof.
  induction x as [| c x IH]; [reflexivity |].
  rewrite str_in_comma. intro E. apply orb_false_iff in E.
  destruct E as [Ec Ex]. cbn [split]. rewrite Ec, (IH Ex). reflexivity.
Qed.

Lemma split_plain_app (x rest : string) :
  str_in "," x = false ->
  split "," (x ++ String "," rest) = x :: split "," rest.
Proof.
  induction x as [| c x IH]; [reflexivity |].
  rewrite str_in_comma. intro E. apply orb_false_iff in E.
  destruct E as [Ec Ex]. cbn [split append]. rewrite Ec, (IH Ex). reflexivity.
Qed.

Lemma comma_items_space (text : string) :
  comma_items (String " " text) = comma_items text.
Proof.
  unfold comma_items. cbn [split].
  change (Ascii.eqb " " ",") with false. cbv iota.
  destruct (split "," text) as [| h t] eqn:E.
  - now apply split_not_nil in E.
  - reflexivity.
Qed.

Lemma join_more (x y : string) (items : list string) :
  join ", " (x :: y :: items)
  = (x ++ String "," (String " " (join ", " (y :: items))))%string.
Proof. reflexivity. Qed.

(** What [", ".join] wrote, the comprehension of [save] reads back. *)
Lemma comma_items_join (items : list string) :
  Forall plain items -> comma_items (join ", " items) = items.
Proof.
  induction 1 as [| x items [Hc [Hs Ht]] Hrest IH]; [reflexivity |].
  destruct items as [| y items].
  - unfold comma_items. cbn [join String.concat].
    rewrite (split_plain x Hc). cbn [map filter]. now rewrite Hs, Ht.
  - rewrite join_more. unfold comma_items at 1.
    rewrite (split_plain_app x _ Hc). cbn [map filter]. rewrite Hs, Ht.
    f_equal. fold (comma_items (String " " (join ", " (y :: items)))).
    rewrite comma_items_space. exact IH.
Qed.

(** X12: every subject and every mark the form's save action reads from a
    comma-separated entry is stripped and not blank. *)
Theorem comma_items_clean (text : string) :
  Forall (fun x => nonblank x = true /\ strip x = x) (comma_items text).
Proof.
  unfold comma_items. apply Forall_forall. intros x Hin.
  apply filter_In in Hin. destruct Hin as [Hin Ht].
  apply in_map_iff in Hin. destruct Hin as [y [<- _]].
  unfold nonblank. now rewrite strip_idempotent, Ht.
Qed.

Lemma accepted_count `{Runtime} (entries : form) (ms : list string) :
  accepted entries ms ->
  match comma_items (entry_Subjects entries) with [] => false | _ => true end
  && negb (List.length (comma_items (entry_Subjects entries))
           =? List.length (comma_items (entry_Marks entries)))%nat
  = false.
Proof.
  intros [_ [[E | E] _]].
  - now rewrite E.
  - rewrite E, Nat.eqb_refl. apply andb_false_r.
Qed.

(** [save] in add mode, accepted, no photo, new uid, no database error. *)
Lemma run_save_add `{Runtime} (entries : form) (ms : list string) l c d g :
  accepted entries ms ->
  img_path_var entries = "" ->
  existsb (same_uid (strip (entry_UID entries))) l = false ->
  save add entries (mkApp l (mkConnection c d []) g)
  = (Return tt,
     mkApp (loaded (upserted (entered entries ms) d))
           (mkConnection (upserted (entered entries ms) d)
                         (upserted (entered entries ms) d) [])
           (g ++ [showinfo "Success" "Student added."])).
Proof.
  intros Ha Hi Hn. unfold save, save_with.
  rewrite (accepted_count entries ms Ha).
  destruct Ha as [Hr [_ Hm]]. rewrite Hr, Hm, Hi. cbn [negb truthy].
  unfold bind at 1, ret at 1.
  unfold bind at 1, get_students at 1. cbn [students]. rewrite Hn.
  unfold bind at 1, set_students at 1. simpl_state.
  unfold bind at 1. rewrite run_upsert.
  unfold bind at 1, messagebox at 1. cbn [students conn dialogs].
  unfold reload. rewrite run_load. reflexivity.
Qed.

(** X13: in add mode, for entries that pass the checks of [save], with no
    photo chosen, a uid that is not in memory and no database error, the
    student entered is upserted and committed, the list is reloaded from
    the store and holds that student once, normalized, and "Student
    added." is shown. *)
Theorem add_stores_and_lists_student `{Runtime} (entries : form)
  (ms : list string) (st : StudentManagementApp) :
  no_errors st ->
  subject_ids_unique (current (conn st)) ->
  accepted entries ms ->
  img_path_var entries = "" ->
  existsb (same_uid (strip (entry_UID entries))) (students st) = false ->
  let new := entered entries ms in
  let st' := snd (save add entries st) in
  committed (conn st') = upserted new (current (conn st))
  /\ students st' = loaded (committed (conn st'))
  /\ filter (same_uid (uid new)) (students st') = [normalized new]
  /\ dialogs st' = dialogs st ++ [showinfo "Success" "Student added."].
Proof.
  destruct st as [l [c d fs] g]. unfold no_errors.
  cbn [conn faults current students dialogs]. intros Hf Hu Ha Hi Hn. subst fs.
  cbv zeta. rewrite (run_save_add entries ms l c d g Ha Hi Hn).
  cbn [snd conn committed students dialogs].
  split; [reflexivity | split; [reflexivity | split; [| reflexivity]]].
  rewrite loaded_upserted. f_equal. now apply student_of_upserted_row.
Qed.

Lemma assign_first_none (u : string) (f : Student -> Student)
  (items : list Student) :
  existsb (same_uid u) items = false -> assign_first u f items = None.
Proof.
  induction items as [| s items IH]; cbn [existsb assign_first]; [reflexivity |].
  intro E. apply orb_false_iff in E. destruct E as [Es Ei].
  now rewrite Es, (IH Ei).
Qed.

(** X14: in update mode, for entries that pass the checks of [save], with
    no photo chosen and a uid that is not in memory, nothing is written:
    "Student not found in memory." is shown and, with no database error,
    the list is reloaded from the store as it was. *)
Theorem update_of_unknown_uid `{Runtime} (entries : form) (ms : list string)
  (st : StudentManagementApp) :
  no_errors st ->
  accepted entries ms ->
  img_path_var entries = "" ->
  existsb (same_uid (strip (entry_UID entries))) (students st) = false ->
  let st' := snd (save update entries st) in
  conn st' = conn st
  /\ students st' = loaded (current (conn st))
  /\ dialogs st' = dialogs st ++ [showerror "Error" "Student not found in memory."].
Proof.
  destruct st as [l [c d fs] g]. unfold no_errors.
  cbn [conn faults current students dialogs]. intros Hf Ha Hi Hn. subst fs.
  cbv zeta.
  assert (E : save update entries (mkApp l (mkConnection c d []) g)
              = (Return tt,
                 mkApp (loaded d) (mkConnection c d [])
                       (g ++ [showerror "Error" "Student not found in memory."]))).
  { unfold save, save_with. rewrite (accepted_count entries ms Ha).
    destruct Ha as [Hr [_ Hm]]. rewrite Hr, Hm, Hi. cbn [negb truthy].
    unfold bind at 1, ret at 1.
    unfold bind at 1, get_students at 1. cbn [students].
    rewrite (assign_first_none _ _ _ Hn).
    unfold bind at 1, messagebox at 1. cbn [students conn dialogs].
    unfold reload. rewrite run_load. reflexivity. }
  rewrite E. auto.
Qed.

Lemma assign_first_found (u : string) (f : Student -> Student)
  (items : list Student) (s : Student) :
  find (same_uid u) items = Some s -> f s = s ->
  assign_first u f items = Some (s, items).
Proof.
  intros Hf Hs. induction items as [| x items IH]; cbn [find assign_first] in *;
    [discriminate |].
  destruct (same_uid u x).
  - injection Hf as ->. now rewrite Hs.
  - now rewrite (IH Hf).
Qed.

Lemma marks_of_stable `{Runtime} (items : list string) :
  Forall (fun m => exists v, py_float m = Some v /\ py_str v = m) items ->
  marks_of items = Some items.
Proof.
  induction 1 as [| m items [v [Ef Es]] _ IH]; cbn [marks_of]; [reflexivity |].
  now rewrite Ef, IH, Es.
Qed.

(** X15: [update_student_form] opens the form on the first student of the
    selected uid; saving it as it opened, with no database error, for a
    student in normal form whose fields pass through the entries
    unchanged, upserts that student and leaves it in the reloaded list as
    it was. *)
Theorem unedited_update_keeps_student `{Runtime} (s : Student)
  (st : StudentManagementApp) :
  no_errors st ->
  subject_ids_unique (current (conn st)) ->
  find (same_uid (uid s)) (students st) = Some s ->
  presentable s ->
  normal_form s ->
  let st' := snd (save update (_student_form (Some s)) st) in
  update_student_form (Some (uid s)) st
  = (Return (Some (_student_form (Some s))), st)
  /\ committed (conn st') = upserted s (current (conn st))
  /\ filter (same_uid (uid s)) (students st') = [s]
  /\ dialogs st' = dialogs st ++ [showinfo "Success" "Student updated."].
Proof.
  destruct st as [l [c d fs] g]. unfold no_errors.
  cbn [conn faults current students dialogs].
  intros Hf Hu Hfind [Pu [Pn [Pc [Psec [Psub [Pmk Pimg]]]]]] Hnf. subst fs.
  cbv zeta. split.
  { unfold update_student_form, bind, get_students. cbn [students].
    now rewrite Hfind. }
  assert (E : save update (_student_form (Some s))
                (mkApp l (mkConnection c d []) g)
              = (Return tt,
                 mkApp (loaded (upserted s d))
                       (mkConnection (upserted s d) (upserted s d) [])
                       (g ++ [showinfo "Success" "Student updated."]))).
  { unfold save, save_with, _student_form.
    cbn [entry_UID entry_Name entry_Class entry_Section entry_Subjects
         entry_Marks img_path_var].
    destruct Pu as [_ [Eu Tu]]. destruct Pn as [_ [En Tn]].
    destruct Pc as [_ [Ec Tc]].
    rewrite Eu, En, Ec, Psec, Tu, Tn, Tc. cbn [andb negb].
    rewrite (comma_items_join _ Psub).
    assert (Pm : Forall plain (marks s))
      by (eapply Forall_impl; [| exact Pmk]; now intros m [Hm _]).
    rewrite (comma_items_join _ Pm).
    destruct Hnf as [_ [_ [_ Hbal]]]. unfold balanced in Hbal.
    rewrite Hbal, Nat.eqb_refl, andb_false_r.
    rewrite marks_of_stable
      by (eapply Forall_impl; [| exact Pmk]; now intros m [_ Hm]).
    assert (Ef : forall rel,
               (if truthy rel then rel = image_filename s else True) ->
               assign_first (uid s)
                 (assign_fields (name s) (student_class s) (section s)
                                (subjects s) (marks s) rel) l
               = Some (s, l)).
    { intros rel Hrel. apply assign_first_found; [exact Hfind |].
      unfold assign_fields. destruct (truthy rel); [rewrite Hrel |];
        now destruct s. }
    destruct (truthy (image_filename s)) eqn:Ti.
    - rewrite Ti, (Pimg eq_refl).
      unfold bind at 1, ret at 1.
      unfold bind at 1, get_students at 1. cbn [students].
      rewrite Ef by (now rewrite Ti).
      unfold bind at 1. unfold bind at 1, set_students at 1. simpl_state.
      unfold bind at 1. rewrite run_upsert.
      unfold messagebox at 1. cbn [students conn dialogs].
      unfold reload. rewrite run_load. reflexivity.
    - cbn [truthy].
      unfold bind at 1, ret at 1.
      unfold bind at 1, get_students at 1. cbn [students].
      rewrite Ef by exact I.
      unfold bind at 1. unfold bind at 1, set_students at 1. simpl_state.
      unfold bind at 1. rewrite run_upsert.
      unfold messagebox at 1. cbn [students conn dialogs].
      unfold reload. rewrite run_load. reflexivity. }
  rewrite E. cbn [snd conn committed students dialogs].
  split; [reflexivity | split; [| reflexivity]].
  rewrite loaded_upserted. f_equal.
  rewrite (student_of_upserted_row s d Hu). now apply normalized_normal_form.
Qed.

(** X16: the subjects and marks the update form shows, joined by ", ",
    are read back by [save] as the lists they came from, when no subject
    or mark contains a comma, has something to strip or is empty. *)
Theorem update_form_reads_back (s : Student) :
  Forall plain (subjects s) -> Forall plain (marks s) ->
  comma_items (entry_Subjects (_student_form (Some s))) = subjects s
  /\ comma_items (entry_Marks (_student_form (Some s))) = marks s.
Proof.
  intros Hs Hm. cbn [_student_form entry_Subjects entry_Marks].
  now rewrite !comma_items_join.
Qed.

Lemma assign_first_some (u : string) (f : Student -> Student)
  (items : list Student) (s : Student) :
  find (same_uid u) items = Some s ->
  exists items', assign_first u f items = Some (f s, items').
Proof.
  induction items as [| x items IH]; cbn [find assign_first]; [discriminate |].
  destruct (same_uid u x).
  - intro E. injection E as ->. eexists. reflexivity.
  - intro E. destruct (IH E) as [items' E']. rewrite E'. eexists. reflexivity.
Qed.

(** X29: in update mode, for entries that pass the checks of [save], with
    no photo chosen, a uid that is in memory and no database error, the
    first student of that uid, with the fields entered and its photo
    kept, is upserted and committed, the list is reloaded from the store
    and holds that student once, normalized, and "Student updated." is
    shown. *)
Theorem update_stores_and_lists_student `{Runtime} (entries : form)
  (ms : list string) (s : Student) (st : StudentManagementApp) :
  no_errors st ->
  subject_ids_unique (current (conn st)) ->
  accepted entries ms ->
  img_path_var entries = "" ->
  find (same_uid (strip (entry_UID entries))) (students st) = Some s ->
  let new := assign_fields (strip (entry_Name entries))
               (strip (entry_Class entries)) (strip (entry_Section entries))
               (comma_items (entry_Subjects entries)) ms "" s in
  let st' := snd (save update entries st) in
  committed (conn st') = upserted new (current (conn st))
  /\ students st' = loaded (committed (conn st'))
  /\ filter (same_uid (uid s)) (students st') = [normalized new]
  /\ dialogs st' = dialogs st ++ [showinfo "Success" "Student updated."].
Proof.
  destruct st as [l [c d fs] g]. unfold no_errors.
  cbn [conn faults current students dialogs]. intros Hf Hu Ha Hi Hfind.
  subst fs. cbv zeta.
  set (new := assign_fields (strip (entry_Name entries))
                (strip (entry_Class entries)) (strip (entry_Section entries))
                (comma_items (entry_Subjects entries)) ms "" s).
  assert (E : save update entries (mkApp l (mkConnection c d []) g)
              = (Return tt,
                 mkApp (loaded (upserted new d))
                       (mkConnection (upserted new d) (upserted new d) [])
                       (g ++ [showinfo "Success" "Student updated."]))).
  { unfold save, save_with. rewrite (accepted_count entries ms Ha).
    destruct Ha as [Hr [_ Hm]]. rewrite Hr, Hm, Hi. cbn [negb truthy].
    unfold bind at 1, ret at 1.
    unfold bind at 1, get_students at 1. cbn [students].
    destruct (assign_first_some _
                (assign_fields (strip (entry_Name entries))
                   (strip (entry_Class entries)) (strip (entry_Section entries))
                   (comma_items (entry_Subjects entries)) ms "") _ _ Hfind)
      as [l' El].
    rewrite El. fold new.
    unfold bind at 1. unfold bind at 1, set_students at 1. simpl_state.
    unfold bind at 1. rewrite run_upsert.
    unfold messagebox at 1. cbn [students conn dialogs].
    unfold reload. rewrite run_load. reflexivity. }
  rewrite E. cbn [snd conn committed students dialogs].
  split; [reflexivity | split; [reflexivity | split; [| reflexivity]]].
  change (uid s) with (uid new).
  rewrite loaded_upserted. f_equal. now apply student_of_upserted_row.
Qed.

(* ================================================================= *)
(** ** Filters *)

Lemma insert_class_In (c x : string) (classes : list string) :
  In x (insert_class c classes) <-> x = c \/ In x classes.
Proof.
  induction classes as [| c' rest IH]; cbn [insert_class In].
  - intuition.
  - destruct (String.compare c c') eqn:E; cbn [In].
    + apply String.compare_eq_iff in E. subst c'. intuition.
    + intuition.
    + rewrite IH. intuition.
Qed.

Lemma sorted_set_In (x : string) (classes : list string) :
  In x (sorted_set classes) <-> In x classes.
Proof.
  induction classes as [| c rest IH]; cbn [sorted_set fold_right In]; [tauto |].
  fold (sorted_set rest). rewrite insert_class_In, IH. intuition.
Qed.

Lemma strictly_ascending_tail (x : string) (rest : list string) :
  strictly_ascending (x :: rest) = true -> strictly_ascending rest = true.
Proof.
  cbn [strictly_ascending]. destruct rest; [reflexivity |].
  intro E. now apply andb_true_iff in E.
Qed.

Lemma insert_class_ascending (c : string) (classes : list string) :
  strictly_ascending classes = true ->
  strictly_ascending (insert_class c classes) = true.
Proof.
  induction classes as [| c' rest IH]; cbn [insert_class]; [reflexivity |].
  intro Ha. destruct (String.compare c c') eqn:E.
  - exact Ha.
  - change (strictly_ascending (c :: c' :: rest))
      with (String.ltb c c' && strictly_ascending (c' :: rest)).
    unfold String.ltb. now rewrite E.
  - assert (L : String.ltb c' c = true).
    { unfold String.ltb. rewrite String.compare_antisym, E. reflexivity. }
    specialize (IH (strictly_ascending_tail _ _ Ha)).
    destruct rest as [| c'' rest]; cbn [insert_class] in *.
    + cbn [strictly_ascending]. now rewrite L.
    + destruct (String.compare c c'') eqn:E'.
      * exact Ha.
      * change (String.ltb c' c && strictly_ascending (c :: c'' :: rest) = true).
        now rewrite L, IH.
      * change (String.ltb c' c''
                && strictly_ascending (c'' :: insert_class c rest) = true).
        change (String.ltb c' c'' && strictly_ascending (c'' :: rest) = true) in Ha.
        apply andb_true_iff in Ha. destruct Ha as [H1 _]. now rewrite H1, IH.
Qed.

Lemma sorted_set_ascending (classes : list string) :
  strictly_ascending (sorted_set classes) = true.
Proof.
  induction classes as [| c rest IH]; cbn [sorted_set fold_right]; [reflexivity |].
  now apply insert_class_ascending.
Qed.

(** X17: after [_update_filter_options] the class box offers "All"
    followed by the non-empty classes of the students in memory, each once,
    in strictly ascending order; the selected class is among the values
    offered, and is the one selected before when that is still offered. *)
Theorem filter_options_offer_classes (v : controls)
  (st : StudentManagementApp) :
  exists v' classes,
    _update_filter_options v st = (Return v', st)
    /\ class_combo v' = "All" :: classes
    /\ strictly_ascending classes = true
    /\ (forall c, In c classes
                  <-> c <> "" /\ exists s, In s (students st)
                                           /\ student_class s = c)
    /\ In (filter_class v') (class_combo v')
    /\ (In (filter_class v) (class_combo v') -> filter_class v' = filter_class v).
Proof.
  eexists. exists (sorted_set (filter truthy (map student_class (students st)))).
  split; [reflexivity |]. cbn [class_combo filter_class].
  split; [reflexivity |]. split; [apply sorted_set_ascending |].
  split; [| split].
  - intro c. rewrite sorted_set_In, filter_In, in_map_iff.
    split.
    + intros [[s [Es Hs]] Ht]. split; [intro E; rewrite E in Ht; discriminate Ht | now exists s].
    + intros [Hc [s [Hs Es]]]. split; [now exists s |].
      destruct c; [contradiction | reflexivity].
  - destruct (mem_string _ _) eqn:E; cbn [negb].
    + now apply mem_string_In.
    + now left.
  - intro Hin. apply mem_string_In in Hin. now rewrite Hin.
Qed.

Lemma bound_of_blank `{Runtime} (text : string) :
  strip text = "" -> bound_of text = Some None.
Proof. intro E. unfold bound_of. now rewrite E. Qed.

(** X18: after [reset_filters_and_refresh], [apply_filters] filters no
    student out: the list it hands to [refresh_table] is the whole list in
    memory. *)
Theorem reset_then_apply_shows_all `{Runtime} (v : controls)
  (st : StudentManagementApp) :
  exists v',
    reset_filters_and_refresh v st = (Return v', st)
    /\ apply_filters v' st = (Return (Some (students st)), st).
Proof.
  eexists. split; [reflexivity |].
  unfold apply_filters. cbn [filter_class filter_grade min_avg_var max_avg_var].
  rewrite (bound_of_blank "") by reflexivity.
  unfold bind, get_students, ret. do 3 f_equal.
  apply filter_all. apply Forall_forall. intros s _. unfold passes.
  cbn [negb mem_string existsb String.eqb Ascii.eqb Bool.eqb orb].
  reflexivity.
Qed.

Lemma selected_spec (selected x : string) :
  truthy selected && negb (selected =? "All") && negb (x =? selected) = false
  <-> selected = "" \/ selected = "All" \/ x = selected.
Proof.
  destruct (String.eqb_spec selected "All") as [Hall | Hall];
    destruct (String.eqb_spec x selected) as [Hx | Hx];
    destruct selected as [| c r]; cbn [truthy negb andb];
    split; auto; try discriminate; intros [E | [E | E]];
    try discriminate; try contradiction; congruence.
Qed.

Lemma bound_spec (bound : option float) (avg : option float)
  (lt : float -> float -> bool) :
  match bound with
  | Some m => match avg with None => true | Some a => lt a m end
  | None => false
  end = false
  <-> forall m, bound = Some m -> exists a, avg = Some a /\ lt a m = false.
Proof.
  destruct bound as [m |], avg as [a |]; split; try discriminate; auto.
  - intros E m' Em. injection Em as <-. now exists a.
  - intro Hb. destruct (Hb m eq_refl) as [a' [Ea El]]. now injection Ea as <-.
  - intro Hb. destruct (Hb m eq_refl) as [a' [Ea _]]. discriminate.
Qed.

Lemma passes_meets `{Runtime} (v : controls) (min_avg max_avg : option float)
  (s : Student) :
  passes (filter_class v) (filter_grade v) min_avg max_avg s = true
  <-> meets v min_avg max_avg s.
Proof.
  unfold passes, meets. cbv zeta.
  rewrite <- (selected_spec (filter_class v)).
  rewrite <- (selected_spec (filter_grade v)).
  rewrite <- (bound_spec min_avg (_avg_of s) SFltb).
  rewrite <- (bound_spec max_avg (_avg_of s) (fun a m => SFltb m a)).
  destruct (_ && _ && _); [intuition discriminate |].
  destruct (_ && _ && _); [intuition discriminate |].
  destruct (match min_avg with Some _ => _ | None => _ end);
    [intuition discriminate |].
  destruct (match max_avg with Some _ => _ | None => _ end);
    intuition discriminate.
Qed.

(** X19: when [apply_filters] hands a list to [refresh_table], both
    bounds were blank or numbers, and that list is the in-memory list
    restricted to the students that meet the filters: the class and grade
    selected, unless none or "All" is, and an average (a student without
    one meets no bound) not below the lower and not above the upper
    bound. *)
Theorem apply_filters_shows_matching `{Runtime} (v : controls)
  (st : StudentManagementApp) (shown : list Student) :
  fst (apply_filters v st) = Return (Some shown) ->
  exists min_avg max_avg,
    bound_of (min_avg_var v) = Some min_avg
    /\ bound_of (max_avg_var v) = Some max_avg
    /\ (exists keep, shown = filter keep (students st))
    /\ forall s, In s shown
                 <-> In s (students st) /\ meets v min_avg max_avg s.
Proof.
  unfold apply_filters.
  destruct (bound_of (min_avg_var v)) as [min_avg |]; [| discriminate].
  destruct (bound_of (max_avg_var v)) as [max_avg |]; [| discriminate].
  cbn. intro E. injection E as <-. exists min_avg, max_avg.
  split; [reflexivity | split; [reflexivity | split]].
  - eexists. reflexivity.
  - intro s. rewrite filter_In, passes_meets. reflexivity.
Qed.

(** X20: when the lower bound, or the upper one, is neither blank nor a
    number, [apply_filters] shows "Min/Max averages must be numeric." and
    returns without a list for the table; list and store are untouched. *)
Theorem apply_filters_rejects_bound `{Runtime} (v : controls)
  (st : StudentManagementApp) :
  (strip (min_avg_var v) <> "" /\ py_float (strip (min_avg_var v)) = None)
  \/ (strip (max_avg_var v) <> "" /\ py_float (strip (max_avg_var v)) = None) ->
  apply_filters v st
  = (Return None,
     mkApp (students st) (conn st)
       (dialogs st ++ [showerror "Error" "Min/Max averages must be numeric."])).
Proof.
  assert (B : forall text, strip text <> "" -> py_float (strip text) = None ->
                           bound_of text = None).
  { intros text Hne Hp. unfold bound_of.
    destruct (String.eqb_spec (strip text) ""); [contradiction |].
    cbn [negb]. now rewrite Hp. }
  intros [[Hne Hp] | [Hne Hp]]; unfold apply_filters.
  - now rewrite (B _ Hne Hp).
  - rewrite (B _ Hne Hp). now destruct (bound_of (min_avg_var v)).
Qed.

(* ================================================================= *)
(** ** What the store gives back *)

Lemma nonblank_strip (x : string) :
  nonblank x = true -> nonblank (strip x) = true /\ strip (strip x) = strip x.
Proof.
  unfold nonblank. intro E. apply andb_true_iff in E. destruct E as [_ E].
  now rewrite strip_idempotent, E.
Qed.

Lemma rows_of_pairs_In `{Runtime} (pairs : list (string * string))
  (r : string * option float) :
  In r (rows_of_pairs pairs) ->
  exists p, In p pairs /\ nonblank (fst p) = true
            /\ r = (strip (fst p), bind_real (py_float (snd p))).
Proof.
  unfold rows_of_pairs. intro Hin. apply in_flat_map in Hin.
  destruct Hin as [p [Hp Hr]]. exists p.
  destruct (nonblank (fst p)); [| destruct Hr].
  destruct Hr as [<- | []]. auto.
Qed.

(** What the store gives back is in the form it keeps. *)
Lemma normalized_is_normal `{Runtime} (s : Student) :
  py_float "" = None ->
  Forall (fun m => forall v, bind_real (py_float m) = Some v ->
                             bind_real (py_float (py_str v)) = Some v)
         (marks s) ->
  normal_form (normalized s).
Proof.
  intros Hempty Hmk. unfold normalized. rewrite unpack_rows_maps.
  set (rows := order_by_name (rows_of_pairs (zip (subjects s) (marks s)))).
  assert (Hrows : forall r, In r rows ->
            exists p, In p (zip (subjects s) (marks s))
                      /\ nonblank (fst p) = true
                      /\ r = (strip (fst p), bind_real (py_float (snd p)))).
  { intros r Hr. apply rows_of_pairs_In.
    apply (Permutation_in _ (order_by_name_permutation _) Hr). }
  unfold normal_form, balanced. cbn [subjects marks].
  split; [| split; [| split]].
  - apply Forall_forall. intros x Hx. apply in_map_iff in Hx.
    destruct Hx as [r [<- Hr]]. destruct (Hrows r Hr) as [p [_ [Hnb ->]]].
    cbn [fst]. now apply nonblank_strip.
  - apply order_by_name_sorted.
  - apply Forall_forall. intros x Hx. apply in_map_iff in Hx.
    destruct Hx as [r [<- Hr]]. destruct (Hrows r Hr) as [p [Hp [_ ->]]].
    cbn [snd]. unfold mark_stable.
    destruct (bind_real (py_float (snd p))) as [v |] eqn:E.
    + rewrite Forall_forall in Hmk.
      rewrite (Hmk (snd p)); [reflexivity | | exact E].
      destruct p as [x m]. now apply in_combine_r in Hp.
    + now rewrite Hempty.
  - now rewrite !length_map.
Qed.

Lemma normalized_uid `{Runtime} (s : Student) : uid (normalized s) = uid s.
Proof.
  unfold normalized.
  now destruct (unpack_rows
                  (order_by_name (rows_of_pairs (zip (subjects s) (marks s))))).
Qed.

(** X21: after [db_upsert_student_normalized] and [load_data], with no
    database error, the list holds one record of that uid and it is in the
    normal form of the store; saved and loaded again, that record is read
    back as it is. This holds provided that the text of each mark stored
    reads back as the number stored and that the empty string is no
    number. *)
Theorem reloaded_student_is_normal `{Runtime} (s : Student)
  (st : StudentManagementApp) :
  no_errors st ->
  subject_ids_unique (current (conn st)) ->
  py_float "" = None ->
  Forall (fun m => forall v, bind_real (py_float m) = Some v ->
                             bind_real (py_float (py_str v)) = Some v)
         (marks s) ->
  let st1 := snd ((db_upsert_student_normalized s ;; load_data) st) in
  exists r,
    filter (same_uid (uid s)) (students st1) = [r]
    /\ normal_form r
    /\ filter (same_uid (uid s))
         (students (snd ((db_upsert_student_normalized r ;; load_data) st1)))
       = [r].
Proof.
  intros Hf Hu Hempty Hmk. cbv zeta.
  pose proof (normalized_is_normal s Hempty Hmk) as Hn.
  exists (normalized s).
  split; [now apply save_then_load_normalizes | split; [exact Hn |]].
  destruct st as [l [c d fs] g]. unfold no_errors in Hf.
  cbn [conn faults current] in Hf, Hu. subst fs.
  rewrite run_upsert_then_load. cbn [snd].
  rewrite run_upsert_then_load. cbn [snd students].
  rewrite <- (normalized_uid s), loaded_upserted. f_equal.
  rewrite student_of_upserted_row by (now apply upserted_unique).
  now apply normalized_normal_form.
Qed.

(** X22: for a list of students in normal form with distinct uids,
    [_on_exit] followed by [load_data], as at the next start, with no
    database error, gives back the list as it was. *)
Theorem exit_then_load_keeps_list `{Runtime} (st : StudentManagementApp) :
  no_errors st ->
  subject_ids_unique (current (conn st)) ->
  NoDup (map uid (students st)) ->
  Forall normal_form (students st) ->
  students (snd ((_on_exit ;; load_data) st)) = students st.
Proof.
  destruct st as [l [c d fs] g]. unfold no_errors.
  cbn [conn faults current students]. intros Hf Hu Hnd Hnf. subst fs.
  unfold bind, _on_exit. rewrite run_save_data, run_load. cbn [snd students].
  rewrite (loaded_reconciled l d Hnd Hu).
  induction Hnf as [| s l Hs _ IH]; [reflexivity |].
  cbn [map]. rewrite (normalized_normal_form s Hs). f_equal.
  apply IH. cbn [map] in Hnd. now inversion Hnd.
Qed.

(* ================================================================= *)
(** ** One record per uid *)

Lemma maintains_bind (I : StudentManagementApp -> Prop) {A B} (m : Py A)
  (k : A -> Py B) :
  maintains I m -> (forall a, maintains I (k a)) -> maintains I (bind m k).
Proof.
  intros Hm Hk st HI. unfold bind.
  specialize (Hm st HI). destruct (m st) as [[a | e] st1]; cbn [snd] in *.
  - now apply Hk.
  - exact Hm.
Qed.

(** After [all <- get_students], [all] is the list in memory. *)
Lemma maintains_get_students (I : StudentManagementApp -> Prop) {B}
  (k : list Student -> Py B) :
  (forall st, I st -> I (snd (k (students st) st))) ->
  maintains I (bind get_students k).
Proof. intros Hk st HI. now apply Hk. Qed.

(** A computation that leaves the list alone and keeps the constraints
    of the schema keeps one record per uid. *)
Lemma maintains_store {A} (m : Py A) :
  keeps_students m -> keeps_store consistent m ->
  maintains one_record_per_uid m.
Proof.
  intros Hk Hs st [Hc [Hd Hn]].
  destruct (Hs st Hc Hd) as [Hc' Hd'].
  split; [exact Hc' | split; [exact Hd' |]]. now rewrite Hk.
Qed.

Lemma maintains_ret {A} (a : A) : maintains one_record_per_uid (ret a).
Proof. intros st HI. exact HI. Qed.

Lemma maintains_messagebox (m : dialog) :
  maintains one_record_per_uid (messagebox m).
Proof. intros st HI. exact HI. Qed.

Lemma maintains_upsert `{Runtime} (s : Student) :
  maintains one_record_per_uid (db_upsert_student_normalized s).
Proof. apply maintains_store; [apply keeps_upsert | apply consistent_upsert]. Qed.

Lemma maintains_delete (u : string) :
  maintains one_record_per_uid (db_delete_student_normalized u).
Proof. apply maintains_store; [apply keeps_delete | apply consistent_delete]. Qed.

Lemma NoDup_firstn {A} (k : nat) (l : list A) : NoDup l -> NoDup (firstn k l).
Proof.
  revert l. induction k as [| k IH]; intros [| x l] Hnd; cbn [firstn];
    try constructor.
  - inversion Hnd as [| ? ? Hnotin Hnd']; subst.
    intro Hin. apply Hnotin. revert Hin. clear.
    revert l. induction k as [| k IH]; intros [| y l]; cbn [firstn In]; try tauto.
    intros [E | Hin]; [now left | right; now apply IH].
  - inversion Hnd; subst. now apply IH.
Qed.

Lemma loaded_uids `{Runtime} (d : database) :
  map uid (loaded d) = map row_uid (students_table d).
Proof.
  unfold loaded, select_students. rewrite map_map.
  apply map_ext. intro r. apply student_of_row_uid.
Qed.

(** [load_data] leaves one record per uid, database errors or not. *)
Lemma maintains_load_data `{Runtime} : maintains one_record_per_uid load_data.
Proof.
  intros [l [c d fs] g] [Hc [Hd _]]. cbn [conn committed current] in *.
  destruct (run_load_any l c d fs g) as [k [fs' [shown [E _]]]].
  rewrite E. cbn [snd].
  split; [exact Hc | split; [exact Hd |]]. cbn [students].
  rewrite <- firstn_map. apply NoDup_firstn. rewrite loaded_uids.
  destruct Hd as [Hd _]. exact Hd.
Qed.

Lemma assign_first_uids (u : string) (f : Student -> Student)
  (items : list Student) (s : Student) (items' : list Student) :
  (forall x, uid (f x) = uid x) ->
  assign_first u f items = Some (s, items') ->
  map uid items' = map uid items.
Proof.
  intro Hf. revert s items'.
  induction items as [| x items IH]; intros s items'; cbn [assign_first];
    [discriminate |].
  destruct (same_uid u x).
  - intro E. injection E as _ <-. cbn [map]. now rewrite Hf.
  - destruct (assign_first u f items) as [[s' rest'] |]; [| discriminate].
    intro E. injection E as _ <-. cbn [map]. f_equal. now apply (IH s').
Qed.

Lemma existsb_same_uid (u : string) (items : list Student) :
  existsb (same_uid u) items = false -> ~ In u (map uid items).
Proof.
  intros E Hin. apply in_map_iff in Hin. destruct Hin as [s [Es Hs]].
  assert (F : existsb (same_uid u) items = true).
  { apply existsb_exists. exists s. split; [exact Hs |].
    unfold same_uid. rewrite Es. apply String.eqb_refl. }
  congruence.
Qed.

Lemma maintains_set_students (l : list Student) :
  NoDup (map uid l) -> maintains one_record_per_uid (set_students l).
Proof.
  intros Hn st [Hc [Hd _]]. split; [exact Hc | split; [exact Hd | exact Hn]].
Qed.

Lemma maintains_save `{Runtime} (mode : form_mode) (entries : form) :
  maintains one_record_per_uid (save mode entries).
Proof.
  unfold save, save_with.
  destruct (negb _); [apply maintains_messagebox |].
  destruct (_ && _); [apply maintains_messagebox |].
  destruct (marks_of _) as [ms |]; [| apply maintains_messagebox].
  apply maintains_bind.
  { destruct (truthy (img_path_var entries)); [| apply maintains_ret].
    destruct (place_image _ _); [apply maintains_ret |].
    apply maintains_bind; [apply maintains_messagebox |].
    intros _. apply maintains_ret. }
  intro rel. destruct mode.
  - apply maintains_get_students. intros st HI.
    destruct (existsb _ (students st)) eqn:E; [exact HI |].
    revert st HI E.
    assert (G : forall l,
               existsb (same_uid (strip (entry_UID entries))) l = false ->
               NoDup (map uid l) ->
               maintains one_record_per_uid
                 (set_students
                    (l ++ [mkStudent (strip (entry_UID entries))
                             (strip (entry_Name entries))
                             (strip (entry_Class entries))
                             (strip (entry_Section entries))
                             (comma_items (entry_Subjects entries)) ms rel]) ;;
                  db_upsert_student_normalized
                    (mkStudent (strip (entry_UID entries))
                       (strip (entry_Name entries))
                       (strip (entry_Class entries))
                       (strip (entry_Section entries))
                       (comma_items (entry_Subjects entries)) ms rel) ;;
                  messagebox (showinfo "Success" "Student added.") ;;
                  reload)).
    { intros l E Hn. apply maintains_bind.
      - apply maintains_set_students. rewrite map_app. cbn [map uid].
        apply NoDup_app; [exact Hn | repeat constructor; simpl; tauto |].
        intros u Hin [Eu | []]. subst u.
        now apply (existsb_same_uid _ _ E).
      - intros _. apply maintains_bind; [apply maintains_upsert |].
        intros _. apply maintains_bind; [apply maintains_messagebox |].
        intros _. apply maintains_load_data. }
    intros st HI E. apply G; [exact E | apply HI | exact HI].
  - apply maintains_get_students. intros st HI.
    apply maintains_bind; [| intros _; apply maintains_load_data | exact HI].
    destruct (assign_first _ _ (students st)) as [[s l'] |] eqn:E;
      [| apply maintains_messagebox].
    apply maintains_bind.
    + apply maintains_set_students.
      erewrite assign_first_uids; [apply HI | | exact E]. reflexivity.
    + intros _. apply maintains_bind; [apply maintains_upsert |].
      intros _. apply maintains_messagebox.
Qed.

Lemma maintains_confirm_delete (u : string) (confirm : bool) :
  maintains one_record_per_uid (_confirm_delete_and_refresh u confirm).
Proof.
  unfold _confirm_delete_and_refresh. destruct confirm; [| apply maintains_ret].
  apply maintains_get_students. intros st HI.
  apply maintains_bind; [| | exact HI].
  - apply maintains_set_students. apply NoDup_map_filter. apply HI.
  - intros _. apply maintains_bind; [apply maintains_delete |].
    intros _. apply maintains_messagebox.
Qed.

Lemma maintains_toolbar_delete `{Runtime} (selected : option string)
  (confirm : bool) :
  maintains one_record_per_uid (Toolbar.delete_student selected confirm).
Proof.
  unfold Toolbar.delete_student.
  destruct selected as [u |]; [| apply maintains_messagebox].
  destruct (negb confirm); [apply maintains_ret |].
  apply maintains_get_students. intros st HI.
  apply maintains_bind; [| | exact HI].
  - apply maintains_set_students. apply NoDup_map_filter. apply HI.
  - intros _. apply maintains_bind; [apply maintains_delete |].
    intros _. apply maintains_bind; [apply maintains_load_data |].
    intros _. apply maintains_messagebox.
Qed.

Lemma maintains_save_data `{Runtime} : maintains one_record_per_uid save_data.
Proof.
  apply maintains_store; [| apply consistent_save_data].
  unfold save_data.
  apply keeps_try_except; [| intro e; apply keeps_messagebox].
  apply keeps_bind; [intro st; reflexivity |].
  intro l. apply keeps_bind.
  - apply keeps_for_each. intro s. apply keeps_upsert.
  - intros _. apply keeps_with_conn.
    destruct (map uid l); apply keeps_execute.
Qed.

(** X23: the application keeps one record per uid, whatever database
    errors occur: when the store is within the constraints of the schema
    and no two students in memory share a uid, the same holds after the
    form's save action, both delete commands, [load_data] and
    [save_data]. *)
Theorem one_record_per_uid_kept `{Runtime} (st : StudentManagementApp) :
  one_record_per_uid st ->
  (forall mode entries, one_record_per_uid (snd (save mode entries st)))
  /\ (forall selected confirm,
        one_record_per_uid (snd (Toolbar.delete_student selected confirm st)))
  /\ (forall u confirm,
        one_record_per_uid (snd (_confirm_delete_and_refresh u confirm st)))
  /\ one_record_per_uid (snd (load_data st))
  /\ one_record_per_uid (snd (save_data st)).
Proof.
  intro HI. split; [| split; [| split; [| split]]].
  - intros mode entries. now apply maintains_save.
  - intros selected confirm. now apply maintains_toolbar_delete.
  - intros u confirm. now apply maintains_confirm_delete.
  - now apply maintains_load_data.
  - now apply maintains_save_data.
Qed.

(* ================================================================= *)
(** ** Subjects are shared *)

Lemma insert_or_ignore_present (n : string) (d : database) :
  mem_string n (map subj_name (subjects_table (insert_or_ignore_subject n d)))
  = true.
Proof.
  destruct (select_after_insert n d) as [r [_ [Hin Hn]]].
  apply mem_string_In, in_map_iff. now exists r.
Qed.

Lemma insert_or_ignore_again (n : string) (d : database) :
  subjects_table (insert_or_ignore_subject n (insert_or_ignore_subject n d))
  = subjects_table (insert_or_ignore_subject n d).
Proof.
  unfold insert_or_ignore_subject at 1. cbn [subjects_table].
  now rewrite insert_or_ignore_present.
Qed.

(** X24: two names that strip to the same, not blank, get the same id from
    [_get_subject_id], and the second call, with no database error, adds no
    row to [subjects]. *)
Theorem get_subject_id_shares_row (n n' : string) (st : StudentManagementApp) :
  no_errors st ->
  nonblank n = true ->
  nonblank n' = true ->
  strip n' = strip n ->
  let first := _get_subject_id n st in
  let second := _get_subject_id n' (snd first) in
  (exists sid, fst first = Return (Some sid) /\ fst second = Return (Some sid))
  /\ subjects_table (committed (conn (snd second)))
     = subjects_table (committed (conn (snd first))).
Proof.
  destruct st as [l [c d fs] g]. unfold no_errors. cbn [conn faults].
  intros Hf Hn Hn' Es. subst fs. cbv zeta.
  rewrite (run_get_subject_id n l c d g Hn). cbn [snd fst].
  rewrite (run_get_subject_id n' l _ _ g Hn'). cbn [snd fst conn committed].
  rewrite Es. split; [| apply insert_or_ignore_again].
  destruct (select_after_insert (strip n) d) as [r [Hsel _]].
  exists (subj_id r). split; [now rewrite Hsel |].
  unfold select_subject_id in *. now rewrite insert_or_ignore_again, Hsel.
Qed.

(* ================================================================= *)
(** ** Database errors are reported *)

Lemma with_faults_idem (fs fs' : list bool) (st : StudentManagementApp) :
  with_faults fs (with_faults fs' st) = with_faults fs st.
Proof. reflexivity. Qed.

Lemma with_faults_same (st : StudentManagementApp) :
  with_faults (faults (conn st)) st = st.
Proof. now destruct st as [l [c d fs] g]. Qed.

Lemma hides_no_error_ret {A} (a : A) : hides_no_error (ret a).
Proof.
  intros [l [c d fs] g]. split; [| auto]. exists [].
  split; [cbn; now rewrite app_nil_r |].
  intros _. right. exists a, fs. split; reflexivity.
Qed.

Lemma hides_no_error_get_students : hides_no_error get_students.
Proof.
  intros [l [c d fs] g]. split; [| auto]. exists [].
  split; [cbn; now rewrite app_nil_r |].
  intros _. right. exists l, fs. split; reflexivity.
Qed.

Lemma hides_no_error_set_students (l : list Student) :
  hides_no_error (set_students l).
Proof.
  intros [l0 [c d fs] g]. split; [| auto]. exists [].
  split; [cbn; now rewrite app_nil_r |].
  intros _. right. exists tt, fs. split; reflexivity.
Qed.

Lemma hides_no_error_messagebox (m : dialog) : hides_no_error (messagebox m).
Proof.
  intro st. split; [| auto]. exists [m]. split; [reflexivity | discriminate].
Qed.

Lemma hides_no_error_execute {A} (stmt : database -> exn + (A * database)) :
  hides_no_error (execute stmt).
Proof.
  intros [l [c d fs] g]. split.
  - exists []. split.
    + unfold execute. cbn [conn faults].
      destruct fs as [| [|] later]; cbn [snd dialogs set_conn];
        try (now rewrite app_nil_r);
        destruct (stmt _) as [e | [a d']]; cbn [snd dialogs set_conn];
        now rewrite app_nil_r.
    + intros _. unfold undisturbed, execute, with_faults.
      cbn [conn faults committed current set_conn students dialogs].
      destruct fs as [| [|] later]; cbn [tl].
      * destruct (stmt d) as [e | [a d']]; [left; now exists e |].
        right. exists a, []. split; reflexivity.
      * left. eexists. reflexivity.
      * destruct (stmt d) as [e | [a d']]; [left; now exists e |].
        right. exists a, later. split; reflexivity.
  - cbn [conn faults]. intros ->. unfold execute. cbn [conn faults].
    destruct (stmt _) as [e | [a d']]; reflexivity.
Qed.

Lemma clean_run {A} (m : Py A) (st : StudentManagementApp) :
  hides_no_error m ->
  with_faults [] (snd (m (with_faults [] st))) = snd (m (with_faults [] st)).
Proof.
  intro Hm. destruct (Hm (with_faults [] st)) as [_ Hf].
  rewrite <- (with_faults_same (snd (m (with_faults [] st)))) at 2.
  now rewrite (Hf eq_refl).
Qed.

Lemma hides_no_error_bind {A B} (m : Py A) (k : A -> Py B) :
  hides_no_error m -> (forall a, hides_no_error (k a)) ->
  hides_no_error (bind m k).
Proof.
  intros Hm Hk st. destruct (Hm st) as [[more1 [Hd1 Hq1]] Hf1].
  unfold bind. destruct (m st) as [[a | e] st1] eqn:Em; cbn [fst snd] in *.
  2:{ split; [| exact Hf1]. exists more1. split; [exact Hd1 |].
      intros _. left. now exists e. }
  destruct (Hk a st1) as [[more2 [Hd2 Hq2]] Hf2].
  split; [| intro Hf; apply Hf2, Hf1, Hf].
  exists (more1 ++ more2). split; [now rewrite Hd2, Hd1, app_assoc |].
  intro Hnil. apply app_eq_nil in Hnil. destruct Hnil as [-> ->].
  destruct (Hq1 eq_refl) as [[e F] | [a' [fs1 [E0 E1]]]]; [discriminate |].
  rewrite Em in E1. injection E1 as <- ->.
  destruct (Hq2 eq_refl) as [[e F] | [b [fs2 [E2 E3]]]]; [left; now exists e |].
  right. exists b, fs2.
  rewrite with_faults_idem, (clean_run m st Hm) in E2, E3.
  unfold bind. rewrite Em.
  destruct (m (with_faults [] st)) as [[a0 | e0] s0]; cbn [fst snd] in *;
    [| discriminate].
  injection E0 as ->. split; [exact E2 | exact E3].
Qed.

Lemma hides_no_error_for_each {A} (items : list A) (body : A -> Py unit) :
  (forall x, hides_no_error (body x)) -> hides_no_error (for_each items body).
Proof.
  intro Hb. induction items as [| x items IH]; cbn [for_each].
  - apply hides_no_error_ret.
  - apply hides_no_error_bind; [apply Hb | intros _; exact IH].
Qed.

(** [with self.conn] hides none. *)
Lemma hides_no_error_with_conn {A} (body : Py A) :
  hides_no_error body -> hides_no_error (with_conn body).
Proof.
  intros Hb st. destruct (Hb st) as [[more [Hd Hq]] Hf].
  unfold with_conn.
  destruct (body st) as [[a | e] st1] eqn:Eb; cbn [fst snd] in *.
  - split; [| intro E; now apply Hf].
    exists more. split; [exact Hd |]. intro Hnil.
    destruct (Hq Hnil) as [[e F] | [a' [fs [E0 E1]]]]; [discriminate |].
    right. exists a', fs. rewrite Eb in E1. injection E1 as <- ->.
    unfold with_conn. rewrite Eb.
    destruct (body (with_faults [] st)) as [[a0 | e0] s0]; cbn [fst snd] in *;
      [| discriminate].
    injection E0 as ->. split; reflexivity.
  - split; [| intro E; now apply Hf].
    exists more. split; [exact Hd |]. intros _. left. now exists e.
Qed.

(** A handler that shows a message box hides none. *)
Lemma hides_no_error_try_except {A} (body : Py A) (handler : exn -> Py A) :
  hides_no_error body ->
  (forall e st, exists m more,
      dialogs (snd (handler e st)) = dialogs st ++ m :: more) ->
  (forall e st, faults (conn (snd (handler e st))) = faults (conn st)) ->
  hides_no_error (try_except body handler).
Proof.
  intros Hb Hh Hhf st. destruct (Hb st) as [[more [Hd Hq]] Hf].
  unfold try_except.
  destruct (body st) as [[a | e] st1] eqn:Eb; cbn [fst snd] in *.
  - split; [| exact Hf].
    exists more. split; [exact Hd |]. intro Hnil.
    destruct (Hq Hnil) as [[e F] | [a' [fs [E0 E1]]]]; [discriminate |].
    right. exists a', fs. rewrite Eb in E1. injection E1 as <- ->.
    unfold try_except. rewrite Eb.
    destruct (body (with_faults [] st)) as [[a0 | e0] s0]; cbn [fst snd] in *;
      [| discriminate].
    injection E0 as ->. split; reflexivity.
  - split; [| intro E; rewrite Hhf; now apply Hf].
    destruct (Hh e st1) as [m [more' Hm]].
    exists (more ++ m :: more'). split; [now rewrite Hm, Hd, <- app_assoc |].
    intro F. apply app_eq_nil in F. destruct F as [_ F]. discriminate.
Qed.

Lemma hides_no_error_get_subject_id (n : string) :
  hides_no_error (_get_subject_id n).
Proof.
  unfold _get_subject_id.
  destruct (negb (truthy n)); [apply hides_no_error_ret |].
  destruct (negb (truthy (strip n))); [apply hides_no_error_ret |].
  apply hides_no_error_try_except.
  - apply hides_no_error_with_conn.
    apply hides_no_error_bind; [apply hides_no_error_execute | intros _].
    apply hides_no_error_bind; [apply hides_no_error_execute | intro row].
    apply hides_no_error_ret.
  - intros e st. eexists _, []. reflexivity.
  - reflexivity.
Qed.

Lemma hides_no_error_upsert `{Runtime} (s : Student) :
  hides_no_error (db_upsert_student_normalized s).
Proof.
  unfold db_upsert_student_normalized.
  apply hides_no_error_try_except.
  - apply hides_no_error_with_conn.
    apply hides_no_error_bind; [apply hides_no_error_execute | intros _].
    apply hides_no_error_bind; [apply hides_no_error_execute | intros _].
    apply hides_no_error_for_each. intros [subj mk].
    apply hides_no_error_bind; [apply hides_no_error_get_subject_id |].
    intros [sid |]; [apply hides_no_error_execute | apply hides_no_error_ret].
  - intros e st. eexists _, []. reflexivity.
  - reflexivity.
Qed.

Lemma hides_no_error_save_data `{Runtime} : hides_no_error save_data.
Proof.
  unfold save_data.
  apply hides_no_error_try_except.
  - apply hides_no_error_bind; [apply hides_no_error_get_students | intro l].
    apply hides_no_error_bind.
    + apply hides_no_error_for_each. intro s. apply hides_no_error_upsert.
    + intros _. apply hides_no_error_with_conn.
      destruct (map uid l); apply hides_no_error_execute.
  - intros e st. eexists _, []. reflexivity.
  - reflexivity.
Qed.

Lemma hides_no_error_delete (u : string) :
  hides_no_error (db_delete_student_normalized u).
Proof.
  unfold db_delete_student_normalized.
  apply hides_no_error_try_except.
  - apply hides_no_error_with_conn, hides_no_error_execute.
  - intros e st. eexists _, []. reflexivity.
  - reflexivity.
Qed.

(** X25: [db_upsert_student_normalized] hides no database error: whatever
    errors are to come, when it shows no message box the whole student was
    stored and committed, as by a save without database error, and no
    transaction stays open. *)
Theorem silent_upsert_is_whole `{Runtime} (s : Student)
  (st : StudentManagementApp) :
  let st' := snd (db_upsert_student_normalized s st) in
  dialogs st' = dialogs st ->
  committed (conn st') = upserted s (current (conn st))
  /\ current (conn st') = committed (conn st')
  /\ students st' = students st.
Proof.
  cbv zeta. intro Hq.
  destruct (hides_no_error_upsert s st) as [[more [Hd Hu]] _].
  assert (Hnil : more = []).
  { rewrite Hq in Hd. rewrite <- (app_nil_r (dialogs st)) in Hd at 1.
    now apply app_inv_head in Hd. }
  destruct (Hu Hnil) as [[e F] | [a [fs [_ E]]]].
  { rewrite upsert_returns in F. discriminate. }
  destruct st as [l [c d fs0] g]. unfold with_faults, set_conn in E.
  cbn [conn committed current students dialogs] in E.
  rewrite run_upsert in E. rewrite E. auto.
Qed.

(** X26: [save_data] hides no database error: whatever errors are to
    come, when it shows no message box the store was reconciled with the
    in-memory list and committed, as by a [save_data] without database
    error. *)
Theorem silent_save_data_is_whole `{Runtime} (st : StudentManagementApp) :
  let st' := snd (save_data st) in
  dialogs st' = dialogs st ->
  committed (conn st') = reconciled (students st) (current (conn st))
  /\ current (conn st') = committed (conn st')
  /\ students st' = students st.
Proof.
  cbv zeta. intro Hq.
  destruct (hides_no_error_save_data st) as [[more [Hd Hu]] _].
  assert (Hnil : more = []).
  { rewrite Hq in Hd. rewrite <- (app_nil_r (dialogs st)) in Hd at 1.
    now apply app_inv_head in Hd. }
  destruct (Hu Hnil) as [[e F] | [a [fs [_ E]]]].
  { unfold save_data in F. rewrite try_messagebox_returns in F. discriminate. }
  destruct st as [l [c d fs0] g]. unfold with_faults, set_conn in E.
  cbn [conn committed current students dialogs] in E.
  rewrite run_save_data in E. rewrite E. auto.
Qed.

Lemma run_upsert_failed `{Runtime} (s : Student) l c d fs g :
  db_upsert_student_normalized s (mkApp l (mkConnection c d (true :: fs)) g)
  = (Return tt,
     mkApp l (mkConnection c c fs)
       (g ++ [showerror "Database Error"
                ("Failed to save student " ++ uid s ++ ": disk I/O error")])).
Proof. reflexivity. Qed.

(** X27: in add mode, for entries that pass the checks of [save], with no
    photo chosen and a uid that is not in memory, when the first statement
    of the upsert fails the store stays as committed and the list becomes
    what that store holds: the student entered is not stored; the error
    box is followed by "Student added." all the same. *)
Theorem add_with_failed_save `{Runtime} (entries : form) (ms : list string)
  (st : StudentManagementApp) :
  faults (conn st) = [true] ->
  accepted entries ms ->
  img_path_var entries = "" ->
  existsb (same_uid (strip (entry_UID entries))) (students st) = false ->
  let st' := snd (save add entries st) in
  committed (conn st') = committed (conn st)
  /\ students st' = loaded (committed (conn st))
  /\ dialogs st'
     = dialogs st
       ++ [showerror "Database Error"
             ("Failed to save student " ++ strip (entry_UID entries)
              ++ ": disk I/O error");
           showinfo "Success" "Student added."].
Proof.
  destruct st as [l [c d fs] g].
  cbn [conn faults committed students dialogs]. intros Hf Ha Hi Hn. subst fs.
  cbv zeta.
  assert (E : save add entries (mkApp l (mkConnection c d [true]) g)
              = (Return tt,
                 mkApp (loaded c) (mkConnection c c [])
                   ((g ++ [showerror "Database Error"
                             ("Failed to save student "
                              ++ strip (entry_UID entries)
                              ++ ": disk I/O error")])
                    ++ [showinfo "Success" "Student added."]))).
  { unfold save, save_with. rewrite (accepted_count entries ms Ha).
    destruct Ha as [Hr [_ Hm]]. rewrite Hr, Hm, Hi. cbn [negb truthy].
    unfold bind at 1, ret at 1.
    unfold bind at 1, get_students at 1. cbn [students]. rewrite Hn.
    unfold bind at 1, set_students at 1. simpl_state.
    unfold bind at 1. rewrite run_upsert_failed.
    unfold bind at 1, messagebox at 1. cbn [students conn dialogs uid].
    unfold reload. rewrite run_load. reflexivity. }
  rewrite E. cbn [snd conn committed students dialogs].
  rewrite <- app_assoc. auto.
Qed.

(* ================================================================= *)
(** ** Subjects are never removed *)

Section KeepsSubjects.

Variable base : database.

Lemma keeps_subjects_same (d d' : database) :
  subjects_table d' = subjects_table d ->
  keeps_subjects base d -> keeps_subjects base d'.
Proof. intros E [more Hm]. exists more. now rewrite E. Qed.

Lemma keeps_subjects_insert (n : string) (d : database) :
  keeps_subjects base d -> keeps_subjects base (insert_or_ignore_subject n d).
Proof.
  intros [more Hm]. destruct (insert_or_ignore_subjects n d) as [more' Hm'].
  exists (more ++ more'). now rewrite Hm', Hm, app_assoc.
Qed.

Lemma keeps_subjects_link (u : string) (sid : Z) (v : option float)
  (d d' : database) :
  keeps_subjects base d -> insert_student_subject u sid v d = inr d' ->
  keeps_subjects base d'.
Proof.
  intros Hk. unfold insert_student_subject.
  destruct (_ && _); [| discriminate].
  intro E. injection E as <-. exact Hk.
Qed.

End KeepsSubjects.

(** X28: no row of [subjects] is ever removed or changed: on a connection
    with no open transaction, whatever database errors occur, the subjects
    committed before are still there, as they were and where they were,
    after an upsert, a delete, [save_data], the form's save action and
    both delete commands. *)
Theorem subjects_are_never_removed `{Runtime} (st : StudentManagementApp) :
  current (conn st) = committed (conn st) ->
  (forall s,
      keeps_subjects (committed (conn st))
        (committed (conn (snd (db_upsert_student_normalized s st)))))
  /\ (forall u,
         keeps_subjects (committed (conn st))
           (committed (conn (snd (db_delete_student_normalized u st)))))
  /\ keeps_subjects (committed (conn st)) (committed (conn (snd (save_data st))))
  /\ (forall mode entries,
         keeps_subjects (committed (conn st))
           (committed (conn (snd (save mode entries st)))))
  /\ (forall selected confirm,
         keeps_subjects (committed (conn st))
           (committed (conn (snd (Toolbar.delete_student selected confirm st)))))
  /\ (forall u confirm,
         keeps_subjects (committed (conn st))
           (committed (conn (snd (_confirm_delete_and_refresh u confirm st))))).
Proof.
  intro Hidle.
  assert (Hc : keeps_subjects (committed (conn st)) (committed (conn st)))
    by (exists []; now rewrite app_nil_r).
  assert (Hd : keeps_subjects (committed (conn st)) (current (conn st)))
    by now rewrite Hidle.
  pose proof (fun r d => keeps_subjects_same (committed (conn st)) d
                           (insert_or_replace_student r d) eq_refl) as P1.
  pose proof (fun u d => keeps_subjects_same (committed (conn st)) d
                           (delete_student_subjects u d) eq_refl) as P2.
  pose proof (keeps_subjects_insert (committed (conn st))) as P3.
  pose proof (keeps_subjects_link (committed (conn st))) as P4.
  pose proof (fun p d => keeps_subjects_same (committed (conn st)) d
                           (delete_students_where p d) eq_refl) as P5.
  split; [| split; [| split; [| split; [| split]]]].
  - intro s. now apply (keeps_store_upsert _ P1 P2 P3 P4 s st).
  - intro u. now apply (keeps_store_delete _ P5 u st).
  - now apply (keeps_store_save_data _ P1 P2 P3 P4 P5 st).
  - intros mode entries. now apply (keeps_store_save _ P1 P2 P3 P4 mode entries st).
  - intros selected confirm.
    now apply (keeps_store_toolbar_delete _ P5 selected confirm st).
  - intros u confirm. now apply (keeps_store_confirm_delete _ P5 u confirm st).
Qed.

(* ================================================================= *)
(** ** The methods on the example data *)

Section Examples.

Local Existing Instance CPython.runtime.

(** C1 (the code falls short of it): [ann] is stored with one link;
    [ann_revised] is saved and the eighth statement, the insert of the
    second new link, fails. The store is left with the new row of
    [students], the old link gone and the first new link only: neither
    what it held before nor what a whole save leaves. The [with] block of
    [_get_subject_id] committed the open transaction at each subject. *)
Theorem upsert_commits_part :
  let st' := snd (db_upsert_student_normalized ann_revised
                    (failing_at 7 store_with_ann)) in
  stored "7" (committed (conn st'))
  = ([row_of_student ann_revised], [("Phy", py_float "1.0")])
  /\ stored "7" (committed (conn st')) <> stored "7" store_with_ann
  /\ stored "7" (committed (conn st'))
     <> stored "7" (upserted ann_revised store_with_ann)
  /\ dialogs st'
     = [showerror "Database Error" "Failed to save student 7: disk I/O error"]
  /\ ~ all_or_nothing ann_revised (failing_at 7 store_with_ann).
Proof.
  vm_compute. repeat split; try discriminate.
  intros [F | F]; discriminate F.
Qed.

(** Without database error the same save is whole and committed. *)
Example upsert_whole :
  let st' := snd (db_upsert_student_normalized ann_revised
                    (failing_at 8 store_with_ann)) in
  stored "7" (committed (conn st'))
  = ([row_of_student ann_revised],
     [("Chem", py_float "2.0"); ("Phy", py_float "1.0")])
  /\ committed (conn st') = upserted ann_revised store_with_ann.
Proof. vm_compute. split; reflexivity. Qed.

(** A failure of the first statement leaves the store as it was. *)
Example upsert_nothing :
  committed (conn (snd (db_upsert_student_normalized ann_revised
                          (failing_at 0 store_with_ann))))
  = store_with_ann.
Proof. vm_compute. reflexivity. Qed.

(** C2, as stated, fails on a student whose subjects are not in name
    order: [load_data] reads them back sorted by name. *)
Lemma save_then_load_reorders :
  students (snd ((db_upsert_student_normalized ann_revised ;; load_data)
                   fresh_app))
  = [ann_reloaded]
  /\ ~ In ann_revised
       (students (snd ((db_upsert_student_normalized ann_revised ;; load_data)
                         fresh_app))).
Proof.
  assert (E : students (snd ((db_upsert_student_normalized ann_revised ;;
                              load_data) fresh_app)) = [ann_reloaded])
    by (vm_compute; reflexivity).
  rewrite E. split; [reflexivity |].
  intros [F | []]. discriminate F.
Qed.

(** The sign of a zero is not kept: the mark entered as "-0" is the text
    "-0.0" in the record [save] creates and "0.0" in the record read
    back. *)
Example negative_zero_mark :
  students (snd (save_with (ret tt) add (mkForm "7" "Ann" "X" "A" "Math" "-0" "")
                   fresh_app))
  = [mkStudent "7" "Ann" "X" "A" ["Math"] ["-0.0"] ""]
  /\ students (snd (save add (mkForm "7" "Ann" "X" "A" "Math" "-0" "") fresh_app))
     = [mkStudent "7" "Ann" "X" "A" ["Math"] ["0.0"] ""].
Proof. vm_compute. split; reflexivity. Qed.

Lemma save_then_load_round_trip_witness :
  no_errors fresh_app
  /\ subject_ids_unique (current (conn fresh_app))
  /\ normal_form ann_reloaded
  /\ filter (same_uid (uid ann_reloaded))
       (students (snd ((db_upsert_student_normalized ann_reloaded ;; load_data)
                         fresh_app)))
     = [ann_reloaded].
Proof.
  assert (H1 : no_errors fresh_app) by reflexivity.
  assert (H2 : subject_ids_unique (current (conn fresh_app)))
    by apply empty_database_unique.
  assert (H3 : normal_form ann_reloaded).
  { repeat split.
    - repeat constructor.
    - repeat constructor; vm_compute; reflexivity. }
  split; [exact H1 | split; [exact H2 | split; [exact H3 |]]].
  apply (save_then_load_round_trip ann_reloaded fresh_app H1 H2 H3).
Defined.

(** C3 (the code falls short of it): with [ann] and [bob] in memory the
    query "ann" finds nothing, although [ann] matches it; only [bob], the
    last student, is tested. *)
Theorem search_misses_earlier_match :
  fst (search_students "ann" roster) = Return []
  /\ search_spec "ann" (students roster) = [ann].
Proof. vm_compute. split; reflexivity. Qed.

(** With nobody in memory the search raises. *)
Example search_on_empty_list :
  exists text,
    fst (search_students "ann" fresh_app) = Raise (UnboundLocalError text).
Proof. eexists. reflexivity. Qed.

Lemma equal_length_invariant_witness :
  Forall balanced (students roster)
  /\ (forall mode entries,
         (comma_items (entry_Subjects entries) <> [] ->
          Forall balanced
            (students (snd (save_with (ret tt) mode entries roster))))
         /\ Forall balanced (students (snd (save mode entries roster))))
  /\ (forall s,
         Forall balanced
           (students (snd (db_upsert_student_normalized s roster))))
  /\ Forall balanced (students (snd (load_data roster))).
Proof.
  assert (H1 : Forall balanced (students roster))
    by (repeat constructor).
  split; [exact H1 | apply (equal_length_invariant roster H1)].
Defined.

(** C4, as stated, fails: with no subject entered the form accepts marks,
    and the record [save] creates carries them without subjects. *)
Lemma save_creates_unbalanced :
  Forall balanced (students fresh_app)
  /\ students (snd (save_with (ret tt) add form_marks_only fresh_app))
     = [mkStudent "7" "Ann" "X" "A" [] ["90.0"] ""]
  /\ ~ Forall balanced
         (students (snd (save_with (ret tt) add form_marks_only fresh_app))).
Proof.
  split; [constructor |].
  assert (E : students (snd (save_with (ret tt) add form_marks_only fresh_app))
              = [mkStudent "7" "Ann" "X" "A" [] ["90.0"] ""])
    by (vm_compute; reflexivity).
  split; [exact E |].
  rewrite E. intro Hb. inversion Hb as [| ? ? Hs _]. discriminate Hs.
Qed.

(** The same in update mode: the record of [ann] is assigned the mark and
    no subject. *)
Example update_assigns_unbalanced :
  students (snd (save_with (ret tt) update form_marks_only roster))
  = [mkStudent "7" "Ann" "X" "A" [] ["90.0"] ""; bob].
Proof. vm_compute. reflexivity. Qed.

(** What is stored and reloaded has neither the mark nor a subject. *)
Example marks_without_subjects :
  students (snd (save add form_marks_only fresh_app))
  = [mkStudent "7" "Ann" "X" "A" [] [] ""].
Proof. vm_compute. reflexivity. Qed.

Lemma grade_thresholds_witness :
  valid_binary prec emax avg_87_75 = true
  /\ (at_least avg_87_75 90 -> _grade_of (Some avg_87_75) = "A")
  /\ (at_least avg_87_75 75 -> below avg_87_75 90 ->
      _grade_of (Some avg_87_75) = "B")
  /\ (below avg_87_75 75 -> _grade_of (Some avg_87_75) = "C").
Proof.
  assert (H1 : valid_binary prec emax avg_87_75 = true)
    by (vm_compute; reflexivity).
  split; [exact H1 | apply (grade_thresholds avg_87_75 H1)].
Defined.

Example grade_of_87_75 :
  at_least avg_87_75 75 /\ below avg_87_75 90
  /\ _grade_of (Some avg_87_75) = "B".
Proof. vm_compute. repeat split; discriminate. Qed.

Example average_of_ann :
  option_map py_str
    (_avg_of (mkStudent "7" "Ann" "X" "A" ["a"; "b"; "c"] ["90.0"; ""; "85.5"] ""))
  = Some "87.75"
  /\ _grade_of (_avg_of (mkStudent "7" "Ann" "X" "A" ["a"; "b"; "c"]
                                   ["90.0"; ""; "85.5"] "")) = "B".
Proof. vm_compute. split; reflexivity. Qed.

Lemma save_data_reconciles_witness :
  no_errors bob_over_ann
  /\ (forall r,
         In r (students_table (committed (conn (snd (save_data bob_over_ann))))) ->
         In (row_uid r) (map uid (students bob_over_ann)))
  /\ (students bob_over_ann = [] ->
      students_table (committed (conn (snd (save_data bob_over_ann)))) = []).
Proof.
  assert (H1 : no_errors bob_over_ann) by reflexivity.
  split; [exact H1 | apply (save_data_reconciles bob_over_ann H1)].
Defined.

Example save_data_drops_ann :
  map row_uid (students_table (committed (conn (snd (save_data bob_over_ann)))))
  = ["8"]
  /\ map student_uid
       (student_subjects_table (committed (conn (snd (save_data bob_over_ann)))))
     = ["8"].
Proof. vm_compute. split; reflexivity. Qed.

Lemma delete_leaves_no_links_witness :
  no_errors bob_over_ann
  /\ In "7" (map row_uid (students_table (current (conn bob_over_ann))))
  /\ committed (conn (snd (db_delete_student_normalized "7" bob_over_ann)))
     = current (conn (snd (db_delete_student_normalized "7" bob_over_ann)))
  /\ forall l,
       In l (student_subjects_table
               (committed (conn (snd (db_delete_student_normalized "7"
                                        bob_over_ann))))) ->
       student_uid l <> "7".
Proof.
  assert (H1 : no_errors bob_over_ann) by reflexivity.
  assert (H2 : In "7" (map row_uid (students_table (current (conn bob_over_ann)))))
    by (left; reflexivity).
  split; [exact H1 | split; [exact H2 |]].
  apply (delete_leaves_no_links "7" bob_over_ann H1 H2).
Defined.

Lemma save_blocked_on_unparsed_mark_witness :
  In "abc" (marks_input form_bad_mark)
  /\ py_float "abc" = None
  /\ (blocked_with "UID, Name and Class are required." roster
        (snd (save add form_bad_mark roster))
      \/ blocked_with "Number of subjects and marks must match." roster
           (snd (save add form_bad_mark roster))
      \/ blocked_with "Marks must be numeric." roster
           (snd (save add form_bad_mark roster))).
Proof.
  assert (H1 : In "abc" (marks_input form_bad_mark))
    by (vm_compute; auto).
  assert (H2 : py_float "abc" = None) by (vm_compute; reflexivity).
  split; [exact H1 | split; [exact H2 |]].
  apply (save_blocked_on_unparsed_mark add form_bad_mark roster "abc" H1 H2).
Defined.

Lemma add_rejects_existing_uid_witness :
  existsb (same_uid (strip (entry_UID form_ann_again))) (students roster) = true
  /\ students (snd (save add form_ann_again roster)) = students roster
  /\ conn (snd (save add form_ann_again roster)) = conn roster
  /\ exists warnings text,
       dialogs (snd (save add form_ann_again roster))
       = dialogs roster ++ warnings ++ [showerror "Error" text]
       /\ (warnings = []
           \/ exists e, warnings = [showwarning "Warning" e]).
Proof.
  assert (H1 : existsb (same_uid (strip (entry_UID form_ann_again)))
                 (students roster) = true) by (vm_compute; reflexivity).
  split; [exact H1 |].
  apply (add_rejects_existing_uid form_ann_again roster H1).
Defined.

Ltac distinct :=
  repeat (constructor; [cbn; intuition discriminate |]); constructor.

Lemma store_with_ann_consistent : consistent store_with_ann.
Proof.
  unfold consistent, uids_unique, subject_ids_unique, subject_names_unique,
    link_ids_unique.
  split; [distinct | split; [distinct | split; [distinct | split; [distinct |]]]].
  split; intros l [<- | []]; cbn; auto.
Qed.

Lemma store_with_both_consistent : consistent store_with_both.
Proof.
  unfold consistent, uids_unique, subject_ids_unique, subject_names_unique,
    link_ids_unique.
  split; [distinct | split; [distinct | split; [distinct | split; [distinct |]]]].
  split; intros l [<- | [<- | []]]; cbn; auto.
Qed.

Example roster_saved :
  committed (conn (snd (save_data roster))) = store_with_both
  /\ loaded store_with_both = [ann; bob].
Proof. vm_compute. split; reflexivity. Qed.

Lemma save_data_stores_the_list_witness :
  no_errors roster
  /\ NoDup (map uid (students roster))
  /\ students_table (committed (conn (snd (save_data roster))))
     = map row_of_student (students roster).
Proof.
  assert (H1 : no_errors roster) by reflexivity.
  assert (H2 : NoDup (map uid (students roster))) by distinct.
  split; [exact H1 | split; [exact H2 |]].
  apply (save_data_stores_the_list roster H1 H2).
Defined.

Lemma save_data_then_load_data_witness :
  no_errors roster
  /\ subject_ids_unique (current (conn roster))
  /\ NoDup (map uid (students roster))
  /\ students (snd ((save_data ;; load_data) roster))
     = map normalized (students roster).
Proof.
  assert (H1 : no_errors roster) by reflexivity.
  assert (H2 : subject_ids_unique (current (conn roster)))
    by apply empty_database_unique.
  assert (H3 : NoDup (map uid (students roster))) by distinct.
  split; [exact H1 | split; [exact H2 | split; [exact H3 |]]].
  apply (save_data_then_load_data roster H1 H2 H3).
Defined.

Lemma ann_normal_form : normal_form ann.
Proof.
  repeat split.
  - repeat constructor.
  - repeat constructor; vm_compute; reflexivity.
Qed.

Lemma bob_normal_form : normal_form bob.
Proof.
  repeat split.
  - repeat constructor.
  - repeat constructor; vm_compute; reflexivity.
Qed.

Lemma exit_then_load_keeps_list_witness :
  no_errors roster
  /\ subject_ids_unique (current (conn roster))
  /\ NoDup (map uid (students roster))
  /\ Forall normal_form (students roster)
  /\ students (snd ((_on_exit ;; load_data) roster)) = students roster.
Proof.
  assert (H1 : no_errors roster) by reflexivity.
  assert (H2 : subject_ids_unique (current (conn roster)))
    by apply empty_database_unique.
  assert (H3 : NoDup (map uid (students roster))) by distinct.
  assert (H4 : Forall normal_form (students roster)).
  { constructor; [apply ann_normal_form |].
    constructor; [apply bob_normal_form | constructor]. }
  split; [exact H1 | split; [exact H2 | split; [exact H3 | split; [exact H4 |]]]].
  apply (exit_then_load_keeps_list roster H1 H2 H3 H4).
Defined.

Lemma upsert_leaves_other_students_witness :
  no_errors bob_over_ann
  /\ subject_ids_unique (current (conn bob_over_ann))
  /\ subject_keys_hold (current (conn bob_over_ann))
  /\ "7" <> uid bob
  /\ stored "7" (committed (conn (snd (db_upsert_student_normalized bob
                                          bob_over_ann))))
     = stored "7" (current (conn bob_over_ann)).
Proof.
  assert (H1 : no_errors bob_over_ann) by reflexivity.
  assert (H2 : subject_ids_unique (current (conn bob_over_ann)))
    by apply store_with_ann_consistent.
  assert (H3 : subject_keys_hold (current (conn bob_over_ann)))
    by apply store_with_ann_consistent.
  assert (H4 : "7" <> uid bob) by discriminate.
  split; [exact H1 | split; [exact H2 | split; [exact H3 | split; [exact H4 |]]]].
  apply (upsert_leaves_other_students bob "7" bob_over_ann H1 H2 H3 H4).
Defined.

Lemma delete_leaves_other_students_witness :
  no_errors roster_stored
  /\ "8" <> "7"
  /\ stored "8" (committed (conn (snd (db_delete_student_normalized "7"
                                         roster_stored))))
     = stored "8" (current (conn roster_stored))
  /\ filter (has_uid "7")
       (students_table (committed (conn (snd (db_delete_student_normalized "7"
                                                roster_stored)))))
     = [].
Proof.
  assert (H1 : no_errors roster_stored) by reflexivity.
  assert (H2 : "8" <> "7") by discriminate.
  split; [exact H1 | split; [exact H2 |]].
  apply (delete_leaves_other_students "7" "8" roster_stored H1 H2).
Defined.

Lemma schema_constraints_kept_witness :
  consistent (committed (conn roster_stored))
  /\ consistent (current (conn roster_stored))
  /\ (forall s, consistent (committed (conn (snd (db_upsert_student_normalized
                                                    s roster_stored)))))
  /\ (forall u, consistent (committed (conn (snd (db_delete_student_normalized
                                                    u roster_stored)))))
  /\ consistent (committed (conn (snd (save_data roster_stored))))
  /\ (forall mode entries,
        consistent (committed (conn (snd (save mode entries roster_stored))))).
Proof.
  assert (H1 : consistent (committed (conn roster_stored)))
    by apply store_with_both_consistent.
  assert (H2 : consistent (current (conn roster_stored)))
    by apply store_with_both_consistent.
  split; [exact H1 | split; [exact H2 |]].
  apply (schema_constraints_kept roster_stored H1 H2).
Defined.

Lemma one_record_per_uid_kept_witness :
  one_record_per_uid roster_stored
  /\ (forall mode entries,
        one_record_per_uid (snd (save mode entries roster_stored)))
  /\ (forall selected confirm,
        one_record_per_uid
          (snd (Toolbar.delete_student selected confirm roster_stored)))
  /\ (forall u confirm,
        one_record_per_uid
          (snd (_confirm_delete_and_refresh u confirm roster_stored)))
  /\ one_record_per_uid (snd (load_data roster_stored))
  /\ one_record_per_uid (snd (save_data roster_stored)).
Proof.
  assert (H1 : one_record_per_uid roster_stored).
  { split; [apply store_with_both_consistent |].
    split; [apply store_with_both_consistent | distinct]. }
  split; [exact H1 |].
  apply (one_record_per_uid_kept roster_stored H1).
Defined.

Lemma failed_load_then_exit_clears_witness :
  faults (conn (failing_at 0 store_with_both)) = [true]
  /\ students_table
       (committed (conn (snd ((load_data ;; _on_exit)
                                (failing_at 0 store_with_both)))))
     = []
  /\ students (snd ((load_data ;; _on_exit) (failing_at 0 store_with_both)))
     = []
  /\ dialogs (snd ((load_data ;; _on_exit) (failing_at 0 store_with_both)))
     = dialogs (failing_at 0 store_with_both)
       ++ [showerror "Database Error"
             "Failed to load students from database: disk I/O error"].
Proof.
  assert (H1 : faults (conn (failing_at 0 store_with_both)) = [true])
    by reflexivity.
  split; [exact H1 |].
  apply (failed_load_then_exit_clears (failing_at 0 store_with_both) H1).
Defined.

Lemma get_subject_id_shares_row_witness :
  no_errors fresh_app
  /\ nonblank "Math" = true
  /\ nonblank " Math " = true
  /\ strip " Math " = strip "Math"
  /\ (exists sid,
        fst (_get_subject_id "Math" fresh_app) = Return (Some sid)
        /\ fst (_get_subject_id " Math "
                  (snd (_get_subject_id "Math" fresh_app)))
           = Return (Some sid))
  /\ subjects_table
       (committed (conn (snd (_get_subject_id " Math "
                                (snd (_get_subject_id "Math" fresh_app))))))
     = subjects_table (committed (conn (snd (_get_subject_id "Math" fresh_app)))).
Proof.
  assert (H1 : no_errors fresh_app) by reflexivity.
  assert (H2 : nonblank "Math" = true) by reflexivity.
  assert (H3 : nonblank " Math " = true) by reflexivity.
  assert (H4 : strip " Math " = strip "Math") by reflexivity.
  split; [exact H1 | split; [exact H2 | split; [exact H3 | split; [exact H4 |]]]].
  apply (get_subject_id_shares_row "Math" " Math " fresh_app H1 H2 H3 H4).
Defined.

Lemma reloaded_student_is_normal_witness :
  no_errors fresh_app
  /\ subject_ids_unique (current (conn fresh_app))
  /\ py_float "" = None
  /\ Forall (fun m => forall v, bind_real (py_float m) = Some v ->
                                bind_real (py_float (py_str v)) = Some v)
            (marks ann_revised)
  /\ exists r,
       filter (same_uid (uid ann_revised))
         (students (snd ((db_upsert_student_normalized ann_revised ;;
                          load_data) fresh_app))) = [r]
       /\ normal_form r
       /\ filter (same_uid (uid ann_revised))
            (students
               (snd ((db_upsert_student_normalized r ;; load_data)
                       (snd ((db_upsert_student_normalized ann_revised ;;
                              load_data) fresh_app))))) = [r].
Proof.
  assert (H1 : no_errors fresh_app) by reflexivity.
  assert (H2 : subject_ids_unique (current (conn fresh_app)))
    by apply empty_database_unique.
  assert (H3 : py_float "" = None) by (vm_compute; reflexivity).
  assert (H4 : Forall (fun m => forall v, bind_real (py_float m) = Some v ->
                                bind_real (py_float (py_str v)) = Some v)
                 (marks ann_revised)).
  { repeat constructor; intros v E; vm_compute in E; injection E as <-;
      vm_compute; reflexivity. }
  split; [exact H1 | split; [exact H2 | split; [exact H3 | split; [exact H4 |]]]].
  apply (reloaded_student_is_normal ann_revised fresh_app H1 H2 H3 H4).
Defined.

Lemma delete_student_removes_witness :
  no_errors roster_stored
  /\ committed (conn (snd (Toolbar.delete_student (Some "7") true roster_stored)))
     = delete_student "7" (current (conn roster_stored))
  /\ students (snd (Toolbar.delete_student (Some "7") true roster_stored))
     = filter (fun s => negb (same_uid "7" s))
              (loaded (current (conn roster_stored)))
  /\ ~ In "7" (map uid (students (snd (Toolbar.delete_student (Some "7") true
                                         roster_stored))))
  /\ dialogs (snd (Toolbar.delete_student (Some "7") true roster_stored))
     = dialogs roster_stored ++ [showinfo "Deleted" "Student removed."].
Proof.
  assert (H1 : no_errors roster_stored) by reflexivity.
  split; [exact H1 |].
  apply (delete_student_removes "7" roster_stored H1).
Defined.

Lemma delete_student_failed_delete_witness :
  faults (conn (failing_at 0 store_with_both)) = [true]
  /\ committed (conn (snd (Toolbar.delete_student (Some "7") true
                             (failing_at 0 store_with_both))))
     = committed (conn (failing_at 0 store_with_both))
  /\ students (snd (Toolbar.delete_student (Some "7") true
                      (failing_at 0 store_with_both)))
     = loaded (committed (conn (failing_at 0 store_with_both)))
  /\ dialogs (snd (Toolbar.delete_student (Some "7") true
                     (failing_at 0 store_with_both)))
     = dialogs (failing_at 0 store_with_both)
       ++ [showerror "Database Error"
             ("Failed to delete student " ++ "7" ++ ": disk I/O error");
           showinfo "Deleted" "Student removed."].
Proof.
  assert (H1 : faults (conn (failing_at 0 store_with_both)) = [true])
    by reflexivity.
  split; [exact H1 |].
  apply (delete_student_failed_delete "7" (failing_at 0 store_with_both) H1).
Defined.

Lemma confirm_delete_keeps_in_step_witness :
  no_errors roster_stored
  /\ students roster_stored = loaded (current (conn roster_stored))
  /\ students (snd (_confirm_delete_and_refresh "7" true roster_stored))
     = loaded (committed (conn (snd (_confirm_delete_and_refresh "7" true
                                       roster_stored))))
  /\ students (snd (_confirm_delete_and_refresh "7" true roster_stored))
     = filter (fun s => negb (same_uid "7" s)) (students roster_stored).
Proof.
  assert (H1 : no_errors roster_stored) by reflexivity.
  assert (H2 : students roster_stored = loaded (current (conn roster_stored)))
    by (vm_compute; reflexivity).
  split; [exact H1 | split; [exact H2 |]].
  apply (confirm_delete_keeps_in_step "7" roster_stored H1 H2).
Defined.

Lemma add_stores_and_lists_student_witness :
  no_errors roster_stored
  /\ subject_ids_unique (current (conn roster_stored))
  /\ accepted form_cy ["90.0"; "80.5"]
  /\ img_path_var form_cy = ""
  /\ existsb (same_uid (strip (entry_UID form_cy))) (students roster_stored)
     = false
  /\ committed (conn (snd (save add form_cy roster_stored)))
     = upserted (entered form_cy ["90.0"; "80.5"]) (current (conn roster_stored))
  /\ students (snd (save add form_cy roster_stored))
     = loaded (committed (conn (snd (save add form_cy roster_stored))))
  /\ filter (same_uid (uid (entered form_cy ["90.0"; "80.5"])))
       (students (snd (save add form_cy roster_stored)))
     = [normalized (entered form_cy ["90.0"; "80.5"])]
  /\ dialogs (snd (save add form_cy roster_stored))
     = dialogs roster_stored ++ [showinfo "Success" "Student added."].
Proof.
  assert (H1 : no_errors roster_stored) by reflexivity.
  assert (H2 : subject_ids_unique (current (conn roster_stored)))
    by apply store_with_both_consistent.
  assert (H3 : accepted form_cy ["90.0"; "80.5"]).
  { split; [reflexivity | split; [right; reflexivity |]].
    vm_compute. reflexivity. }
  assert (H4 : img_path_var form_cy = "") by reflexivity.
  assert (H5 : existsb (same_uid (strip (entry_UID form_cy)))
                 (students roster_stored) = false) by reflexivity.
  split; [exact H1 | split; [exact H2 | split; [exact H3 |
    split; [exact H4 | split; [exact H5 |]]]]].
  apply (add_stores_and_lists_student form_cy ["90.0"; "80.5"] roster_stored
           H1 H2 H3 H4 H5).
Defined.

Lemma update_of_unknown_uid_witness :
  no_errors roster_stored
  /\ accepted form_cy ["90.0"; "80.5"]
  /\ img_path_var form_cy = ""
  /\ existsb (same_uid (strip (entry_UID form_cy))) (students roster_stored)
     = false
  /\ conn (snd (save update form_cy roster_stored)) = conn roster_stored
  /\ students (snd (save update form_cy roster_stored))
     = loaded (current (conn roster_stored))
  /\ dialogs (snd (save update form_cy roster_stored))
     = dialogs roster_stored
       ++ [showerror "Error" "Student not found in memory."].
Proof.
  assert (H1 : no_errors roster_stored) by reflexivity.
  assert (H2 : accepted form_cy ["90.0"; "80.5"]).
  { split; [reflexivity | split; [right; reflexivity |]].
    vm_compute. reflexivity. }
  assert (H3 : img_path_var form_cy = "") by reflexivity.
  assert (H4 : existsb (same_uid (strip (entry_UID form_cy)))
                 (students roster_stored) = false) by reflexivity.
  split; [exact H1 | split; [exact H2 | split; [exact H3 | split; [exact H4 |]]]].
  apply (update_of_unknown_uid form_cy ["90.0"; "80.5"] roster_stored
           H1 H2 H3 H4).
Defined.

Lemma ann_presentable : presentable ann.
Proof.
  unfold presentable, plain.
  split; [repeat split |].
  split; [repeat split |].
  split; [repeat split |].
  split; [reflexivity |].
  split; [repeat constructor |].
  split; [| discriminate].
  repeat constructor.
  match eval vm_compute in (py_float "50.0") with
  | Some ?v => exists v
  end.
  split; vm_compute; reflexivity.
Qed.

Lemma unedited_update_keeps_student_witness :
  no_errors roster_stored
  /\ subject_ids_unique (current (conn roster_stored))
  /\ find (same_uid (uid ann)) (students roster_stored) = Some ann
  /\ presentable ann
  /\ normal_form ann
  /\ update_student_form (Some (uid ann)) roster_stored
     = (Return (Some (_student_form (Some ann))), roster_stored)
  /\ committed (conn (snd (save update (_student_form (Some ann)) roster_stored)))
     = upserted ann (current (conn roster_stored))
  /\ filter (same_uid (uid ann))
       (students (snd (save update (_student_form (Some ann)) roster_stored)))
     = [ann]
  /\ dialogs (snd (save update (_student_form (Some ann)) roster_stored))
     = dialogs roster_stored ++ [showinfo "Success" "Student updated."].
Proof.
  assert (H1 : no_errors roster_stored) by reflexivity.
  assert (H2 : subject_ids_unique (current (conn roster_stored)))
    by apply store_with_both_consistent.
  assert (H3 : find (same_uid (uid ann)) (students roster_stored) = Some ann)
    by reflexivity.
  assert (H4 : presentable ann) by apply ann_presentable.
  assert (H5 : normal_form ann) by apply ann_normal_form.
  split; [exact H1 | split; [exact H2 | split; [exact H3 |
    split; [exact H4 | split; [exact H5 |]]]]].
  apply (unedited_update_keeps_student ann roster_stored H1 H2 H3 H4 H5).
Defined.

Lemma update_form_reads_back_witness :
  Forall plain (subjects cy)
  /\ Forall plain (marks cy)
  /\ comma_items (entry_Subjects (_student_form (Some cy))) = subjects cy
  /\ comma_items (entry_Marks (_student_form (Some cy))) = marks cy.
Proof.
  assert (H1 : Forall plain (subjects cy)) by (repeat constructor).
  assert (H2 : Forall plain (marks cy)) by (repeat constructor).
  split; [exact H1 | split; [exact H2 |]].
  apply (update_form_reads_back cy H1 H2).
Defined.

Lemma apply_filters_shows_matching_witness :
  fst (apply_filters class_x_from_60 roster) = Return (Some [bob])
  /\ exists min_avg max_avg,
       bound_of (min_avg_var class_x_from_60) = Some min_avg
       /\ bound_of (max_avg_var class_x_from_60) = Some max_avg
       /\ (exists keep, [bob] = filter keep (students roster))
       /\ forall s, In s [bob]
                    <-> In s (students roster)
                        /\ meets class_x_from_60 min_avg max_avg s.
Proof.
  assert (H1 : fst (apply_filters class_x_from_60 roster) = Return (Some [bob]))
    by (vm_compute; reflexivity).
  split; [exact H1 |].
  apply (apply_filters_shows_matching class_x_from_60 roster [bob] H1).
Defined.

Lemma apply_filters_rejects_bound_witness :
  ((strip (min_avg_var bound_abc) <> ""
    /\ py_float (strip (min_avg_var bound_abc)) = None)
   \/ (strip (max_avg_var bound_abc) <> ""
       /\ py_float (strip (max_avg_var bound_abc)) = None))
  /\ apply_filters bound_abc roster
     = (Return None,
        mkApp (students roster) (conn roster)
          (dialogs roster
           ++ [showerror "Error" "Min/Max averages must be numeric."])).
Proof.
  assert (H1 : (strip (min_avg_var bound_abc) <> ""
                /\ py_float (strip (min_avg_var bound_abc)) = None)
               \/ (strip (max_avg_var bound_abc) <> ""
                   /\ py_float (strip (max_avg_var bound_abc)) = None)).
  { left. split; [discriminate | vm_compute; reflexivity]. }
  split; [exact H1 |].
  apply (apply_filters_rejects_bound bound_abc roster H1).
Defined.

Lemma silent_upsert_is_whole_witness :
  dialogs (snd (db_upsert_student_normalized ann_revised
                  (failing_at 20 store_with_both)))
  = dialogs (failing_at 20 store_with_both)
  /\ committed (conn (snd (db_upsert_student_normalized ann_revised
                             (failing_at 20 store_with_both))))
     = upserted ann_revised (current (conn (failing_at 20 store_with_both)))
  /\ current (conn (snd (db_upsert_student_normalized ann_revised
                           (failing_at 20 store_with_both))))
     = committed (conn (snd (db_upsert_student_normalized ann_revised
                               (failing_at 20 store_with_both))))
  /\ students (snd (db_upsert_student_normalized ann_revised
                      (failing_at 20 store_with_both)))
     = students (failing_at 20 store_with_both).
Proof.
  assert (H1 : dialogs (snd (db_upsert_student_normalized ann_revised
                               (failing_at 20 store_with_both)))
               = dialogs (failing_at 20 store_with_both))
    by (vm_compute; reflexivity).
  split; [exact H1 |].
  apply (silent_upsert_is_whole ann_revised (failing_at 20 store_with_both) H1).
Defined.

Lemma silent_save_data_is_whole_witness :
  dialogs (snd (save_data bob_over_ann)) = dialogs bob_over_ann
  /\ committed (conn (snd (save_data bob_over_ann)))
     = reconciled (students bob_over_ann) (current (conn bob_over_ann))
  /\ current (conn (snd (save_data bob_over_ann)))
     = committed (conn (snd (save_data bob_over_ann)))
  /\ students (snd (save_data bob_over_ann)) = students bob_over_ann.
Proof.
  assert (H1 : dialogs (snd (save_data bob_over_ann)) = dialogs bob_over_ann)
    by (vm_compute; reflexivity).
  split; [exact H1 |].
  apply (silent_save_data_is_whole bob_over_ann H1).
Defined.

Lemma subjects_are_never_removed_witness :
  current (conn roster_stored) = committed (conn roster_stored)
  /\ (forall s,
         keeps_subjects (committed (conn roster_stored))
           (committed (conn (snd (db_upsert_student_normalized s
                                    roster_stored)))))
  /\ (forall u,
         keeps_subjects (committed (conn roster_stored))
           (committed (conn (snd (db_delete_student_normalized u
                                    roster_stored)))))
  /\ keeps_subjects (committed (conn roster_stored))
       (committed (conn (snd (save_data roster_stored))))
  /\ (forall mode entries,
         keeps_subjects (committed (conn roster_stored))
           (committed (conn (snd (save mode entries roster_stored)))))
  /\ (forall selected confirm,
         keeps_subjects (committed (conn roster_stored))
           (committed (conn (snd (Toolbar.delete_student selected confirm
                                    roster_stored)))))
  /\ (forall u confirm,
         keeps_subjects (committed (conn roster_stored))
           (committed (conn (snd (_confirm_delete_and_refresh u confirm
                                    roster_stored))))).
Proof.
  assert (H1 : current (conn roster_stored) = committed (conn roster_stored))
    by reflexivity.
  split; [exact H1 |].
  apply (subjects_are_never_removed roster_stored H1).
Defined.

Lemma add_with_failed_save_witness :
  faults (conn (failing_at 0 store_with_both)) = [true]
  /\ accepted form_cy ["90.0"; "80.5"]
  /\ img_path_var form_cy = ""
  /\ existsb (same_uid (strip (entry_UID form_cy)))
       (students (failing_at 0 store_with_both)) = false
  /\ committed (conn (snd (save add form_cy (failing_at 0 store_with_both))))
     = committed (conn (failing_at 0 store_with_both))
  /\ students (snd (save add form_cy (failing_at 0 store_with_both)))
     = loaded (committed (conn (failing_at 0 store_with_both)))
  /\ dialogs (snd (save add form_cy (failing_at 0 store_with_both)))
     = dialogs (failing_at 0 store_with_both)
       ++ [showerror "Database Error"
             ("Failed to save student " ++ strip (entry_UID form_cy)
              ++ ": disk I/O error");
           showinfo "Success" "Student added."].
Proof.
  assert (H1 : faults (conn (failing_at 0 store_with_both)) = [true])
    by reflexivity.
  assert (H2 : accepted form_cy ["90.0"; "80.5"]).
  { split; [reflexivity | split; [right; reflexivity |]].
    vm_compute. reflexivity. }
  assert (H3 : img_path_var form_cy = "") by reflexivity.
  assert (H4 : existsb (same_uid (strip (entry_UID form_cy)))
                 (students (failing_at 0 store_with_both)) = false)
    by reflexivity.
  split; [exact H1 | split; [exact H2 | split; [exact H3 | split; [exact H4 |]]]].
  apply (add_with_failed_save form_cy ["90.0"; "80.5"]
           (failing_at 0 store_with_both) H1 H2 H3 H4).
Defined.

Lemma update_stores_and_lists_student_witness :
  no_errors roster_stored
  /\ subject_ids_unique (current (conn roster_stored))
  /\ accepted form_ann_edit ["1.0"; "2.0"]
  /\ img_path_var form_ann_edit = ""
  /\ find (same_uid (strip (entry_UID form_ann_edit))) (students roster_stored)
     = Some ann
  /\ committed (conn (snd (save update form_ann_edit roster_stored)))
     = upserted
         (assign_fields (strip (entry_Name form_ann_edit))
            (strip (entry_Class form_ann_edit))
            (strip (entry_Section form_ann_edit))
            (comma_items (entry_Subjects form_ann_edit)) ["1.0"; "2.0"] "" ann)
         (current (conn roster_stored))
  /\ students (snd (save update form_ann_edit roster_stored))
     = loaded (committed (conn (snd (save update form_ann_edit roster_stored))))
  /\ filter (same_uid (uid ann))
       (students (snd (save update form_ann_edit roster_stored)))
     = [normalized
          (assign_fields (strip (entry_Name form_ann_edit))
             (strip (entry_Class form_ann_edit))
             (strip (entry_Section form_ann_edit))
             (comma_items (entry_Subjects form_ann_edit)) ["1.0"; "2.0"] "" ann)]
  /\ dialogs (snd (save update form_ann_edit roster_stored))
     = dialogs roster_stored ++ [showinfo "Success" "Student updated."].
Proof.
  assert (H1 : no_errors roster_stored) by reflexivity.
  assert (H2 : subject_ids_unique (current (conn roster_stored)))
    by apply store_with_both_consistent.
  assert (H3 : accepted form_ann_edit ["1.0"; "2.0"]).
  { split; [reflexivity | split; [right; reflexivity |]].
    vm_compute. reflexivity. }
  assert (H4 : img_path_var form_ann_edit = "") by reflexivity.
  assert (H5 : find (same_uid (strip (entry_UID form_ann_edit)))
                 (students roster_stored) = Some ann) by reflexivity.
  split; [exact H1 | split; [exact H2 | split; [exact H3 |
    split; [exact H4 | split; [exact H5 |]]]]].
  apply (update_stores_and_lists_student form_ann_edit ["1.0"; "2.0"] ann
           roster_stored H1 H2 H3 H4 H5).
Defined.

Example ann_edited :
  filter (same_uid "7") (students (snd (save update form_ann_edit roster_stored)))
  = [ann_reloaded].
Proof. vm_compute. reflexivity. Qed.

End Examples.
